(** * cicd/upload.py: upload of the plugin archive to OSS

    A shallow embedding of [src/cicd/upload.py] and the properties of its
    specification.

    - Python [str] values are lists of Unicode code points ([Z]); a
      literal of the source is written [lit "..."]. The methods of [str]
      and the functions of [urllib.parse] that the script calls are modelled
      in the modules [Py] and [Urllib].
    - The process environment is a finite map from names to values.
    - Everything the script does to the outside world (reading the
      environment, testing the file, importing the SDK, the put request,
      the two output streams) is recorded, in order, in a log of events.
      What the world answers is a parameter, [World].
    - An exception is a value: a computation returns an exception or a
      result, with the events up to that point.
    - [argparse] is reduced to its result: the two options, each given or
      left to its default. A command line that [argparse] refuses, or one
      that asks for the help text, leaves the program by [SystemExit] before
      the [try] of [main] does anything; such runs are outside [Argv], and
      every statement about [main] is about a command line that parses.
    - The test of the file can answer yes or no or let an [OSError]
      through; the standard output can refuse a line it cannot encode. Both
      are answers of the [World].
    - The SDK is reduced to the one call the script makes, which answers a
      status or raises. *)

From Stdlib Require Import ZArith List String Ascii Lia DecimalString Bool.
From stdpp Require Import base gmap.
Import ListNotations.
Local Open Scope Z_scope.

(** ** Python strings *)

Abbreviation pystr := (list Z).

Module Py.

(** A source literal (ASCII) as a list of code points. *)
Fixpoint lit (s : string) : pystr :=
  match s with
  | EmptyString => []
  | String a t => Z.of_N (N_of_ascii a) :: lit t
  end.

(** [str.isspace] on one code point: the white space of [str.strip()]. *)
Definition isspace (c : Z) : bool :=
  ((0x09 <=? c) && (c <=? 0x0D)) || ((0x1C <=? c) && (c <=? 0x20))
  || (c =? 0x85) || (c =? 0xA0) || (c =? 0x1680)
  || ((0x2000 <=? c) && (c <=? 0x200A))
  || (c =? 0x2028) || (c =? 0x2029) || (c =? 0x202F) || (c =? 0x205F)
  || (c =? 0x3000).

(** Membership of a code point in the argument of [strip(chars)]. *)
Definition one_of (chars : pystr) (c : Z) : bool := existsb (Z.eqb c) chars.

Section Strip.
Variable p : Z -> bool.

Fixpoint lstrip_by (s : pystr) : pystr :=
  match s with
  | [] => []
  | c :: t => if p c then lstrip_by t else s
  end.

Fixpoint rstrip_by (s : pystr) : pystr :=
  match s with
  | [] => []
  | c :: t =>
      match rstrip_by t with
      | [] => if p c then [] else [c]
      | r => c :: r
      end
  end.

Definition strip_by (s : pystr) : pystr := rstrip_by (lstrip_by s).
End Strip.

(** [s.strip()], [s.strip(chars)], [s.rstrip(chars)]. *)
Definition strip (s : pystr) : pystr := strip_by isspace s.
Definition strip_chars (chars s : pystr) : pystr := strip_by (one_of chars) s.
Definition rstrip_chars (chars s : pystr) : pystr := rstrip_by (one_of chars) s.

(** [s.startswith(p)]. *)
Fixpoint startswith (s p : pystr) {struct p} : bool :=
  match p, s with
  | [], _ => true
  | _ :: _, [] => false
  | a :: p', c :: s' => (c =? a) && startswith s' p'
  end.

(** [s.replace(old, new)] for a non-empty [old]: the occurrences of [old]
    are replaced from left to right, without overlap. [skip] counts the
    characters of a matched occurrence that are still to be passed. *)
Fixpoint replace_from (old new : pystr) (skip : nat) (s : pystr) : pystr :=
  match s with
  | [] => []
  | c :: t =>
      match skip with
      | S k => replace_from old new k t
      | O =>
          if startswith s old
          then new ++ replace_from old new (Nat.pred (List.length old)) t
          else c :: replace_from old new O t
      end
  end.

(** With an empty [old], Python puts [new] before every character and at
    the end. *)
Definition replace (s old new : pystr) : pystr :=
  match old with
  | [] => new ++ concat (map (fun c => c :: new) s)
  | _ :: _ => replace_from old new O s
  end.

(** [sep.join(parts)]. *)
Fixpoint join (sep : pystr) (parts : list pystr) : pystr :=
  match parts with
  | [] => []
  | [x] => x
  | x :: rest => x ++ sep ++ join sep rest
  end.

(** [str(n)] for an [int]: decimal, with a minus sign. *)
Definition str_of_int (n : Z) : pystr := lit (NilZero.string_of_int (Z.to_int n)).

(** [x or y] on strings. *)
Definition or_else (x y : pystr) : pystr :=
  match x with [] => y | _ :: _ => x end.

(** [sub in s]. *)
Fixpoint contains (s sub : pystr) : bool :=
  startswith s sub || match s with [] => false | _ :: t => contains t sub end.

(** *** UTF-8, as [str.encode('utf-8')] and [bytes.decode('utf-8')] in
    strict mode. Bytes are numbers below 256. *)

Definition is_surrogate (c : Z) : bool := (0xD800 <=? c) && (c <=? 0xDFFF).

(** The bytes of one code point; surrogates (and numbers that are no code
    points) have none. *)
Definition utf8_char (c : Z) : option (list Z) :=
  if c <? 0 then None
  else if c <? 0x80 then Some [c]
  else if c <? 0x800 then Some [0xC0 + c / 64; 0x80 + c mod 64]
  else if c <? 0x10000 then
    if is_surrogate c then None
    else Some [0xE0 + c / 4096; 0x80 + (c / 64) mod 64; 0x80 + c mod 64]
  else if c <? 0x110000 then
    Some [0xF0 + c / 262144; 0x80 + (c / 4096) mod 64;
          0x80 + (c / 64) mod 64; 0x80 + c mod 64]
  else None.

Fixpoint utf8_encode (s : pystr) : option (list Z) :=
  match s with
  | [] => Some []
  | c :: t =>
      match utf8_char c, utf8_encode t with
      | Some bs, Some r => Some (bs ++ r)
      | _, _ => None
      end
  end.

Definition is_cont (b : Z) : bool := (0x80 <=? b) && (b <=? 0xBF).

(** Strict decoding: overlong forms, surrogates and values above
    U+10FFFF are refused. *)
Fixpoint utf8_decode (bs : list Z) : option pystr :=
  match bs with
  | [] => Some []
  | b0 :: t0 =>
      if (0 <=? b0) && (b0 <? 0x80) then option_map (cons b0) (utf8_decode t0)
      else if (0xC2 <=? b0) && (b0 <=? 0xDF) then
        match t0 with
        | b1 :: t1 =>
            if is_cont b1
            then option_map (cons ((b0 - 0xC0) * 64 + (b1 - 0x80))) (utf8_decode t1)
            else None
        | _ => None
        end
      else if (0xE0 <=? b0) && (b0 <=? 0xEF) then
        match t0 with
        | b1 :: b2 :: t2 =>
            let c := (b0 - 0xE0) * 4096 + (b1 - 0x80) * 64 + (b2 - 0x80) in
            if is_cont b1 && is_cont b2 && (0x800 <=? c) && negb (is_surrogate c)
            then option_map (cons c) (utf8_decode t2)
            else None
        | _ => None
        end
      else if (0xF0 <=? b0) && (b0 <=? 0xF4) then
        match t0 with
        | b1 :: b2 :: b3 :: t3 =>
            let c := (b0 - 0xF0) * 262144 + (b1 - 0x80) * 4096
                     + (b2 - 0x80) * 64 + (b3 - 0x80) in
            if is_cont b1 && is_cont b2 && is_cont b3
               && (0x10000 <=? c) && (c <? 0x110000)
            then option_map (cons c) (utf8_decode t3)
            else None
        | _ => None
        end
      else None
  end.

(** A string that [encode('utf-8')] accepts: code points without the
    surrogates. *)
Definition encodable_char (c : Z) : bool :=
  (0 <=? c) && (c <? 0x110000) && negb (is_surrogate c).
Definition encodable (s : pystr) : bool := forallb encodable_char s.

(** *** Exceptions

    The script raises [RuntimeError] itself; [quote] raises
    [UnicodeEncodeError] (codec utf-8, reason "surrogates not allowed") for
    the slice [start, stop) of its argument; [SdkError] stands for any
    [Exception] that comes out of the SDK call, with its text; [OSError]
    is what [Path.is_file] lets through, with its text; [StreamError] is a
    [UnicodeEncodeError] of an output stream with another codec than UTF-8,
    with its text. *)
Inductive exn : Type :=
| RuntimeError (msg : pystr)
| UnicodeEncodeError (object : pystr) (start stop : nat)
| SdkError (msg : pystr)
| OSError (msg : pystr)
| StreamError (msg : pystr).

Definition hexdigit_lower (d : Z) : Z := if d <? 10 then 48 + d else 87 + d.

(** The escape of a surrogate in the text of the error: a backslash, [u]
    and four lower-case hexadecimal digits. *)
Definition escape_u (c : Z) : pystr :=
  lit "\u" ++ map hexdigit_lower [(c / 4096) mod 16; (c / 256) mod 16; (c / 16) mod 16; c mod 16].

Definition str_of_nat (n : nat) : pystr := str_of_int (Z.of_nat n).

(** [str(error)]. *)
Definition exn_str (e : exn) : pystr :=
  match e with
  | RuntimeError msg => msg
  | SdkError msg => msg
  | OSError msg => msg
  | StreamError msg => msg
  | UnicodeEncodeError object start stop =>
      if (stop =? S start)%nat
      then lit "'utf-8' codec can't encode character '" ++ escape_u (nth start object 0)
           ++ lit "' in position " ++ str_of_nat start ++ lit ": surrogates not allowed"
      else lit "'utf-8' codec can't encode characters in position " ++ str_of_nat start
           ++ lit "-" ++ str_of_nat (Nat.pred stop) ++ lit ": surrogates not allowed"
  end.

(** Where the encoder stops: the index of the first character it cannot
    encode, and the end of the run of surrogates that starts there. *)
Fixpoint first_unencodable (s : pystr) : nat :=
  match s with
  | [] => O
  | c :: t => if encodable_char c then S (first_unencodable t) else O
  end.

Fixpoint surrogate_run (s : pystr) : nat :=
  match s with
  | [] => O
  | c :: t => if is_surrogate c then S (surrogate_run t) else O
  end.

Definition encode_error (s : pystr) : exn :=
  let start := first_unencodable s in
  UnicodeEncodeError s start (S start + surrogate_run (skipn (S start) s)).

End Py.

Import Py.

(** ** urllib.parse *)

Module Urllib.

(** The bytes [quote] never escapes: letters, digits and [_.-~]. *)
Definition always_safe (b : Z) : bool :=
  ((65 <=? b) && (b <=? 90)) || ((97 <=? b) && (b <=? 122))
  || ((48 <=? b) && (b <=? 57))
  || (b =? 95) || (b =? 46) || (b =? 45) || (b =? 126).

Definition hexdigit_upper (d : Z) : Z := if d <? 10 then 48 + d else 55 + d.

(** One byte of [quote_from_bytes]: itself when it is safe, [%XX]
    otherwise. *)
Definition quote_byte (safe : pystr) (b : Z) : pystr :=
  if always_safe b || one_of safe b then [b]
  else [37; hexdigit_upper (b / 16); hexdigit_upper (b mod 16)].

Definition quote_from_bytes (safe : pystr) (bs : list Z) : pystr :=
  concat (map (quote_byte safe) bs).

(** [quote(s)]: the default [safe] is [/], the string is encoded as UTF-8
    in strict mode. *)
Definition quote (s : pystr) : exn + pystr :=
  match utf8_encode s with
  | Some bs => inr (quote_from_bytes (lit "/") bs)
  | None => inl (encode_error s)
  end.

Definition hexval (c : Z) : option Z :=
  if (48 <=? c) && (c <=? 57) then Some (c - 48)
  else if (65 <=? c) && (c <=? 70) then Some (c - 55)
  else if (97 <=? c) && (c <=? 102) then Some (c - 87)
  else None.

(** [unquote_to_bytes] on an ASCII string: [%XX] with two hexadecimal
    digits becomes one byte, every other character stays. *)
Fixpoint unquote_to_bytes (s : pystr) : list Z :=
  match s with
  | [] => []
  | c :: t =>
      if c =? 37 then
        match t with
        | h1 :: h2 :: t' =>
            match hexval h1, hexval h2 with
            | Some a, Some b => (16 * a + b) :: unquote_to_bytes t'
            | _, _ => c :: unquote_to_bytes t
            end
        | _ => c :: unquote_to_bytes t
        end
      else c :: unquote_to_bytes t
  end.

(** [unquote(s)] on an ASCII string whose bytes decode as UTF-8. Where
    they do not, Python substitutes U+FFFD; here the result is [None]. *)
Definition unquote (s : pystr) : option pystr := utf8_decode (unquote_to_bytes s).

End Urllib.

Import Urllib.

(** ** The outside world

    The script reads the environment, tests one path, imports the SDK and
    sends one put request. [World] holds what these operations answer;
    [event] records that they happened. *)

(** [pathlib.Path(text)]. *)
Inductive Path : Type := mkPath (text : pystr).

(** [oss2.Auth] and [oss2.StsAuth]. *)
Inductive auth : Type :=
| Auth (access_key_id access_key_secret : pystr)
| StsAuth (access_key_id access_key_secret security_token : pystr).

(** [oss2.Bucket(auth, endpoint, bucket_name).put_object_from_file(key, filename)]. *)
Record PutRequest : Type := {
  req_auth : auth;
  req_endpoint : pystr;
  req_bucket_name : pystr;
  req_key : pystr;
  req_filename : pystr
}.

(** What the SDK call does: a result with a status, or an exception. *)
Inductive PutResult : Type :=
| PutStatus (status : Z)
| PutRaises (msg : pystr).

(** What [Path.is_file()] does: it answers [True] for a regular file,
    [False] for a path that does not exist or is something else, and up to
    Python 3.13 it lets through an [OSError] that is not of the "no such
    file" kind (a name that is too long, a directory that may not be
    searched). *)
Inductive FileTest : Type :=
| RegularFile
| NotRegularFile
| TestRaises (msg : pystr).

Record World : Type := {
  environ : gmap (list Z) (list Z);      (* os.environ *)
  file_test : Path -> FileTest;          (* Path.is_file *)
  path_str : Path -> pystr;              (* str(path) *)
  oss2_installed : bool;                 (* does [import oss2] find the module *)
  sdk_put : PutRequest -> PutResult;
  stdout_error : pystr -> option exn     (* what sys.stdout raises for a line, if it does *)
}.

(** The answer of [Path.is_file()] when it returns. *)
Definition is_file (w : World) (path : Path) : bool :=
  match file_test w path with
  | RegularFile => true
  | NotRegularFile | TestRaises _ => false
  end.

Inductive event : Type :=
| GetEnv (name : pystr)
| IsFile (path : Path)
| ImportOss2
| PutObject (req : PutRequest)
| Stdout (line : pystr)
| Stderr (line : pystr).

(** ** Computations: a result or an exception, and the events so far *)

Definition M (A : Type) : Type := ((exn + A) * list event)%type.

Definition ret {A} (a : A) : M A := (inr a, []).
Definition raise {A} (e : exn) : M A := (inl e, []).
Definition emit (ev : event) : M unit := (inr tt, [ev]).

Definition bind {A B} (m : M A) (k : A -> M B) : M B :=
  match m with
  | (inl e, log) => (inl e, log)
  | (inr a, log) => let '(r, log') := k a in (r, log ++ log')
  end.

Definition lift {A} (r : exn + A) : M A := (r, []).

Notation "x <- m ;; k" := (bind m (fun x => k))
  (at level 100, m at next level, right associativity).
Notation "m ;; k" := (bind m (fun _ => k))
  (at level 100, right associativity).

(** Truth of a string: it is not empty. *)
Definition truthy (s : pystr) : bool :=
  match s with [] => false | _ :: _ => true end.

(** [os.getenv(name, default)]. *)
Definition getenv (w : World) (name default : pystr) : M pystr :=
  emit (GetEnv name) ;;
  ret (match environ w !! name with Some v => v | None => default end).

(** [path.is_file()] inside the [try]: the test is recorded, then it
    answers or raises. *)
Definition path_is_file (w : World) (path : Path) : M bool :=
  emit (IsFile path) ;;
  match file_test w path with
  | TestRaises msg => raise (OSError msg)
  | RegularFile | NotRegularFile => ret (is_file w path)
  end.

(** [print(line)]: the standard output encodes the whole line before it
    writes, so a line it cannot encode raises and leaves nothing behind. The
    line is kept without its newline. *)
Definition print (w : World) (line : pystr) : M unit :=
  match stdout_error w line with
  | None => emit (Stdout line)
  | Some e => raise e
  end.

(** [print(line, file=sys.stderr)]: the error stream escapes what it
    cannot encode and does not raise; the event keeps the string that was
    given to [print]. *)
Definition print_err (line : pystr) : M unit := emit (Stderr line).

(** ** The script *)

Definition DEFAULT_ZIP_PATH : pystr := lit "dist/obsidian-publish-everywhere.zip".
Definition DEFAULT_BUCKET : pystr := lit "fine-build".
Definition DEFAULT_OBJECT_KEY : pystr := lit "test/obsidian-publish-everywhere.zip".

(** A command line that [argparse] accepts: the values of [--file] and
    [--object-key] where they are given. On any other command line
    [parse_args] leaves the program by [SystemExit] (status 2 with a usage
    message, or status 0 after the help text), which [except Exception] does
    not catch; those runs are not runs of the code below. *)
Record Argv : Type := { opt_file : option pystr; opt_object_key : option pystr }.

Record Namespace : Type := { args_file : pystr; args_object_key : pystr }.

Definition parse_args (argv : Argv) : Namespace :=
  {| args_file := match opt_file argv with Some f => f | None => DEFAULT_ZIP_PATH end;
     args_object_key :=
       match opt_object_key argv with Some k => k | None => DEFAULT_OBJECT_KEY end |}.

(** The loop of [require_env]: [Some value] at the first candidate whose
    stripped value is not empty, [None] when the candidates are used up. *)
Fixpoint require_env_loop (w : World) (candidates : list pystr) : M (option pystr) :=
  match candidates with
  | [] => ret None
  | var_name :: rest =>
      raw <- getenv w var_name [] ;;
      let value := strip raw in
      if truthy value then ret (Some value) else require_env_loop w rest
  end.

Definition require_env (w : World) (name : pystr) (aliases : list pystr) : M pystr :=
  let candidates := name :: aliases in
  found <- require_env_loop w candidates ;;
  match found with
  | Some value => ret value
  | None =>
      let all_names := join (lit ", ") candidates in
      raise (RuntimeError (lit "Missing required env var: " ++ all_names))
  end.

Definition normalize_endpoint (raw_endpoint : pystr) : pystr :=
  let endpoint := strip raw_endpoint in
  if startswith endpoint (lit "http://") || startswith endpoint (lit "https://")
  then rstrip_chars (lit "/") endpoint
  else lit "https://" ++ strip_chars (lit "/") endpoint.

(** The host of [build_public_url]. *)
Definition host_of (endpoint : pystr) : pystr :=
  replace (replace endpoint (lit "https://") []) (lit "http://") [].

Definition build_public_url (endpoint bucket object_key : pystr) : exn + pystr :=
  let host := host_of endpoint in
  match quote object_key with
  | inl e => inl e
  | inr encoded_key =>
      inr (lit "https://" ++ bucket ++ lit "." ++ host ++ lit "/" ++ encoded_key)
  end.

(** [import oss2] inside its [try]. *)
Definition import_oss2 (w : World) : M unit :=
  emit ImportOss2 ;;
  if oss2_installed w then ret tt
  else raise (RuntimeError (lit "Python package 'oss2' not installed, run: pip3 install oss2")).

(** The construction of the bucket and the put, as one call of the SDK. *)
Definition put_object_from_file (w : World) (req : PutRequest) : M Z :=
  emit (PutObject req) ;;
  match sdk_put w req with
  | PutStatus status => ret status
  | PutRaises msg => raise (SdkError msg)
  end.

Definition upload_with_oss2 (w : World) (local_file : Path)
    (endpoint bucket_name object_key : pystr) : M unit :=
  import_oss2 w ;;
  access_key_id <- require_env w (lit "FINE_OSS_ACCESS_KEY_ID") [lit "FINE_OSS_ID"] ;;
  access_key_secret <-
    require_env w (lit "FINE_OSS_ACCESS_KEY_SECRET") [lit "FINE_OSS_SECRET"] ;;
  raw_token <- getenv w (lit "FINE_OSS_SECURITY_TOKEN") [] ;;
  let security_token := strip raw_token in
  let auth :=
    if truthy security_token
    then StsAuth access_key_id access_key_secret security_token
    else Auth access_key_id access_key_secret in
  status <- put_object_from_file w
    {| req_auth := auth; req_endpoint := endpoint; req_bucket_name := bucket_name;
       req_key := object_key; req_filename := path_str w local_file |} ;;
  if (status <? 200) || (status >=? 300)
  then raise (RuntimeError (lit "OSS upload failed, status=" ++ str_of_int status))
  else ret tt.

(** The body of the [try] of [main]. *)
Definition main_body (w : World) (argv : Argv) : M Z :=
  let args := parse_args argv in
  let local_file := mkPath (args_file args) in
  found <- path_is_file w local_file ;;
  if negb found
  then raise (RuntimeError (lit "File not found: " ++ path_str w local_file))
  else
    raw_endpoint <- require_env w (lit "FINE_OSS_ENDPOINT") [] ;;
    let endpoint := normalize_endpoint raw_endpoint in
    raw_bucket <- getenv w (lit "FINE_OSS_BUCKET") DEFAULT_BUCKET ;;
    let bucket_name := or_else (strip raw_bucket) DEFAULT_BUCKET in
    let object_key := strip_chars (lit "/") (args_object_key args) in
    if negb (truthy object_key)
    then raise (RuntimeError (lit "object key must not be empty"))
    else
      upload_with_oss2 w local_file endpoint bucket_name object_key ;;
      download_url <- lift (build_public_url endpoint bucket_name object_key) ;;
      print w (lit "Uploaded: " ++ path_str w local_file) ;;
      print w (lit "OSS Path: oss://" ++ bucket_name ++ lit "/" ++ object_key) ;;
      print w (lit "URL: " ++ download_url) ;;
      print w ([0x4E0B; 0x8F7D; 0x5730; 0x5740] ++ lit ": " ++ download_url) ;;
      ret 0.

(** [main]: the exit status and the log. An exception of the body is
    printed on the error stream and gives status 1. *)
Definition main (w : World) (argv : Argv) : Z * list event :=
  match main_body w argv with
  | (inr status, log) => (status, log)
  | (inl error, log) => (1, log ++ [Stderr (lit "upload failed: " ++ exn_str error)])
  end.

(** ** Reading a log *)

Definition stdout_of (log : list event) : list pystr :=
  flat_map (fun ev => match ev with Stdout l => [l] | _ => [] end) log.

Definition stderr_of (log : list event) : list pystr :=
  flat_map (fun ev => match ev with Stderr l => [l] | _ => [] end) log.

Definition puts_of (log : list event) : list PutRequest :=
  flat_map (fun ev => match ev with PutObject r => [r] | _ => [] end) log.

Definition getenvs_of (log : list event) : list pystr :=
  flat_map (fun ev => match ev with GetEnv n => [n] | _ => [] end) log.

Definition imports_of (log : list event) : nat :=
  List.length (List.filter (fun ev => match ev with ImportOss2 => true | _ => false end) log).

(** ** A POSIX world for the examples *)

(** [str(PurePosixPath(text))]: empty and [.] components are dropped, one
    leading slash is kept, exactly two are kept as two, and the empty path
    is [.]. *)
Fixpoint split_on (sep : Z) (s : pystr) : list pystr :=
  match s with
  | [] => [[]]
  | c :: t =>
      if c =? sep then [] :: split_on sep t
      else match split_on sep t with
           | [] => [[c]]
           | x :: rest => (c :: x) :: rest
           end
  end.

Definition posix_root (s : pystr) : pystr :=
  match s with
  | 47 :: 47 :: 47 :: _ => lit "/"
  | 47 :: 47 :: _ => lit "//"
  | 47 :: _ => lit "/"
  | _ => []
  end.

Definition posix_path_str (p : Path) : pystr :=
  let '(mkPath text) := p in
  let parts :=
    List.filter (fun x => truthy x && negb (bool_decide (x = lit ".")))
      (split_on 47 text) in
  or_else (posix_root text ++ join (lit "/") parts) (lit ".").

(** A standard output in UTF-8, strict: it refuses a line with a
    surrogate, with the error of the encoder. *)
Definition utf8_stdout (line : pystr) : option exn :=
  if encodable line then None else Some (encode_error line).

(** A world made of an environment, the list of the regular files, the
    presence of the SDK and the status every put answers; a path that is not
    listed is no file, and the standard output is in UTF-8. *)
Definition posix_world (vars : list (pystr * pystr)) (files : list pystr)
    (installed : bool) (status : Z) : World :=
  {| environ := list_to_map vars;
     file_test := fun p =>
       if existsb (fun f => bool_decide (posix_path_str p = f)) files
       then RegularFile else NotRegularFile;
     path_str := posix_path_str;
     oss2_installed := installed;
     sdk_put := fun _ => PutStatus status;
     stdout_error := utf8_stdout |}.
(** ** Vocabulary of the statements *)

(** [s.endswith(suffix)]. *)
Definition endswith (s suffix : pystr) : bool := startswith (rev s) (rev suffix).

(** The test of [normalize_endpoint]: does the string begin with a scheme. *)
Definition has_scheme (s : pystr) : bool :=
  startswith s (lit "http://") || startswith s (lit "https://").

(** What [build_public_url] puts before the encoded key. *)
Definition url_prefix (bucket host : pystr) : pystr :=
  lit "https://" ++ bucket ++ lit "." ++ host ++ lit "/".

(** The stripped value of a variable, as [require_env] sees it. *)
Definition env_value (w : World) (var_name : pystr) : pystr :=
  strip (match environ w !! var_name with Some v => v | None => [] end).

(** The bucket name [main] settles on. *)
Definition bucket_name_of (w : World) : pystr :=
  or_else
    (strip (match environ w !! lit "FINE_OSS_BUCKET" with
            | Some v => v
            | None => DEFAULT_BUCKET
            end))
    DEFAULT_BUCKET.

(** The request [upload_with_oss2] sends for the given credentials. *)
Definition upload_request (w : World) (local_file : Path)
    (endpoint bucket_name object_key id secret token : pystr) : PutRequest :=
  {| req_auth := if truthy token then StsAuth id secret token else Auth id secret;
     req_endpoint := endpoint; req_bucket_name := bucket_name;
     req_key := object_key; req_filename := path_str w local_file |}.

(** What [upload_with_oss2] makes of the answer of the SDK. *)
Definition upload_outcome (r : PutResult) : exn + unit :=
  match r with
  | PutStatus status =>
      if (status <? 200) || (status >=? 300)
      then inl (RuntimeError (lit "OSS upload failed, status=" ++ str_of_int status))
      else inr tt
  | PutRaises msg => inl (SdkError msg)
  end.

(** The four lines of a successful run. *)
Definition success_lines (path bucket_name object_key download_url : pystr) : list pystr :=
  [ lit "Uploaded: " ++ path;
    lit "OSS Path: oss://" ++ bucket_name ++ lit "/" ++ object_key;
    lit "URL: " ++ download_url;
    [0x4E0B; 0x8F7D; 0x5730; 0x5740] ++ lit ": " ++ download_url ].

(** The URL of a key that can be encoded (and nothing otherwise). *)
Definition public_url (endpoint bucket object_key : pystr) : pystr :=
  match build_public_url endpoint bucket object_key with
  | inr url => url
  | inl _ => []
  end.

(** Does the standard output take all of these lines. *)
Definition stdout_accepts (w : World) (lines : list pystr) : bool :=
  forallb (fun line => match stdout_error w line with None => true | Some _ => false end)
    lines.

(** Printing lines one after the other: the lines written, and the error
    of the first line that is refused. *)
Fixpoint printed (w : World) (lines : list pystr) : list pystr * option exn :=
  match lines with
  | [] => ([], None)
  | line :: rest =>
      match stdout_error w line with
      | Some e => ([], Some e)
      | None => let '(written, err) := printed w rest in (line :: written, err)
      end
  end.

(** The four lines of a run whose endpoint variable has the value [raw]. *)
Definition run_lines (w : World) (argv : Argv) (raw : pystr) : list pystr :=
  let local_file := mkPath (args_file (parse_args argv)) in
  let object_key := strip_chars (lit "/") (args_object_key (parse_args argv)) in
  success_lines (path_str w local_file) (bucket_name_of w) object_key
    (public_url (normalize_endpoint raw) (bucket_name_of w) object_key).

(** The characters of a percent-encoded path: what [quote] leaves alone,
    the slash, and the percent sign of the escapes. *)
Definition url_path_char (c : Z) : bool := always_safe c || (c =? 47) || (c =? 37).

(** A key that [quote] leaves as it is: safe characters and slashes only. *)
Definition plain_key (key : pystr) : bool :=
  forallb (fun c => always_safe c || (c =? 47)) key.

(** ** The scenario of the specification

    Endpoint [oss-cn-hangzhou.aliyuncs.com], no bucket variable, the access
    key under its first name and the secret under its alias, an existing
    archive, and a put that answers [status]. *)
Definition scenario_vars : list (pystr * pystr) :=
  [ (lit "FINE_OSS_ENDPOINT", lit "oss-cn-hangzhou.aliyuncs.com");
    (lit "FINE_OSS_ACCESS_KEY_ID", lit "LTAI5tExample");
    (lit "FINE_OSS_ACCESS_KEY_SECRET", lit "   ");
    (lit "FINE_OSS_SECRET", lit " s3cr3t ") ].

Definition scenario_world (status : Z) : World :=
  posix_world scenario_vars [lit "dist/plugin.zip"] true status.

Definition scenario_argv : Argv :=
  {| opt_file := Some (lit "dist//plugin.zip");
     opt_object_key := Some (lit "test/plugin.zip") |}.

(** The scenario with an SDK whose put raises. *)
Definition refusing_world : World :=
  {| environ := list_to_map scenario_vars;
     file_test := fun _ => RegularFile;
     path_str := posix_path_str;
     oss2_installed := true;
     sdk_put := fun _ => PutRaises (lit "connection refused");
     stdout_error := utf8_stdout |}.

(** A system whose file names have at most 255 characters: for a longer
    path the test of the file raises, as [os.stat] does. *)
Definition long_name_world : World :=
  {| environ := list_to_map scenario_vars;
     file_test := fun p =>
       if (255 <? Z.of_nat (List.length (posix_path_str p)))
       then TestRaises (lit "[Errno 36] File name too long: '" ++ posix_path_str p ++ lit "'")
       else NotRegularFile;
     path_str := posix_path_str;
     oss2_installed := true;
     sdk_put := fun _ => PutStatus 200;
     stdout_error := utf8_stdout |}.

Definition long_name_argv : Argv :=
  {| opt_file := Some (repeat 97 300); opt_object_key := None |}.

(** The scenario with an archive whose name holds the byte 0x80, which the
    command line delivers as the surrogate U+DC80. *)
Definition surrogate_name_world : World :=
  posix_world scenario_vars [lit "dist/" ++ [0xDC80] ++ lit ".zip"] true 200.

Definition surrogate_name_argv : Argv :=
  {| opt_file := Some (lit "dist/" ++ [0xDC80] ++ lit ".zip");
     opt_object_key := Some (lit "test/plugin.zip") |}.

(** A world without variables and without the SDK. *)
Definition bare_world : World := posix_world [] [lit "dist/plugin.zip"] false 200.

Example strip_example : strip (lit "  a b" ++ [0x09; 0x3000; 0x0A]) = lit "a b".
Proof. reflexivity. Qed.

Example replace_example :
  replace (lit "https://a/http://b") (lit "http://") [] = lit "https://a/b".
Proof. reflexivity. Qed.

Example utf8_example : utf8_encode [0x4E0B; 0x20AC; 0x1F600; 0xE9]
  = Some [0xE4; 0xB8; 0x8B; 0xE2; 0x82; 0xAC; 0xF0; 0x9F; 0x98; 0x80; 0xC3; 0xA9].
Proof. reflexivity. Qed.

(** * Properties *)

(** ** UTF-8 and percent-encoding *)

Ltac arith := Z.div_mod_to_equations; lia.

(** Decide every comparison of the goal by arithmetic. *)
Ltac decide_cmp :=
  repeat match goal with
  | |- context [Z.leb ?a ?b] =>
      first [ replace (Z.leb a b) with true by (symmetry; apply Z.leb_le; arith)
            | replace (Z.leb a b) with false by (symmetry; apply Z.leb_gt; arith) ]
  | |- context [Z.ltb ?a ?b] =>
      first [ replace (Z.ltb a b) with true by (symmetry; apply Z.ltb_lt; arith)
            | replace (Z.ltb a b) with false by (symmetry; apply Z.ltb_ge; arith) ]
  | |- context [Z.eqb ?a ?b] =>
      first [ replace (Z.eqb a b) with true by (symmetry; apply Z.eqb_eq; arith)
            | replace (Z.eqb a b) with false by (symmetry; apply Z.eqb_neq; arith) ]
  end.

Lemma utf8_char_encodable c :
  encodable_char c = true -> exists bs, utf8_char c = Some bs.
Proof.
  unfold encodable_char, utf8_char, is_surrogate. intros H.
  apply andb_true_iff in H as [H Hs]. apply andb_true_iff in H as [H0 H1].
  apply Z.leb_le in H0. rewrite negb_true_iff in Hs. rewrite Hs, H1.
  replace (c <? 0) with false by (symmetry; apply Z.ltb_ge; lia).
  destruct (c <? 0x80), (c <? 0x800), (c <? 0x10000); eauto.
Qed.

Lemma utf8_char_not_encodable c :
  encodable_char c = false -> utf8_char c = None.
Proof.
  unfold encodable_char, utf8_char, is_surrogate. intros H.
  destruct (Z.ltb_spec c 0) as [|H0]; [reflexivity|].
  destruct (Z.ltb_spec c 0x80); [exfalso; revert H; decide_cmp; discriminate|].
  destruct (Z.ltb_spec c 0x800); [exfalso; revert H; decide_cmp; discriminate|].
  destruct (Z.ltb_spec c 0x10000).
  - destruct (Z.leb_spec 0xD800 c), (Z.leb_spec c 0xDFFF); try reflexivity;
      exfalso; revert H; decide_cmp; discriminate.
  - destruct (Z.ltb_spec c 0x110000); [exfalso; revert H; decide_cmp; discriminate|].
    reflexivity.
Qed.

(** The bytes of a code point are bytes. *)
Lemma utf8_char_bytes c bs :
  utf8_char c = Some bs -> Forall (fun b => 0 <= b < 256) bs.
Proof.
  unfold utf8_char, is_surrogate.
  destruct (Z.ltb_spec c 0); [discriminate|].
  destruct (Z.ltb_spec c 0x80); [intros [= <-]; repeat constructor; lia|].
  destruct (Z.ltb_spec c 0x800); [intros [= <-]; repeat constructor; arith|].
  destruct (Z.ltb_spec c 0x10000).
  - destruct (_ && _); [discriminate|]. intros [= <-]; repeat constructor; arith.
  - destruct (Z.ltb_spec c 0x110000); [|discriminate].
    intros [= <-]; repeat constructor; arith.
Qed.

(** Decoding reads back one encoded code point. *)
Lemma utf8_decode_char c bs rest :
  utf8_char c = Some bs ->
  utf8_decode (bs ++ rest) = option_map (cons c) (utf8_decode rest).
Proof.
  unfold utf8_char.
  destruct (Z.ltb_spec c 0); [discriminate|].
  destruct (Z.ltb_spec c 0x80).
  { intros [= <-]. cbn [app utf8_decode]. decide_cmp. reflexivity. }
  destruct (Z.ltb_spec c 0x800).
  { intros [= <-]. cbn [app utf8_decode]. unfold is_cont. decide_cmp.
    cbn [andb]. do 2 f_equal. arith. }
  destruct (Z.ltb_spec c 0x10000).
  { unfold is_surrogate.
    destruct (Z.leb_spec 0xD800 c), (Z.leb_spec c 0xDFFF); cbn [andb]; try discriminate;
      try (exfalso; lia);
      intros [= <-]; cbn [app utf8_decode]; unfold is_cont, is_surrogate; cbv zeta;
      decide_cmp; cbn [andb negb];
      replace ((0xE0 + c / 4096 - 0xE0) * 4096 + (0x80 + (c / 64) mod 64 - 0x80) * 64
               + (0x80 + c mod 64 - 0x80)) with c by arith;
      decide_cmp; cbn [andb negb]; reflexivity. }
  destruct (Z.ltb_spec c 0x110000); [|discriminate].
  intros [= <-]. cbn [app utf8_decode]. unfold is_cont. cbv zeta.
  decide_cmp. cbn [andb].
  replace ((0xF0 + c / 262144 - 0xF0) * 262144 + (0x80 + (c / 4096) mod 64 - 0x80) * 4096
           + (0x80 + (c / 64) mod 64 - 0x80) * 64 + (0x80 + c mod 64 - 0x80))
    with c by arith.
  decide_cmp. reflexivity.
Qed.

Lemma utf8_encode_encodable s :
  encodable s = true ->
  exists bs, utf8_encode s = Some bs /\ Forall (fun b => 0 <= b < 256) bs
             /\ utf8_decode bs = Some s.
Proof.
  induction s as [|c t IH]; cbn [encodable forallb utf8_encode].
  - intros _. exists []. repeat split; constructor.
  - intros H. apply andb_true_iff in H as [Hc Ht].
    destruct (utf8_char_encodable c Hc) as [bs Hbs].
    destruct (IH Ht) as (r & Hr & Hbytes & Hdec).
    exists (bs ++ r). rewrite Hbs, Hr. repeat split.
    + apply Forall_app. split; [eapply utf8_char_bytes; eassumption | assumption].
    + rewrite (utf8_decode_char c bs r Hbs), Hdec. reflexivity.
Qed.

Lemma utf8_encode_not_encodable s :
  encodable s = false -> utf8_encode s = None.
Proof.
  induction s as [|c t IH]; cbn [encodable forallb utf8_encode]; [discriminate|].
  intros H. apply andb_false_iff in H as [Hc | Ht].
  - rewrite (utf8_char_not_encodable c Hc). reflexivity.
  - fold (encodable t) in Ht. rewrite (IH Ht). destruct (utf8_char c); reflexivity.
Qed.

Lemma hexval_hexdigit_upper d :
  0 <= d < 16 -> hexval (hexdigit_upper d) = Some d.
Proof.
  intros Hd. unfold hexdigit_upper, hexval.
  destruct (Z.ltb_spec d 10); decide_cmp; cbn [andb]; f_equal; lia.
Qed.

Lemma unquote_quote_byte safe b rest :
  0 <= b < 256 -> one_of safe 37 = false ->
  unquote_to_bytes (quote_byte safe b ++ rest) = b :: unquote_to_bytes rest.
Proof.
  intros Hb Hsafe. unfold quote_byte.
  destruct (always_safe b || one_of safe b) eqn:Hs.
  - cbn [app unquote_to_bytes].
    destruct (Z.eqb_spec b 37) as [->|]; [|reflexivity].
    rewrite Hsafe in Hs. discriminate.
  - cbn [app unquote_to_bytes]. rewrite Z.eqb_refl.
    rewrite !hexval_hexdigit_upper by arith. f_equal. arith.
Qed.

Lemma unquote_to_bytes_quote safe bs :
  Forall (fun b => 0 <= b < 256) bs -> one_of safe 37 = false ->
  unquote_to_bytes (quote_from_bytes safe bs) = bs.
Proof.
  intros Hbs Hsafe. unfold quote_from_bytes.
  induction Hbs as [|b t Hb _ IH]; [reflexivity|].
  cbn [map concat]. rewrite unquote_quote_byte by assumption. f_equal. exact IH.
Qed.

(** [unquote] undoes [quote] on every string [quote] accepts. *)
Lemma unquote_quote s :
  encodable s = true ->
  exists q, quote s = inr q /\ unquote q = Some s.
Proof.
  intros Hs. destruct (utf8_encode_encodable s Hs) as (bs & Henc & Hbytes & Hdec).
  exists (quote_from_bytes (lit "/") bs). unfold quote, unquote. rewrite Henc.
  split; [reflexivity|].
  rewrite unquote_to_bytes_quote by (assumption || reflexivity). exact Hdec.
Qed.

Lemma quote_not_encodable s :
  encodable s = false -> quote s = inl (encode_error s).
Proof. intros H. unfold quote. rewrite (utf8_encode_not_encodable s H). reflexivity. Qed.

(** ** Stripping *)

Section StripFacts.
Variable p : Z -> bool.

Lemma lstrip_by_split s :
  exists pre, s = pre ++ lstrip_by p s /\ forallb p pre = true.
Proof.
  induction s as [|c t IH]; [exists []; split; reflexivity|].
  cbn [lstrip_by]. destruct (p c) eqn:Hc.
  - destruct IH as (pre & Heq & Hpre). exists (c :: pre). split.
    + cbn [app]. f_equal. exact Heq.
    + cbn [forallb]. rewrite Hc. exact Hpre.
  - exists []. split; reflexivity.
Qed.

Lemma rstrip_by_split s :
  exists post, s = rstrip_by p s ++ post /\ forallb p post = true.
Proof.
  induction s as [|c t IH]; [exists []; split; reflexivity|].
  cbn [rstrip_by]. destruct IH as (post & Heq & Hpost).
  destruct (rstrip_by p t) as [|r0 r] eqn:Hr.
  - destruct (p c) eqn:Hc.
    + exists (c :: post). split; [cbn [app] in *; f_equal; exact Heq|].
      cbn [forallb]. rewrite Hc. exact Hpost.
    + exists post. split; [cbn [app] in *; f_equal; exact Heq | exact Hpost].
  - exists post. split; [|exact Hpost]. cbn [app] in *. f_equal. exact Heq.
Qed.

(** The first character that [lstrip] leaves is not stripped. *)
Lemma lstrip_by_head s c r : lstrip_by p s = c :: r -> p c = false.
Proof.
  induction s as [|a t IH]; cbn [lstrip_by]; [discriminate|].
  destruct (p a) eqn:Ha; [exact IH|]. intros [= <- _]. exact Ha.
Qed.

(** The last character that [rstrip] leaves is not stripped. *)
Lemma rstrip_by_last s r c : rstrip_by p s = r ++ [c] -> p c = false.
Proof.
  revert r. induction s as [|a t IH]; intros r; cbn [rstrip_by].
  - destruct r; discriminate.
  - destruct (rstrip_by p t) as [|r0 r'] eqn:Hr.
    + destruct (p a) eqn:Ha; [destruct r; discriminate|].
      destruct r as [|x [|y r]]; cbn [app]; try discriminate.
      intros [= <-]. exact Ha.
    + destruct r as [|x r]; cbn [app]; [discriminate|].
      intros [= _ H]. apply (IH r). exact H.
Qed.

(** [rstrip] leaves alone a string whose last character is not stripped. *)
Lemma rstrip_by_keep s c : p c = false -> rstrip_by p (s ++ [c]) = s ++ [c].
Proof.
  intros Hc. induction s as [|a t IH]; cbn [app rstrip_by].
  - rewrite Hc. reflexivity.
  - rewrite IH. destruct t; reflexivity.
Qed.

Lemma rstrip_by_idem s : rstrip_by p (rstrip_by p s) = rstrip_by p s.
Proof.
  destruct (rstrip_by p s) as [|a r] eqn:Hr; [reflexivity|].
  destruct (exists_last (l := a :: r)) as (r' & c & Heq); [discriminate|].
  rewrite Heq. apply rstrip_by_keep. apply (rstrip_by_last s r'). congruence.
Qed.

Lemma rstrip_by_length s : (List.length (rstrip_by p s) <= List.length s)%nat.
Proof.
  destruct (rstrip_by_split s) as (post & Heq & _).
  rewrite Heq at 2. rewrite length_app. lia.
Qed.

Lemma lstrip_by_length s : (List.length (lstrip_by p s) <= List.length s)%nat.
Proof.
  destruct (lstrip_by_split s) as (pre & Heq & _).
  rewrite Heq at 2. rewrite length_app. lia.
Qed.

Lemma rstrip_by_same_length s :
  List.length (rstrip_by p s) = List.length s -> rstrip_by p s = s.
Proof.
  intros H. destruct (rstrip_by_split s) as (post & Heq & _).
  rewrite Heq in H at 2. rewrite length_app in H.
  destruct post; [rewrite app_nil_r in Heq; congruence | cbn in H; lia].
Qed.

Lemma lstrip_by_same_length s :
  List.length (lstrip_by p s) = List.length s -> lstrip_by p s = s.
Proof.
  intros H. destruct (lstrip_by_split s) as (pre & Heq & _).
  rewrite Heq in H at 2. rewrite length_app in H.
  destruct pre; [cbn in Heq; congruence | cbn in H; lia].
Qed.

Lemma strip_by_length s : (List.length (strip_by p s) <= List.length s)%nat.
Proof.
  unfold strip_by. pose proof (rstrip_by_length (lstrip_by p s)).
  pose proof (lstrip_by_length s). lia.
Qed.

Lemma strip_by_same_length s :
  List.length (strip_by p s) = List.length s -> strip_by p s = s.
Proof.
  unfold strip_by. intros H.
  pose proof (rstrip_by_length (lstrip_by p s)). pose proof (lstrip_by_length s).
  rewrite rstrip_by_same_length by lia. apply lstrip_by_same_length. lia.
Qed.

(** A prefix without stripped characters survives [strip]. *)
Lemma lstrip_by_startswith s pre :
  pre <> [] -> forallb (fun c => negb (p c)) pre = true ->
  startswith s pre = true -> lstrip_by p s = s.
Proof.
  destruct pre as [|a pre]; [congruence|]. intros _ Hpre.
  destruct s as [|c t]; [reflexivity|]. cbn [startswith lstrip_by forallb] in *.
  intros H. apply andb_true_iff in H as [Hc _]. apply Z.eqb_eq in Hc. subst c.
  apply andb_true_iff in Hpre as [Ha _]. apply negb_true_iff in Ha. rewrite Ha. reflexivity.
Qed.

Lemma rstrip_by_startswith s pre :
  forallb (fun c => negb (p c)) pre = true ->
  startswith s pre = true -> startswith (rstrip_by p s) pre = true.
Proof.
  revert s. induction pre as [|a pre IH]; intros s Hpre; [destruct (rstrip_by p s); reflexivity|].
  destruct s as [|c t]; [discriminate|]. cbn [startswith forallb rstrip_by] in *.
  apply andb_true_iff in Hpre as [Ha Hpre]. apply negb_true_iff in Ha.
  intros H. apply andb_true_iff in H as [Hc Ht]. apply Z.eqb_eq in Hc. subst c.
  specialize (IH t Hpre Ht).
  destruct (rstrip_by p t) as [|r0 r].
  - rewrite Ha. destruct pre; [|discriminate]. cbn. rewrite Z.eqb_refl. reflexivity.
  - cbn [startswith]. rewrite Z.eqb_refl. exact IH.
Qed.

Lemma strip_by_startswith s pre :
  pre <> [] -> forallb (fun c => negb (p c)) pre = true ->
  startswith s pre = true -> startswith (strip_by p s) pre = true.
Proof.
  intros Hne Hpre Hs. unfold strip_by.
  rewrite (lstrip_by_startswith s pre Hne Hpre Hs).
  apply rstrip_by_startswith; assumption.
Qed.

End StripFacts.

(** ** Replacement *)

Lemma startswith_app s p : startswith (p ++ s) p = true.
Proof.
  induction p as [|a p IH]; [destruct s; reflexivity|].
  cbn [app startswith]. rewrite Z.eqb_refl. exact IH.
Qed.

Lemma contains_tail c t sub : contains (c :: t) sub = false -> contains t sub = false.
Proof. cbn [contains]. intros H. apply orb_false_iff in H as [_ H]. exact H. Qed.

Lemma contains_head s sub : contains s sub = false -> startswith s sub = false.
Proof. destruct s; cbn [contains]; intros H; apply orb_false_iff in H as [H _]; exact H. Qed.

(** A string that starts with [a ++ b] contains [b]. *)
Lemma startswith_contains a b s : startswith s (a ++ b) = true -> contains s b = true.
Proof.
  revert s. induction a as [|x a IH]; intros s; cbn [app].
  - intros H. destruct s; cbn [contains]; rewrite H; reflexivity.
  - destruct s as [|c t]; cbn [startswith]; [discriminate|].
    intros H. apply andb_true_iff in H as [_ H]. cbn [contains].
    rewrite (IH t H). apply orb_true_r.
Qed.

Lemma contains_suffix a b s : contains s b = false -> contains s (a ++ b) = false.
Proof.
  induction s as [|c t IH]; intros H.
  - cbn [contains] in *. rewrite orb_false_r in *.
    destruct (startswith [] (a ++ b)) eqn:E; [|reflexivity].
    apply startswith_contains in E. cbn [contains] in E. rewrite orb_false_r in E. congruence.
  - cbn [contains]. rewrite (IH (contains_tail _ _ _ H)), orb_false_r.
    destruct (startswith (c :: t) (a ++ b)) eqn:E; [|reflexivity].
    apply startswith_contains in E. congruence.
Qed.

(** Nothing is replaced in a string without an occurrence. *)
Lemma replace_from_absent old new s :
  contains s old = false -> replace_from old new O s = s.
Proof.
  induction s as [|c t IH]; [reflexivity|]. intros H. cbn [replace_from].
  rewrite (contains_head _ _ H), (IH (contains_tail _ _ _ H)). reflexivity.
Qed.

(** The host of an endpoint made of a scheme and a part without [://] is
    that part. *)
Lemma host_of_plain h :
  contains h (lit "://") = false ->
  host_of (lit "https://" ++ h) = h /\ host_of (lit "http://" ++ h) = h.
Proof.
  intros H.
  pose proof (contains_suffix (lit "https") (lit "://") h H) as Hs.
  pose proof (contains_suffix (lit "http") (lit "://") h H) as Hp.
  change (lit "https" ++ lit "://") with (lit "https://") in Hs.
  change (lit "http" ++ lit "://") with (lit "http://") in Hp.
  unfold host_of. split.
  - change (replace (lit "https://" ++ h) (lit "https://") [])
      with (replace_from (lit "https://") [] O h).
    rewrite (replace_from_absent _ _ _ Hs).
    change (replace h (lit "http://") []) with (replace_from (lit "http://") [] O h).
    apply replace_from_absent. exact Hp.
  - change (replace (lit "http://" ++ h) (lit "https://") [])
      with (lit "http://" ++ replace_from (lit "https://") [] O h).
    rewrite (replace_from_absent _ _ _ Hs).
    change (replace (lit "http://" ++ h) (lit "http://") [])
      with (replace_from (lit "http://") [] O h).
    apply replace_from_absent. exact Hp.
Qed.

(** ** The public URL (C1) *)

(** The URL of a key that can be encoded. *)
Lemma build_public_url_encodable endpoint bucket key :
  encodable key = true ->
  exists encoded,
    quote key = inr encoded
    /\ build_public_url endpoint bucket key
       = inr (url_prefix bucket (host_of endpoint) ++ encoded)
    /\ unquote encoded = Some key.
Proof.
  intros Hk. destruct (unquote_quote key Hk) as (encoded & Hq & Hu).
  exists encoded. unfold build_public_url, url_prefix. rewrite Hq, <- !app_assoc.
  split; [reflexivity|]. split; [reflexivity | exact Hu].
Qed.

(** C1, as amended. For every endpoint (a normalized one in particular),
    bucket and object key: when the key can be encoded as UTF-8 (it has no
    surrogate code point), [build_public_url] returns exactly [https://],
    the bucket, a dot, the host, a slash and the percent-encoded key, and
    percent-decoding what follows the prefix gives the key back; when the key
    cannot be encoded, [build_public_url] raises the encoder's
    [UnicodeEncodeError] and returns no URL. The host is the endpoint without
    the occurrences of [https://] and then of [http://]: for an endpoint made
    of a scheme and a rest without [://] it is that rest. *)
Theorem build_public_url_encoded_key (endpoint bucket key : pystr) :
  (encodable key = true ->
   exists encoded url,
     quote key = inr encoded
     /\ build_public_url endpoint bucket key = inr url
     /\ url = lit "https://" ++ bucket ++ lit "." ++ host_of endpoint ++ lit "/" ++ encoded
     /\ unquote (skipn (List.length (url_prefix bucket (host_of endpoint))) url) = Some key)
  /\ (encodable key = false ->
      build_public_url endpoint bucket key = inl (encode_error key))
  /\ (forall h,
        contains h (lit "://") = false ->
        endpoint = lit "https://" ++ h \/ endpoint = lit "http://" ++ h ->
        host_of endpoint = h).
Proof.
  split; [|split].
  - intros Hk.
    destruct (build_public_url_encodable endpoint bucket key Hk) as (encoded & Hq & Hurl & Hu).
    exists encoded, (url_prefix bucket (host_of endpoint) ++ encoded).
    repeat split; try assumption.
    + unfold url_prefix. rewrite <- !app_assoc. reflexivity.
    + rewrite skipn_app, skipn_all, Nat.sub_diag. exact Hu.
  - intros Hk. unfold build_public_url. rewrite (quote_not_encodable key Hk). reflexivity.
  - intros h Hh [-> | ->]; apply (host_of_plain h Hh).
Qed.

Lemma build_public_url_encoded_key_witness :
  (exists encoded url,
     quote (lit "a b/" ++ [0x4E0B]) = inr encoded
     /\ build_public_url (normalize_endpoint (lit "oss-cn-hangzhou.aliyuncs.com"))
          (lit "fine-build") (lit "a b/" ++ [0x4E0B]) = inr url
     /\ url = lit "https://" ++ lit "fine-build" ++ lit "."
              ++ host_of (normalize_endpoint (lit "oss-cn-hangzhou.aliyuncs.com"))
              ++ lit "/" ++ encoded
     /\ unquote (skipn (List.length (url_prefix (lit "fine-build")
                   (host_of (normalize_endpoint (lit "oss-cn-hangzhou.aliyuncs.com"))))) url)
        = Some (lit "a b/" ++ [0x4E0B]))
  /\ build_public_url (lit "https://oss.example.com") (lit "fine-build") [0xDC80]
     = inl (encode_error [0xDC80])
  /\ host_of (normalize_endpoint (lit "oss-cn-hangzhou.aliyuncs.com"))
     = lit "oss-cn-hangzhou.aliyuncs.com".
Proof.
  split; [|split].
  - apply (proj1 (build_public_url_encoded_key
             (normalize_endpoint (lit "oss-cn-hangzhou.aliyuncs.com"))
             (lit "fine-build") (lit "a b/" ++ [0x4E0B]))).
    reflexivity.
  - apply (proj1 (proj2 (build_public_url_encoded_key (lit "https://oss.example.com")
             (lit "fine-build") [0xDC80]))).
    reflexivity.
  - apply (proj2 (proj2 (build_public_url_encoded_key
             (normalize_endpoint (lit "oss-cn-hangzhou.aliyuncs.com"))
             (lit "fine-build") []))).
    + reflexivity.
    + left. reflexivity.
Defined.

(** C1 as stated fails: for the key made of the lone surrogate U+DC80
    (what a byte 0x80 on the command line becomes) no URL is returned. *)
Lemma build_public_url_surrogate_key :
  ~ exists url,
      build_public_url (normalize_endpoint (lit "oss-cn-hangzhou.aliyuncs.com"))
        (lit "fine-build") [0xDC80] = inr url.
Proof. intros [url H]. vm_compute in H. discriminate. Qed.

(** ** Endpoint normalization (C2, C3) *)

Lemma endswith_snoc s c d : endswith (s ++ [c]) [d] = (c =? d).
Proof.
  unfold endswith. rewrite rev_app_distr. cbn [rev app startswith].
  apply andb_true_r.
Qed.

Lemma one_of_slash c : one_of (lit "/") c = (c =? 47).
Proof. unfold one_of. cbn. apply orb_false_r. Qed.

(** What is left by [strip('/')] does not end with a slash. *)
Lemma strip_slash_endswith s x :
  strip_chars (lit "/") s <> [] ->
  endswith (x ++ strip_chars (lit "/") s) (lit "/") = false.
Proof.
  intros Hne. unfold strip_chars, strip_by in *.
  destruct (exists_last Hne) as (r & c & Heq).
  pose proof (rstrip_by_last _ _ _ _ Heq) as Hc. rewrite one_of_slash in Hc.
  rewrite Heq, app_assoc. change (lit "/") with [47].
  rewrite endswith_snoc. exact Hc.
Qed.

(** C2, as amended. For every raw endpoint whose stripped form does not
    begin with [http://] or [https://], [normalize_endpoint] returns
    [https://] followed by the stripped form without its leading and
    trailing slashes. The result starts with [https://]; it ends with a
    slash exactly when nothing follows the scheme, that is when the
    endpoint is blank or made of slashes. *)
Theorem normalize_endpoint_adds_scheme (raw : pystr) :
  has_scheme (strip raw) = false ->
  normalize_endpoint raw = lit "https://" ++ strip_chars (lit "/") (strip raw)
  /\ startswith (normalize_endpoint raw) (lit "https://") = true
  /\ (endswith (normalize_endpoint raw) (lit "/") = true
      <-> strip_chars (lit "/") (strip raw) = []).
Proof.
  intros H. unfold has_scheme in H.
  assert (Hn : normalize_endpoint raw = lit "https://" ++ strip_chars (lit "/") (strip raw)).
  { unfold normalize_endpoint. cbv zeta. rewrite H. reflexivity. }
  rewrite Hn. split; [reflexivity|]. split; [apply startswith_app|].
  split.
  - intros He. destruct (strip_chars (lit "/") (strip raw)) as [|c r] eqn:Hs; [reflexivity|].
    rewrite <- Hs in He. rewrite strip_slash_endswith in He; [discriminate|].
    rewrite Hs. discriminate.
  - intros ->. reflexivity.
Qed.

Lemma normalize_endpoint_adds_scheme_witness :
  normalize_endpoint (lit " /oss-cn-hangzhou.aliyuncs.com// ")
  = lit "https://" ++ strip_chars (lit "/") (strip (lit " /oss-cn-hangzhou.aliyuncs.com// "))
  /\ startswith (normalize_endpoint (lit " /oss-cn-hangzhou.aliyuncs.com// ")) (lit "https://")
     = true
  /\ (endswith (normalize_endpoint (lit " /oss-cn-hangzhou.aliyuncs.com// ")) (lit "/") = true
      <-> strip_chars (lit "/") (strip (lit " /oss-cn-hangzhou.aliyuncs.com// ")) = []).
Proof.
  apply (normalize_endpoint_adds_scheme (lit " /oss-cn-hangzhou.aliyuncs.com// ")).
  reflexivity.
Defined.

(** C2 as stated fails: the endpoint [/] begins with no scheme, and its
    normal form [https://] ends with a slash. *)
Lemma normalize_endpoint_slash_only :
  startswith (lit "/") (lit "http://") = false
  /\ startswith (lit "/") (lit "https://") = false
  /\ normalize_endpoint (lit "/") = lit "https://"
  /\ ~ (startswith (normalize_endpoint (lit "/")) (lit "https://") = true
        /\ endswith (normalize_endpoint (lit "/")) (lit "/") = false).
Proof.
  repeat split; try reflexivity. intros [_ H]. vm_compute in H. discriminate.
Qed.

(** The scheme is looked for after [strip()]: an endpoint that begins with
    white space and then a scheme keeps that scheme. *)
Example normalize_endpoint_leading_space :
  startswith (lit " http://a/") (lit "http://") = false
  /\ startswith (lit " http://a/") (lit "https://") = false
  /\ normalize_endpoint (lit " http://a/") = lit "http://a".
Proof. repeat split; reflexivity. Qed.

Lemma scheme_not_space :
  forallb (fun c => negb (isspace c)) (lit "http://") = true
  /\ forallb (fun c => negb (isspace c)) (lit "https://") = true.
Proof. split; reflexivity. Qed.

(** A scheme at the start of a string is still there after [strip()]. *)
Lemma has_scheme_strip s : has_scheme s = true -> has_scheme (strip s) = true.
Proof.
  unfold has_scheme, strip. intros H. apply orb_true_iff in H as [H | H].
  - rewrite (strip_by_startswith isspace s (lit "http://")); try reflexivity;
      [discriminate | exact H].
  - rewrite (strip_by_startswith isspace s (lit "https://")), orb_true_r; try reflexivity;
      [discriminate | exact H].
Qed.

Lemma normalize_endpoint_with_scheme raw :
  has_scheme (strip raw) = true ->
  normalize_endpoint raw = rstrip_chars (lit "/") (strip raw).
Proof.
  unfold has_scheme, normalize_endpoint. cbv zeta. intros ->. reflexivity.
Qed.

(** C3, as amended. For every endpoint that begins with [http://] or
    [https://], normalizing twice gives the same as normalizing once exactly
    when the string normalized once still begins with a scheme (something
    other than slashes followed it) and is unchanged by [strip()] (it does
    not end with white space). *)
Theorem normalize_endpoint_idempotent_iff (raw : pystr) :
  has_scheme raw = true ->
  (normalize_endpoint (normalize_endpoint raw) = normalize_endpoint raw
   <-> has_scheme (normalize_endpoint raw) = true
       /\ strip (normalize_endpoint raw) = normalize_endpoint raw).
Proof.
  intros Hraw.
  pose proof (normalize_endpoint_with_scheme raw (has_scheme_strip raw Hraw)) as Hn.
  remember (normalize_endpoint raw) as n eqn:En. split.
  - intros Hidem.
    destruct (has_scheme (strip n)) eqn:Hs.
    + rewrite (normalize_endpoint_with_scheme n Hs) in Hidem.
      assert (Hstrip : strip n = n).
      { apply strip_by_same_length.
        pose proof (rstrip_by_length (one_of (lit "/")) (strip n)) as H1.
        pose proof (strip_by_length isspace n) as H2.
        unfold rstrip_chars in Hidem. rewrite Hidem in H1. unfold strip in *. lia. }
      split; [rewrite <- Hstrip; exact Hs | exact Hstrip].
    + exfalso.
      assert (Hn' : normalize_endpoint n = lit "https://" ++ strip_chars (lit "/") (strip n)).
      { unfold normalize_endpoint. cbv zeta. unfold has_scheme in Hs. rewrite Hs. reflexivity. }
      rewrite Hn' in Hidem.
      assert (Hsch : has_scheme n = true).
      { rewrite <- Hidem. unfold has_scheme. rewrite startswith_app. apply orb_true_r. }
      rewrite (has_scheme_strip n Hsch) in Hs. discriminate.
  - intros [Hsch Hstrip].
    assert (Hs : has_scheme (strip n) = true) by (rewrite Hstrip; exact Hsch).
    rewrite (normalize_endpoint_with_scheme n Hs), Hstrip, Hn.
    apply rstrip_by_idem.
Qed.

Lemma normalize_endpoint_idempotent_iff_witness :
  normalize_endpoint (normalize_endpoint (lit "https://oss-cn-hangzhou.aliyuncs.com/ "))
  = normalize_endpoint (lit "https://oss-cn-hangzhou.aliyuncs.com/ ")
  <-> has_scheme (normalize_endpoint (lit "https://oss-cn-hangzhou.aliyuncs.com/ ")) = true
      /\ strip (normalize_endpoint (lit "https://oss-cn-hangzhou.aliyuncs.com/ "))
         = normalize_endpoint (lit "https://oss-cn-hangzhou.aliyuncs.com/ ").
Proof.
  apply (normalize_endpoint_idempotent_iff (lit "https://oss-cn-hangzhou.aliyuncs.com/ ")).
  reflexivity.
Defined.

(** C3 as stated fails: [https://] begins with a scheme, normalizes to
    [https:], and that to [https://https:]. *)
Lemma normalize_endpoint_bare_scheme :
  startswith (lit "https://") (lit "https://") = true
  /\ normalize_endpoint (lit "https://") = lit "https:"
  /\ normalize_endpoint (normalize_endpoint (lit "https://")) = lit "https://https:"
  /\ normalize_endpoint (normalize_endpoint (lit "https://"))
     <> normalize_endpoint (lit "https://").
Proof. repeat split; try reflexivity. vm_compute. discriminate. Qed.

(** Nor is it idempotent when white space precedes the trailing slash. *)
Example normalize_endpoint_space_slash :
  normalize_endpoint (lit "https://a /") = lit "https://a "
  /\ normalize_endpoint (normalize_endpoint (lit "https://a /")) = lit "https://a".
Proof. split; reflexivity. Qed.

(** ** Running the script *)

Arguments lit : simpl never.
Arguments strip : simpl never.
Arguments strip_chars : simpl never.
Arguments rstrip_chars : simpl never.
Arguments normalize_endpoint : simpl never.
Arguments require_env : simpl never.
Arguments build_public_url : simpl never.
Arguments str_of_int : simpl never.
Arguments upload_with_oss2 : simpl never.

Lemma getenv_value w name default :
  getenv w name default
  = (inr (match environ w !! name with Some v => v | None => default end), [GetEnv name]).
Proof. reflexivity. Qed.

(** *** [require_env] *)

Lemma require_env_loop_blank w candidates :
  Forall (fun x => env_value w x = []) candidates ->
  require_env_loop w candidates = (inr None, map GetEnv candidates).
Proof.
  induction 1 as [|x rest Hx _ IH]; [reflexivity|].
  cbn [require_env_loop]. rewrite getenv_value. cbn [bind].
  unfold env_value in Hx. rewrite Hx. cbn [truthy]. rewrite IH. reflexivity.
Qed.

Lemma require_env_loop_found w pre var_name post :
  Forall (fun x => env_value w x = []) pre ->
  env_value w var_name <> [] ->
  require_env_loop w (pre ++ var_name :: post)
  = (inr (Some (env_value w var_name)), map GetEnv (pre ++ [var_name])).
Proof.
  intros Hpre Hvar. induction Hpre as [|x rest Hx _ IH].
  - cbn [app require_env_loop]. rewrite getenv_value. cbn [bind].
    fold (env_value w var_name). destruct (env_value w var_name); [congruence|].
    reflexivity.
  - cbn [app require_env_loop]. rewrite getenv_value. cbn [bind].
    unfold env_value in Hx. rewrite Hx. cbn [truthy]. rewrite IH. reflexivity.
Qed.

(** The candidates split at the first one that is not blank, or all are
    blank. *)
Lemma first_nonblank_split w candidates :
  Forall (fun x => env_value w x = []) candidates
  \/ exists pre var_name post,
       candidates = pre ++ var_name :: post
       /\ Forall (fun x => env_value w x = []) pre
       /\ env_value w var_name <> [].
Proof.
  induction candidates as [|x rest IH]; [left; constructor|].
  destruct (env_value w x) as [|c v] eqn:Hx.
  - destruct IH as [IH | (pre & var_name & post & -> & Hpre & Hvar)].
    + left. constructor; assumption.
    + right. exists (x :: pre), var_name, post. repeat split; [constructor|]; assumption.
  - right. exists [], x, rest. repeat split; [constructor | congruence].
Qed.

Lemma require_env_blank w name aliases :
  Forall (fun x => env_value w x = []) (name :: aliases) ->
  require_env w name aliases
  = (inl (RuntimeError (lit "Missing required env var: "
                        ++ join (lit ", ") (name :: aliases))),
     map GetEnv (name :: aliases)).
Proof.
  intros H. unfold require_env. cbv zeta.
  rewrite (require_env_loop_blank w _ H). cbn [bind raise]. rewrite app_nil_r. reflexivity.
Qed.

Lemma require_env_found w name aliases pre var_name post :
  name :: aliases = pre ++ var_name :: post ->
  Forall (fun x => env_value w x = []) pre ->
  env_value w var_name <> [] ->
  require_env w name aliases
  = (inr (env_value w var_name), map GetEnv (pre ++ [var_name])).
Proof.
  intros Heq Hpre Hvar. unfold require_env. cbv zeta. rewrite Heq.
  rewrite (require_env_loop_found w pre var_name post Hpre Hvar).
  cbn [bind ret]. rewrite app_nil_r. reflexivity.
Qed.

(** [require_env] only reads the environment. *)
Lemma require_env_log w name aliases :
  exists names, snd (require_env w name aliases) = map GetEnv names.
Proof.
  destruct (first_nonblank_split w (name :: aliases))
    as [H | (pre & var_name & post & Heq & Hpre & Hvar)].
  - rewrite (require_env_blank w name aliases H). eauto.
  - rewrite (require_env_found w name aliases pre var_name post Heq Hpre Hvar). eauto.
Qed.

Lemma require_env_log_eq w name aliases r log :
  require_env w name aliases = (r, log) -> exists names, log = map GetEnv names.
Proof.
  intros H. destruct (require_env_log w name aliases) as [names Hn].
  rewrite H in Hn. eauto.
Qed.

(** *** Logs *)

Lemma stdout_of_app a b : stdout_of (a ++ b) = stdout_of a ++ stdout_of b.
Proof. apply flat_map_app. Qed.

Lemma stderr_of_app a b : stderr_of (a ++ b) = stderr_of a ++ stderr_of b.
Proof. apply flat_map_app. Qed.

Lemma puts_of_app a b : puts_of (a ++ b) = puts_of a ++ puts_of b.
Proof. apply flat_map_app. Qed.

Lemma getenv_events names :
  stdout_of (map GetEnv names) = [] /\ stderr_of (map GetEnv names) = []
  /\ puts_of (map GetEnv names) = [].
Proof. induction names; repeat split; try reflexivity; cbn; apply IHnames. Qed.

Lemma stdout_of_getenv names : stdout_of (map GetEnv names) = [].
Proof. apply getenv_events. Qed.

Lemma stderr_of_getenv names : stderr_of (map GetEnv names) = [].
Proof. apply getenv_events. Qed.

Lemma puts_of_getenv names : puts_of (map GetEnv names) = [].
Proof. apply getenv_events. Qed.

Lemma stdout_of_lines lines : stdout_of (map Stdout lines) = lines.
Proof. induction lines as [|x l IH]; [reflexivity|]. cbn. f_equal. exact IH. Qed.

Lemma stderr_of_lines lines : stderr_of (map Stdout lines) = [].
Proof. induction lines as [|x l IH]; [reflexivity|]. exact IH. Qed.

Lemma puts_of_lines lines : puts_of (map Stdout lines) = [].
Proof. induction lines as [|x l IH]; [reflexivity|]. exact IH. Qed.

(** Normal form of the projections of a log. *)
Ltac read_log :=
  repeat first
    [ rewrite stdout_of_app | rewrite stderr_of_app | rewrite puts_of_app
    | rewrite stdout_of_getenv | rewrite stderr_of_getenv | rewrite puts_of_getenv
    | rewrite stdout_of_lines | rewrite stderr_of_lines | rewrite puts_of_lines
    | progress cbn [stdout_of stderr_of puts_of flat_map app fst snd] ].

(** *** [upload_with_oss2], case by case *)

Section UploadCases.
Variables (w : World) (local_file : Path) (endpoint bucket_name object_key : pystr).

Local Abbreviation run := (upload_with_oss2 w local_file endpoint bucket_name object_key).

Lemma upload_not_installed :
  oss2_installed w = false ->
  run = (inl (RuntimeError (lit "Python package 'oss2' not installed, run: pip3 install oss2")),
         [ImportOss2]).
Proof. intros H. unfold upload_with_oss2, import_oss2. rewrite H. reflexivity. Qed.

Lemma upload_id_missing e l1 :
  oss2_installed w = true ->
  require_env w (lit "FINE_OSS_ACCESS_KEY_ID") [lit "FINE_OSS_ID"] = (inl e, l1) ->
  run = (inl e, ImportOss2 :: l1).
Proof.
  intros H H1. unfold upload_with_oss2, import_oss2. rewrite H, H1. reflexivity.
Qed.

Lemma upload_secret_missing id l1 e l2 :
  oss2_installed w = true ->
  require_env w (lit "FINE_OSS_ACCESS_KEY_ID") [lit "FINE_OSS_ID"] = (inr id, l1) ->
  require_env w (lit "FINE_OSS_ACCESS_KEY_SECRET") [lit "FINE_OSS_SECRET"] = (inl e, l2) ->
  run = (inl e, ImportOss2 :: l1 ++ l2).
Proof.
  intros H H1 H2. unfold upload_with_oss2, import_oss2.
  rewrite H, H1, H2. reflexivity.
Qed.

Lemma upload_put id l1 secret l2 :
  oss2_installed w = true ->
  require_env w (lit "FINE_OSS_ACCESS_KEY_ID") [lit "FINE_OSS_ID"] = (inr id, l1) ->
  require_env w (lit "FINE_OSS_ACCESS_KEY_SECRET") [lit "FINE_OSS_SECRET"] = (inr secret, l2) ->
  let req := upload_request w local_file endpoint bucket_name object_key id secret
               (env_value w (lit "FINE_OSS_SECURITY_TOKEN")) in
  run = (upload_outcome (sdk_put w req),
         ImportOss2 :: l1 ++ l2 ++ [GetEnv (lit "FINE_OSS_SECURITY_TOKEN"); PutObject req]).
Proof.
  intros H H1 H2 req. subst req.
  unfold upload_with_oss2, import_oss2, put_object_from_file, upload_request, env_value.
  rewrite H, H1, H2. cbn [bind emit ret getenv raise app]. cbv zeta.
  destruct (sdk_put w _) as [status | msg]; cbn [upload_outcome bind emit ret raise app].
  - destruct ((status <? 200) || (status >=? 300)); cbn [raise ret]; rewrite ?app_nil_r;
      reflexivity.
  - reflexivity.
Qed.

(** The events of an upload: nothing is printed, and every request that is
    sent carries the arguments of the call. *)
Lemma upload_events :
  stdout_of (snd run) = [] /\ stderr_of (snd run) = []
  /\ Forall (fun req => req_endpoint req = endpoint /\ req_bucket_name req = bucket_name
                        /\ req_key req = object_key
                        /\ req_filename req = path_str w local_file)
       (puts_of (snd run)).
Proof.
  destruct (oss2_installed w) eqn:Hi.
  2: { rewrite (upload_not_installed Hi). repeat split; constructor. }
  destruct (require_env w (lit "FINE_OSS_ACCESS_KEY_ID") [lit "FINE_OSS_ID"])
    as [[e | id] l1] eqn:H1;
    destruct (require_env_log_eq _ _ _ _ _ H1) as [n1 ->].
  { rewrite (upload_id_missing e _ Hi H1). read_log. repeat split; constructor. }
  destruct (require_env w (lit "FINE_OSS_ACCESS_KEY_SECRET") [lit "FINE_OSS_SECRET"])
    as [[e | secret] l2] eqn:H2;
    destruct (require_env_log_eq _ _ _ _ _ H2) as [n2 ->].
  { rewrite (upload_secret_missing id _ e _ Hi H1 H2). read_log. repeat split; constructor. }
  rewrite (upload_put id _ secret _ Hi H1 H2). read_log.
  repeat split; repeat constructor.
Qed.

End UploadCases.

(** *** [main], case by case *)

Ltac finish_log :=
  cbn [bind emit ret raise lift app success_lines map];
  repeat first [rewrite <- app_assoc | rewrite app_nil_r | progress cbn [app]];
  reflexivity.

Lemma is_file_true w path : is_file w path = true -> file_test w path = RegularFile.
Proof. unfold is_file. destruct (file_test w path); [reflexivity | discriminate..]. Qed.

Lemma path_is_file_true w path :
  is_file w path = true -> path_is_file w path = (inr true, [IsFile path]).
Proof.
  intros H. unfold path_is_file. rewrite H, (is_file_true w path H). reflexivity.
Qed.

Lemma path_is_file_false w path :
  file_test w path = NotRegularFile -> path_is_file w path = (inr false, [IsFile path]).
Proof. intros H. unfold path_is_file, is_file. rewrite H. reflexivity. Qed.

Lemma path_is_file_raises w path msg :
  file_test w path = TestRaises msg ->
  path_is_file w path = (inl (OSError msg), [IsFile path]).
Proof. intros H. unfold path_is_file. rewrite H. reflexivity. Qed.

Lemma print_accepted w line :
  stdout_error w line = None -> print w line = (inr tt, [Stdout line]).
Proof. intros H. unfold print. rewrite H. reflexivity. Qed.

Lemma print_refused w line e :
  stdout_error w line = Some e -> print w line = (inl e, []).
Proof. intros H. unfold print. rewrite H. reflexivity. Qed.

(** Lines that are all accepted are all written. *)
Lemma printed_accepted w lines :
  stdout_accepts w lines = true -> printed w lines = (lines, None).
Proof.
  induction lines as [|line rest IH]; [reflexivity|].
  cbn [stdout_accepts forallb printed]. intros H. apply andb_true_iff in H as [Hl Hr].
  destruct (stdout_error w line); [discriminate|].
  fold (stdout_accepts w rest) in Hr. rewrite (IH Hr). reflexivity.
Qed.


Section MainCases.
Variables (w : World) (argv : Argv).

Local Abbreviation local_file := (mkPath (args_file (parse_args argv))).
Local Abbreviation object_key :=
  (strip_chars (lit "/") (args_object_key (parse_args argv))).
Local Abbreviation bucket_name := (bucket_name_of w).

Lemma main_file_missing :
  file_test w local_file = NotRegularFile ->
  main w argv
  = (1, [IsFile local_file;
         Stderr (lit "upload failed: File not found: " ++ path_str w local_file)]).
Proof.
  intros H. unfold main, main_body. cbv zeta. rewrite (path_is_file_false _ _ H).
  reflexivity.
Qed.

Lemma main_file_test_raises msg :
  file_test w local_file = TestRaises msg ->
  main w argv = (1, [IsFile local_file; Stderr (lit "upload failed: " ++ msg)]).
Proof.
  intros H. unfold main, main_body. cbv zeta. rewrite (path_is_file_raises _ _ _ H).
  reflexivity.
Qed.

Lemma main_endpoint_missing e l1 :
  is_file w local_file = true ->
  require_env w (lit "FINE_OSS_ENDPOINT") [] = (inl e, l1) ->
  main w argv = (1, IsFile local_file :: l1 ++ [Stderr (lit "upload failed: " ++ exn_str e)]).
Proof.
  intros H H1. unfold main, main_body. cbv zeta. rewrite (path_is_file_true _ _ H), H1.
  reflexivity.
Qed.

Lemma main_key_empty raw l1 :
  is_file w local_file = true ->
  require_env w (lit "FINE_OSS_ENDPOINT") [] = (inr raw, l1) ->
  object_key = [] ->
  main w argv
  = (1, IsFile local_file :: l1
        ++ [GetEnv (lit "FINE_OSS_BUCKET");
            Stderr (lit "upload failed: object key must not be empty")]).
Proof.
  intros H H1 Hk. unfold main, main_body. cbv zeta.
  rewrite (path_is_file_true _ _ H), H1, Hk.
  cbn [bind emit ret getenv raise app negb truthy]. finish_log.
Qed.

Lemma main_upload_raises raw l1 e l2 :
  is_file w local_file = true ->
  require_env w (lit "FINE_OSS_ENDPOINT") [] = (inr raw, l1) ->
  object_key <> [] ->
  upload_with_oss2 w local_file (normalize_endpoint raw) bucket_name object_key
  = (inl e, l2) ->
  main w argv
  = (1, IsFile local_file :: l1 ++ GetEnv (lit "FINE_OSS_BUCKET") :: l2
        ++ [Stderr (lit "upload failed: " ++ exn_str e)]).
Proof.
  intros H H1 Hk H2. unfold main, main_body, bucket_name_of in *. cbv zeta.
  rewrite (path_is_file_true _ _ H), H1. cbn [bind emit ret getenv raise app negb].
  destruct (strip_chars (lit "/") (args_object_key (parse_args argv))) as [|c k] eqn:Ek;
    [congruence|].
  cbn [truthy negb]. rewrite H2. finish_log.
Qed.

Lemma main_url_raises raw l1 l2 e :
  is_file w local_file = true ->
  require_env w (lit "FINE_OSS_ENDPOINT") [] = (inr raw, l1) ->
  object_key <> [] ->
  upload_with_oss2 w local_file (normalize_endpoint raw) bucket_name object_key
  = (inr tt, l2) ->
  build_public_url (normalize_endpoint raw) bucket_name object_key = inl e ->
  main w argv
  = (1, IsFile local_file :: l1 ++ GetEnv (lit "FINE_OSS_BUCKET") :: l2
        ++ [Stderr (lit "upload failed: " ++ exn_str e)]).
Proof.
  intros H H1 Hk H2 H3. unfold main, main_body, bucket_name_of in *. cbv zeta.
  rewrite (path_is_file_true _ _ H), H1. cbn [bind emit ret getenv raise app negb].
  destruct (strip_chars (lit "/") (args_object_key (parse_args argv))) as [|c k] eqn:Ek;
    [congruence|].
  cbn [truthy negb]. rewrite H2, H3. finish_log.
Qed.

(** After the upload and the URL: the lines are printed until one is
    refused. *)
Lemma main_printed raw l1 l2 download_url :
  is_file w local_file = true ->
  require_env w (lit "FINE_OSS_ENDPOINT") [] = (inr raw, l1) ->
  object_key <> [] ->
  upload_with_oss2 w local_file (normalize_endpoint raw) bucket_name object_key
  = (inr tt, l2) ->
  build_public_url (normalize_endpoint raw) bucket_name object_key = inr download_url ->
  main w argv
  = match printed w (success_lines (path_str w local_file) bucket_name object_key
                       download_url) with
    | (written, None) =>
        (0, IsFile local_file :: l1 ++ GetEnv (lit "FINE_OSS_BUCKET") :: l2
            ++ map Stdout written)
    | (written, Some e) =>
        (1, IsFile local_file :: l1 ++ GetEnv (lit "FINE_OSS_BUCKET") :: l2
            ++ map Stdout written ++ [Stderr (lit "upload failed: " ++ exn_str e)])
    end.
Proof.
  intros H H1 Hk H2 H3. unfold main, main_body, bucket_name_of in *. cbv zeta.
  rewrite (path_is_file_true _ _ H), H1. cbn [bind emit ret getenv raise app negb].
  destruct (strip_chars (lit "/") (args_object_key (parse_args argv))) as [|c k] eqn:Ek;
    [congruence|].
  cbn [truthy negb]. rewrite H2, H3. cbn [success_lines printed lift bind app].
  repeat match goal with
         | |- context [print w ?line] =>
             let E := fresh "E" in
             destruct (stdout_error w line) eqn:E;
             [rewrite (print_refused _ _ _ E); finish_log | rewrite (print_accepted _ _ E)]
         end.
  finish_log.
Qed.

Lemma main_success raw l1 l2 download_url :
  is_file w local_file = true ->
  require_env w (lit "FINE_OSS_ENDPOINT") [] = (inr raw, l1) ->
  object_key <> [] ->
  upload_with_oss2 w local_file (normalize_endpoint raw) bucket_name object_key
  = (inr tt, l2) ->
  build_public_url (normalize_endpoint raw) bucket_name object_key = inr download_url ->
  stdout_accepts w (success_lines (path_str w local_file) bucket_name object_key
                      download_url) = true ->
  main w argv
  = (0, IsFile local_file :: l1 ++ GetEnv (lit "FINE_OSS_BUCKET") :: l2
        ++ map Stdout
             (success_lines (path_str w local_file) bucket_name object_key download_url)).
Proof.
  intros H H1 Hk H2 H3 Hacc.
  rewrite (main_printed raw l1 l2 download_url H H1 Hk H2 H3), (printed_accepted _ _ Hacc).
  reflexivity.
Qed.

(** Whatever happens, the status is 0 or 1, and every request that is sent
    carries the normalized key, the bucket name and the path; with an empty
    key nothing is sent and nothing is printed on the standard output. *)
Lemma main_events :
  (fst (main w argv) = 0 \/ fst (main w argv) = 1)
  /\ Forall (fun req => req_bucket_name req = bucket_name /\ req_key req = object_key
                        /\ req_filename req = path_str w local_file)
       (puts_of (snd (main w argv)))
  /\ (object_key = [] ->
      fst (main w argv) = 1 /\ puts_of (snd (main w argv)) = []
      /\ stdout_of (snd (main w argv)) = []).
Proof.
  destruct (file_test w local_file) as [| |msg] eqn:Ht.
  2: { rewrite (main_file_missing Ht). read_log. repeat split; auto. }
  2: { rewrite (main_file_test_raises msg Ht). read_log. repeat split; auto. }
  assert (Hf : is_file w local_file = true) by (unfold is_file; rewrite Ht; reflexivity).
  destruct (require_env w (lit "FINE_OSS_ENDPOINT") []) as [[e | raw] l1] eqn:H1;
    destruct (require_env_log_eq _ _ _ _ _ H1) as [n1 ->].
  { rewrite (main_endpoint_missing e _ Hf H1). read_log. repeat split; auto. }
  destruct (decide (object_key = [])) as [Hk | Hk].
  { rewrite (main_key_empty raw _ Hf H1 Hk). read_log. repeat split; auto. }
  pose proof (upload_events w local_file (normalize_endpoint raw) bucket_name object_key)
    as (Hout & Herr & Hputs).
  assert (Hputs' : Forall (fun req => req_bucket_name req = bucket_name
                             /\ req_key req = object_key
                             /\ req_filename req = path_str w local_file)
                     (puts_of (snd (upload_with_oss2 w local_file (normalize_endpoint raw)
                                      bucket_name object_key)))).
  { revert Hputs. apply List.Forall_impl. intros req. tauto. }
  destruct (upload_with_oss2 w local_file (normalize_endpoint raw) bucket_name object_key)
    as [[e | []] l2] eqn:H2; cbn [snd] in *.
  { rewrite (main_upload_raises raw _ e l2 Hf H1 Hk H2). read_log.
    rewrite !app_nil_r. repeat split; auto. congruence. }
  destruct (build_public_url (normalize_endpoint raw) bucket_name object_key)
    as [e | url] eqn:H3.
  - rewrite (main_url_raises raw _ l2 e Hf H1 Hk H2 H3). read_log.
    rewrite !app_nil_r. repeat split; auto. congruence.
  - rewrite (main_printed raw _ l2 url Hf H1 Hk H2 H3).
    destruct (printed w _) as [written [e|]]; read_log;
      rewrite ?puts_of_lines, ?app_nil_r; repeat split; auto; congruence.
Qed.

End MainCases.

(** Once the upload is reached, the requests of the run are those of the
    upload. *)
Lemma main_puts_of_upload w argv raw l1 :
  is_file w (mkPath (args_file (parse_args argv))) = true ->
  require_env w (lit "FINE_OSS_ENDPOINT") [] = (inr raw, l1) ->
  strip_chars (lit "/") (args_object_key (parse_args argv)) <> [] ->
  puts_of (snd (main w argv))
  = puts_of (snd (upload_with_oss2 w (mkPath (args_file (parse_args argv)))
                    (normalize_endpoint raw) (bucket_name_of w)
                    (strip_chars (lit "/") (args_object_key (parse_args argv))))).
Proof.
  intros Hf H1 Hk. destruct (require_env_log_eq _ _ _ _ _ H1) as [n1 ->].
  destruct (upload_with_oss2 w (mkPath (args_file (parse_args argv)))
              (normalize_endpoint raw) (bucket_name_of w)
              (strip_chars (lit "/") (args_object_key (parse_args argv))))
    as [[e | []] l2] eqn:H2; cbn [snd].
  { rewrite (main_upload_raises w argv raw _ e l2 Hf H1 Hk H2). read_log. apply app_nil_r. }
  destruct (build_public_url (normalize_endpoint raw) (bucket_name_of w)
              (strip_chars (lit "/") (args_object_key (parse_args argv))))
    as [e | url] eqn:H3.
  - rewrite (main_url_raises w argv raw _ l2 e Hf H1 Hk H2 H3). read_log. apply app_nil_r.
  - rewrite (main_printed w argv raw _ l2 url Hf H1 Hk H2 H3).
    destruct (printed w _) as [written [e|]]; read_log; apply app_nil_r.
Qed.

(** ** The status of the put (C4) *)

(** C4. With the SDK installed and both credentials found, the upload
    succeeds exactly when the status of the put is between 200 and 299; for
    any other status it raises an error whose text reports the status; and
    when the status is 403 a run that reaches the upload ends with status 1
    and the single line [upload failed: OSS upload failed, status=403] on the
    error stream. *)
Theorem upload_status_decides (w : World) (local_file : Path)
    (endpoint bucket_name object_key id secret : pystr) (l1 l2 : list event) (status : Z) :
  oss2_installed w = true ->
  require_env w (lit "FINE_OSS_ACCESS_KEY_ID") [lit "FINE_OSS_ID"] = (inr id, l1) ->
  require_env w (lit "FINE_OSS_ACCESS_KEY_SECRET") [lit "FINE_OSS_SECRET"] = (inr secret, l2) ->
  (forall req, sdk_put w req = PutStatus status) ->
  (fst (upload_with_oss2 w local_file endpoint bucket_name object_key) = inr tt
   <-> 200 <= status <= 299)
  /\ (~ 200 <= status <= 299 ->
      fst (upload_with_oss2 w local_file endpoint bucket_name object_key)
      = inl (RuntimeError (lit "OSS upload failed, status=" ++ str_of_int status)))
  /\ (status = 403 ->
      forall argv raw l0,
        is_file w (mkPath (args_file (parse_args argv))) = true ->
        require_env w (lit "FINE_OSS_ENDPOINT") [] = (inr raw, l0) ->
        strip_chars (lit "/") (args_object_key (parse_args argv)) <> [] ->
        fst (main w argv) = 1
        /\ stderr_of (snd (main w argv))
           = [lit "upload failed: OSS upload failed, status=403"]
        /\ stdout_of (snd (main w argv)) = []).
Proof.
  intros Hi H1 H2 Hput.
  assert (Hrun : forall p e b k,
             upload_with_oss2 w p e b k
             = (upload_outcome (PutStatus status),
                ImportOss2 :: l1 ++ l2
                ++ [GetEnv (lit "FINE_OSS_SECURITY_TOKEN");
                    PutObject (upload_request w p e b k id secret
                                 (env_value w (lit "FINE_OSS_SECURITY_TOKEN")))])).
  { intros p e b k. rewrite (upload_put w p e b k id l1 secret l2 Hi H1 H2).
    cbv zeta. rewrite Hput. reflexivity. }
  rewrite Hrun. cbn [fst upload_outcome].
  split; [|split].
  - destruct (Z.ltb_spec status 200); destruct (Z.geb_spec status 300); cbn [orb];
      split; intros; try discriminate; try reflexivity; lia.
  - intros Hout.
    destruct (Z.ltb_spec status 200); destruct (Z.geb_spec status 300); cbn [orb];
      try reflexivity; lia.
  - intros -> argv raw l0 Hf H0 Hk.
    destruct (require_env_log_eq _ _ _ _ _ H0) as [n0 ->].
    destruct (require_env_log_eq _ _ _ _ _ H1) as [n1 ->].
    destruct (require_env_log_eq _ _ _ _ _ H2) as [n2 ->].
    rewrite (main_upload_raises w argv raw _ _ _ Hf H0 Hk (Hrun _ _ _ _)).
    read_log. repeat split; reflexivity.
Qed.

Lemma upload_status_decides_witness :
  (fst (upload_with_oss2 (scenario_world 403) (mkPath (lit "dist/plugin.zip"))
          (lit "https://oss-cn-hangzhou.aliyuncs.com") (lit "fine-build")
          (lit "test/plugin.zip")) = inr tt
   <-> 200 <= 403 <= 299)
  /\ fst (main (scenario_world 403) scenario_argv) = 1
  /\ stderr_of (snd (main (scenario_world 403) scenario_argv))
     = [lit "upload failed: OSS upload failed, status=403"]
  /\ stdout_of (snd (main (scenario_world 403) scenario_argv)) = [].
Proof.
  pose proof (upload_status_decides (scenario_world 403) (mkPath (lit "dist/plugin.zip"))
                (lit "https://oss-cn-hangzhou.aliyuncs.com") (lit "fine-build")
                (lit "test/plugin.zip") (lit "LTAI5tExample") (lit "s3cr3t")
                [GetEnv (lit "FINE_OSS_ACCESS_KEY_ID")]
                [GetEnv (lit "FINE_OSS_ACCESS_KEY_SECRET"); GetEnv (lit "FINE_OSS_SECRET")]
                403 eq_refl eq_refl eq_refl (fun _ => eq_refl)) as (Hiff & _ & H403).
  split; [exact Hiff|].
  apply (H403 eq_refl scenario_argv (lit "oss-cn-hangzhou.aliyuncs.com")
           [GetEnv (lit "FINE_OSS_ENDPOINT")]); [reflexivity | reflexivity |].
  vm_compute. discriminate.
Defined.

(** ** Required variables (C5) *)

Lemma contains_unfold s sub :
  contains s sub = startswith s sub || match s with [] => false | _ :: t => contains t sub end.
Proof. destruct s; reflexivity. Qed.

Lemma contains_infix a x b : contains (a ++ x ++ b) x = true.
Proof.
  induction a as [|c a IH]; cbn [app].
  - rewrite contains_unfold, startswith_app. reflexivity.
  - cbn [contains]. rewrite IH. apply orb_true_r.
Qed.

Lemma join_infix sep parts x :
  In x parts -> exists a b, join sep parts = a ++ x ++ b.
Proof.
  induction parts as [|y rest IH]; [intros []|].
  intros [-> | Hin].
  - destruct rest as [|z rest].
    + exists [], []. cbn. rewrite app_nil_r. reflexivity.
    + exists [], (sep ++ join sep (z :: rest)). reflexivity.
  - destruct (IH Hin) as (a & b & Heq). destruct rest as [|z rest]; [destruct Hin|].
    exists (y ++ sep ++ a), b. cbn [join] in *. rewrite Heq, <- !app_assoc. reflexivity.
Qed.

(** C5. [require_env] returns the stripped value of the first variable,
    among the name and then the aliases in order, whose stripped value is not
    empty, and reads no variable after it; when the name and all aliases are
    unset or blank it raises the error [Missing required env var:] followed
    by all the names, separated by commas, so every checked name is in the
    message. *)
Theorem require_env_first_nonblank (w : World) (name : pystr) (aliases : list pystr) :
  (forall pre var_name post,
     name :: aliases = pre ++ var_name :: post ->
     Forall (fun x => env_value w x = []) pre ->
     env_value w var_name <> [] ->
     fst (require_env w name aliases) = inr (env_value w var_name)
     /\ getenvs_of (snd (require_env w name aliases)) = pre ++ [var_name])
  /\ (Forall (fun x => env_value w x = []) (name :: aliases) ->
      fst (require_env w name aliases)
      = inl (RuntimeError (lit "Missing required env var: "
                           ++ join (lit ", ") (name :: aliases)))
      /\ forall x, In x (name :: aliases) ->
           contains (lit "Missing required env var: " ++ join (lit ", ") (name :: aliases)) x
           = true).
Proof.
  split.
  - intros pre var_name post Heq Hpre Hvar.
    rewrite (require_env_found w name aliases pre var_name post Heq Hpre Hvar).
    split; [reflexivity|]. cbn [snd]. unfold getenvs_of.
    induction (pre ++ [var_name]) as [|x l IH]; [reflexivity|]. cbn. f_equal. exact IH.
  - intros Hall. rewrite (require_env_blank w name aliases Hall). split; [reflexivity|].
    intros x Hx. destruct (join_infix (lit ", ") (name :: aliases) x Hx) as (a & b & ->).
    rewrite app_assoc. apply contains_infix.
Qed.

Lemma require_env_first_nonblank_witness :
  (fst (require_env (scenario_world 200) (lit "FINE_OSS_ACCESS_KEY_SECRET")
          [lit "FINE_OSS_SECRET"])
   = inr (env_value (scenario_world 200) (lit "FINE_OSS_SECRET"))
   /\ getenvs_of (snd (require_env (scenario_world 200) (lit "FINE_OSS_ACCESS_KEY_SECRET")
                         [lit "FINE_OSS_SECRET"]))
      = [lit "FINE_OSS_ACCESS_KEY_SECRET"] ++ [lit "FINE_OSS_SECRET"])
  /\ fst (require_env bare_world (lit "FINE_OSS_ACCESS_KEY_SECRET") [lit "FINE_OSS_SECRET"])
     = inl (RuntimeError (lit "Missing required env var: "
                          ++ join (lit ", ") [lit "FINE_OSS_ACCESS_KEY_SECRET";
                                              lit "FINE_OSS_SECRET"])).
Proof.
  split.
  - apply (proj1 (require_env_first_nonblank (scenario_world 200)
                    (lit "FINE_OSS_ACCESS_KEY_SECRET") [lit "FINE_OSS_SECRET"])
             [lit "FINE_OSS_ACCESS_KEY_SECRET"] (lit "FINE_OSS_SECRET") []).
    + reflexivity.
    + repeat constructor.
    + vm_compute. discriminate.
  - apply (proj2 (require_env_first_nonblank bare_world
                    (lit "FINE_OSS_ACCESS_KEY_SECRET") [lit "FINE_OSS_SECRET"])).
    repeat constructor.
Defined.

(** ** The missing file (C6) *)

(** C6, as amended. When [is_file()] answers that the file argument is
    no regular file, the run consists of the test of the file and one line on
    the error stream, [upload failed: File not found:] followed by the path.
    When [is_file()] itself raises an [OSError], the run consists of the test
    and the line [upload failed:] followed by the text of that error. Either
    way the status is 1, no variable was read, the SDK was not imported and no
    put request was sent. *)
Theorem file_not_found_before_network (w : World) (argv : Argv) :
  (file_test w (mkPath (args_file (parse_args argv))) = NotRegularFile ->
   main w argv
   = (1, [IsFile (mkPath (args_file (parse_args argv)));
          Stderr (lit "upload failed: " ++ lit "File not found: "
                  ++ path_str w (mkPath (args_file (parse_args argv))))]))
  /\ (forall msg,
        file_test w (mkPath (args_file (parse_args argv))) = TestRaises msg ->
        main w argv
        = (1, [IsFile (mkPath (args_file (parse_args argv)));
               Stderr (lit "upload failed: " ++ msg)]))
  /\ (is_file w (mkPath (args_file (parse_args argv))) = false ->
      fst (main w argv) = 1
      /\ stdout_of (snd (main w argv)) = []
      /\ getenvs_of (snd (main w argv)) = []
      /\ imports_of (snd (main w argv)) = O
      /\ puts_of (snd (main w argv)) = []).
Proof.
  split; [exact (main_file_missing w argv)|].
  split; [intros msg; exact (main_file_test_raises w argv msg)|].
  unfold is_file.
  destruct (file_test w (mkPath (args_file (parse_args argv)))) as [| |msg] eqn:Ht;
    [discriminate| |]; intros _.
  - rewrite (main_file_missing w argv Ht). repeat split; reflexivity.
  - rewrite (main_file_test_raises w argv msg Ht). repeat split; reflexivity.
Qed.

Lemma file_not_found_before_network_witness :
  main (scenario_world 200)
    {| opt_file := Some (lit "dist/missing.zip"); opt_object_key := None |}
  = (1, [IsFile (mkPath (lit "dist/missing.zip"));
         Stderr (lit "upload failed: File not found: dist/missing.zip")])
  /\ main long_name_world long_name_argv
     = (1, [IsFile (mkPath (repeat 97 300));
            Stderr (lit "upload failed: "
                    ++ (lit "[Errno 36] File name too long: '" ++ repeat 97 300 ++ lit "'"))])
  /\ puts_of (snd (main long_name_world long_name_argv)) = [].
Proof.
  pose proof (file_not_found_before_network (scenario_world 200)
                {| opt_file := Some (lit "dist/missing.zip"); opt_object_key := None |})
    as (Hmissing & _ & _).
  pose proof (file_not_found_before_network long_name_world long_name_argv)
    as (_ & Hraises & Hquiet).
  split; [exact (Hmissing eq_refl)|].
  split; [exact (Hraises _ eq_refl)|].
  apply (Hquiet eq_refl).
Defined.

(** C6 as stated fails: where file names have at most 255 characters, a
    file argument of 300 letters names no regular file, and the error that is
    printed is the one of the test of the file, not [File not found]. *)
Lemma long_name_not_reported_missing :
  is_file long_name_world (mkPath (args_file (parse_args long_name_argv))) = false
  /\ stderr_of (snd (main long_name_world long_name_argv))
     = [lit "upload failed: [Errno 36] File name too long: '" ++ repeat 97 300 ++ lit "'"]
  /\ ~ exists line,
         In line (stderr_of (snd (main long_name_world long_name_argv)))
         /\ contains line (lit "File not found") = true.
Proof.
  split; [reflexivity|]. split; [reflexivity|].
  intros (line & Hin & Hc). vm_compute in Hin. destruct Hin as [<- | []].
  vm_compute in Hc. discriminate.
Qed.

(** ** The object key (C7) *)

Lemma forallb_slash l : forallb (one_of (lit "/")) l = true -> l = repeat 47 (List.length l).
Proof.
  induction l as [|c l IH]; [reflexivity|]. cbn [forallb List.length repeat].
  intros H. apply andb_true_iff in H as [Hc Hl]. rewrite one_of_slash in Hc.
  apply Z.eqb_eq in Hc. rewrite <- (IH Hl). congruence.
Qed.

Lemma strip_slash_split s :
  exists n m, s = repeat 47 n ++ strip_chars (lit "/") s ++ repeat 47 m.
Proof.
  unfold strip_chars, strip_by.
  destruct (lstrip_by_split (one_of (lit "/")) s) as (pre & Hs & Hpre).
  destruct (rstrip_by_split (one_of (lit "/")) (lstrip_by (one_of (lit "/")) s))
    as (post & Hl & Hpost).
  exists (List.length pre), (List.length post).
  rewrite <- (forallb_slash pre Hpre), <- (forallb_slash post Hpost), <- Hl. exact Hs.
Qed.

Lemma strip_slash_startswith s : startswith (strip_chars (lit "/") s) (lit "/") = false.
Proof.
  unfold strip_chars, strip_by.
  destruct (rstrip_by_split (one_of (lit "/")) (lstrip_by (one_of (lit "/")) s))
    as (post & Hl & _).
  destruct (rstrip_by (one_of (lit "/")) (lstrip_by (one_of (lit "/")) s)) as [|c r];
    [reflexivity|].
  cbn [app] in Hl. apply lstrip_by_head in Hl. rewrite one_of_slash in Hl.
  change (lit "/") with [47]. cbn [startswith]. rewrite Hl. reflexivity.
Qed.

(** C7. The object key that is used is the argument without its leading
    and trailing slashes: the argument is some slashes, the key, and some
    slashes; the key neither starts nor ends with a slash, so that nothing
    inside it is touched, and [/a//b/] gives [a//b]. That key is the one the
    run uses: when the run reaches the SDK with both credentials, the one put
    request it sends carries it, and when the upload succeeds and the lines
    are printed, they are the lines of that key. When the key is empty, the
    run ends with status 1 without a put request and without output; the error
    is [object key must not be empty] when the file exists and the endpoint
    is set, which are checked first. *)
Theorem object_key_outer_slashes (w : World) (argv : Argv) :
  let local_file := mkPath (args_file (parse_args argv)) in
  let key := args_object_key (parse_args argv) in
  let object_key := strip_chars (lit "/") key in
  (exists n m, key = repeat 47 n ++ object_key ++ repeat 47 m)
  /\ startswith object_key (lit "/") = false
  /\ endswith object_key (lit "/") = false
  /\ strip_chars (lit "/") (lit "/a//b/") = lit "a//b"
  /\ Forall (fun req => req_key req = object_key) (puts_of (snd (main w argv)))
  /\ (object_key <> [] ->
      is_file w local_file = true ->
      forall raw l0,
        require_env w (lit "FINE_OSS_ENDPOINT") [] = (inr raw, l0) ->
        (oss2_installed w = true ->
         forall id l1 secret l2,
           require_env w (lit "FINE_OSS_ACCESS_KEY_ID") [lit "FINE_OSS_ID"] = (inr id, l1) ->
           require_env w (lit "FINE_OSS_ACCESS_KEY_SECRET") [lit "FINE_OSS_SECRET"]
           = (inr secret, l2) ->
           map req_key (puts_of (snd (main w argv))) = [object_key])
        /\ (forall l3 url,
              upload_with_oss2 w local_file (normalize_endpoint raw) (bucket_name_of w)
                object_key = (inr tt, l3) ->
              build_public_url (normalize_endpoint raw) (bucket_name_of w) object_key
              = inr url ->
              stdout_accepts w (success_lines (path_str w local_file) (bucket_name_of w)
                                  object_key url) = true ->
              stdout_of (snd (main w argv))
              = [ lit "Uploaded: " ++ path_str w local_file;
                  lit "OSS Path: oss://" ++ bucket_name_of w ++ lit "/" ++ object_key;
                  lit "URL: " ++ url;
                  [0x4E0B; 0x8F7D; 0x5730; 0x5740] ++ lit ": " ++ url ]))
  /\ (object_key = [] ->
      fst (main w argv) = 1
      /\ puts_of (snd (main w argv)) = []
      /\ stdout_of (snd (main w argv)) = []
      /\ (is_file w local_file = true ->
          forall raw l1,
            require_env w (lit "FINE_OSS_ENDPOINT") [] = (inr raw, l1) ->
            stderr_of (snd (main w argv))
            = [lit "upload failed: object key must not be empty"])).
Proof.
  cbv zeta.
  pose proof (main_events w argv) as (_ & Hputs & Hempty).
  split; [apply strip_slash_split|].
  split; [apply strip_slash_startswith|].
  split.
  { destruct (strip_chars (lit "/") (args_object_key (parse_args argv))) as [|c r] eqn:Hk;
      [reflexivity|].
    rewrite <- Hk. apply (strip_slash_endswith (args_object_key (parse_args argv)) []).
    rewrite Hk. discriminate. }
  split; [reflexivity|].
  split.
  { revert Hputs. apply List.Forall_impl. intros req H. apply H. }
  split.
  - intros Hk Hf raw l0 H0. split.
    + intros Hi id l1 secret l2 H1 H2.
      rewrite (main_puts_of_upload w argv raw l0 Hf H0 Hk).
      destruct (require_env_log_eq _ _ _ _ _ H1) as [n1 ->].
      destruct (require_env_log_eq _ _ _ _ _ H2) as [n2 ->].
      rewrite (upload_put w _ _ _ _ id _ secret _ Hi H1 H2). cbv zeta. read_log.
      reflexivity.
    + intros l3 url H3 Hurl Hacc.
      pose proof (upload_events w (mkPath (args_file (parse_args argv)))
                    (normalize_endpoint raw) (bucket_name_of w)
                    (strip_chars (lit "/") (args_object_key (parse_args argv))))
        as (Hout & _ & _).
      rewrite H3 in Hout. cbn [snd] in Hout.
      destruct (require_env_log_eq _ _ _ _ _ H0) as [n0 ->].
      rewrite (main_success w argv raw _ l3 url Hf H0 Hk H3 Hurl Hacc). read_log.
      rewrite Hout. reflexivity.
  - intros Hk. destruct (Hempty Hk) as (Hst & Hp & Hout).
    repeat split; [exact Hst | exact Hp | exact Hout |].
    intros Hf raw l1 H1. destruct (require_env_log_eq _ _ _ _ _ H1) as [n1 ->].
    rewrite (main_key_empty w argv raw _ Hf H1 Hk). read_log. reflexivity.
Qed.

Lemma object_key_outer_slashes_witness :
  map req_key
    (puts_of (snd (main (scenario_world 200)
                     {| opt_file := Some (lit "dist/plugin.zip");
                        opt_object_key := Some (lit "/a//b/") |})))
  = [lit "a//b"]
  /\ stdout_of (snd (main (scenario_world 200)
                       {| opt_file := Some (lit "dist/plugin.zip");
                          opt_object_key := Some (lit "/a//b/") |}))
     = [ lit "Uploaded: dist/plugin.zip";
         lit "OSS Path: oss://fine-build/a//b";
         lit "URL: https://fine-build.oss-cn-hangzhou.aliyuncs.com/a//b";
         [0x4E0B; 0x8F7D; 0x5730; 0x5740]
           ++ lit ": https://fine-build.oss-cn-hangzhou.aliyuncs.com/a//b" ]
  /\ fst (main (scenario_world 200)
            {| opt_file := Some (lit "dist/plugin.zip"); opt_object_key := Some (lit "///") |})
     = 1
  /\ stderr_of (snd (main (scenario_world 200)
                       {| opt_file := Some (lit "dist/plugin.zip");
                          opt_object_key := Some (lit "///") |}))
     = [lit "upload failed: object key must not be empty"].
Proof.
  pose proof (object_key_outer_slashes (scenario_world 200)
                {| opt_file := Some (lit "dist/plugin.zip");
                   opt_object_key := Some (lit "/a//b/") |})
    as (_ & _ & _ & _ & _ & Hused & _).
  pose proof (object_key_outer_slashes (scenario_world 200)
                {| opt_file := Some (lit "dist/plugin.zip");
                   opt_object_key := Some (lit "///") |})
    as (_ & _ & _ & _ & _ & _ & Hempty).
  destruct (Hused ltac:(vm_compute; discriminate) eq_refl
              (lit "oss-cn-hangzhou.aliyuncs.com") [GetEnv (lit "FINE_OSS_ENDPOINT")] eq_refl)
    as [Hput Hlines].
  split.
  { exact (Hput eq_refl (lit "LTAI5tExample") [GetEnv (lit "FINE_OSS_ACCESS_KEY_ID")]
             (lit "s3cr3t")
             [GetEnv (lit "FINE_OSS_ACCESS_KEY_SECRET"); GetEnv (lit "FINE_OSS_SECRET")]
             eq_refl eq_refl). }
  split.
  { exact (Hlines
             [ImportOss2; GetEnv (lit "FINE_OSS_ACCESS_KEY_ID");
              GetEnv (lit "FINE_OSS_ACCESS_KEY_SECRET"); GetEnv (lit "FINE_OSS_SECRET");
              GetEnv (lit "FINE_OSS_SECURITY_TOKEN");
              PutObject (upload_request (scenario_world 200) (mkPath (lit "dist/plugin.zip"))
                           (lit "https://oss-cn-hangzhou.aliyuncs.com") (lit "fine-build")
                           (lit "a//b") (lit "LTAI5tExample") (lit "s3cr3t") [])]
             (lit "https://fine-build.oss-cn-hangzhou.aliyuncs.com/a//b")
             eq_refl eq_refl eq_refl). }
  destruct (Hempty eq_refl) as (Hst & _ & _ & Herr).
  split; [exact Hst|].
  exact (Herr eq_refl (lit "oss-cn-hangzhou.aliyuncs.com")
           [GetEnv (lit "FINE_OSS_ENDPOINT")] eq_refl).
Defined.

(** ** The successful run (C8) *)

Lemma in_stdout_of_run a l1 b l2 lines x :
  In x lines -> In x (stdout_of (a :: l1 ++ b :: l2 ++ map Stdout lines)).
Proof.
  intros H.
  replace (a :: l1 ++ b :: l2 ++ map Stdout lines)
    with ((a :: l1 ++ b :: l2) ++ map Stdout lines)
    by (cbn [app]; rewrite <- app_assoc; reflexivity).
  rewrite stdout_of_app, stdout_of_lines. apply in_or_app. right. exact H.
Qed.

Lemma public_url_encodable endpoint bucket key encoded :
  quote key = inr encoded ->
  build_public_url endpoint bucket key = inr (url_prefix bucket (host_of endpoint) ++ encoded)
  /\ public_url endpoint bucket key = url_prefix bucket (host_of endpoint) ++ encoded.
Proof.
  intros Hq. unfold public_url, build_public_url, url_prefix. rewrite Hq, <- !app_assoc.
  split; reflexivity.
Qed.

(** The log of a run whose steps all succeed. *)
Lemma run_succeeds (w : World) (argv : Argv) (raw : pystr) (l1 l2 : list event) :
  let local_file := mkPath (args_file (parse_args argv)) in
  let object_key := strip_chars (lit "/") (args_object_key (parse_args argv)) in
  let endpoint := normalize_endpoint raw in
  is_file w local_file = true ->
  require_env w (lit "FINE_OSS_ENDPOINT") [] = (inr raw, l1) ->
  object_key <> [] ->
  encodable object_key = true ->
  upload_with_oss2 w local_file endpoint (bucket_name_of w) object_key = (inr tt, l2) ->
  stdout_accepts w (run_lines w argv raw) = true ->
  exists encoded,
    quote object_key = inr encoded
    /\ main w argv
       = (0, IsFile local_file :: l1 ++ GetEnv (lit "FINE_OSS_BUCKET") :: l2
             ++ map Stdout
                  (success_lines (path_str w local_file) (bucket_name_of w) object_key
                     (url_prefix (bucket_name_of w) (host_of endpoint) ++ encoded))).
Proof.
  cbv zeta. intros Hf H1 Hk Henc H2 Hacc.
  destruct (unquote_quote _ Henc) as (encoded & Hq & _).
  destruct (public_url_encodable (normalize_endpoint raw) (bucket_name_of w) _ _ Hq)
    as [Hurl Hpub].
  exists encoded. split; [exact Hq|].
  unfold run_lines in Hacc. rewrite Hpub in Hacc.
  exact (main_success w argv raw l1 l2 _ Hf H1 Hk H2 Hurl Hacc).
Qed.

(** C8, as amended. When the file exists, the endpoint is set, the object
    key is not empty and can be encoded as UTF-8, the upload succeeds, and the
    standard output accepts the four lines, the program prints them,
    [Uploaded:] and the local path, [OSS Path: oss://], the bucket, a slash and
    the key, [URL:] and the public URL, and the same URL after the localized
    label, prints nothing on the error stream, and ends with status 0. *)
Theorem successful_run_output (w : World) (argv : Argv) (raw : pystr) (l1 l2 : list event) :
  let local_file := mkPath (args_file (parse_args argv)) in
  let object_key := strip_chars (lit "/") (args_object_key (parse_args argv)) in
  let endpoint := normalize_endpoint raw in
  is_file w local_file = true ->
  require_env w (lit "FINE_OSS_ENDPOINT") [] = (inr raw, l1) ->
  object_key <> [] ->
  encodable object_key = true ->
  upload_with_oss2 w local_file endpoint (bucket_name_of w) object_key = (inr tt, l2) ->
  stdout_accepts w (run_lines w argv raw) = true ->
  exists encoded,
    quote object_key = inr encoded
    /\ fst (main w argv) = 0
    /\ stdout_of (snd (main w argv))
       = [ lit "Uploaded: " ++ path_str w local_file;
           lit "OSS Path: oss://" ++ bucket_name_of w ++ lit "/" ++ object_key;
           lit "URL: " ++ url_prefix (bucket_name_of w) (host_of endpoint) ++ encoded;
           [0x4E0B; 0x8F7D; 0x5730; 0x5740] ++ lit ": "
             ++ url_prefix (bucket_name_of w) (host_of endpoint) ++ encoded ]
    /\ stderr_of (snd (main w argv)) = [].
Proof.
  cbv zeta. intros Hf H1 Hk Henc H2 Hacc.
  destruct (run_succeeds w argv raw l1 l2 Hf H1 Hk Henc H2 Hacc) as (encoded & Hq & Hmain).
  exists encoded. split; [exact Hq|].
  pose proof (upload_events w (mkPath (args_file (parse_args argv))) (normalize_endpoint raw)
                (bucket_name_of w) (strip_chars (lit "/") (args_object_key (parse_args argv))))
    as (Hout & Herr & _).
  rewrite H2 in Hout, Herr. cbn [snd] in Hout, Herr.
  destruct (require_env_log_eq _ _ _ _ _ H1) as [n1 ->].
  rewrite Hmain. read_log. rewrite Hout, Herr.
  repeat split; reflexivity.
Qed.

Lemma successful_run_output_witness :
  exists encoded,
    quote (lit "test/plugin.zip") = inr encoded
    /\ fst (main (scenario_world 200) scenario_argv) = 0
    /\ stdout_of (snd (main (scenario_world 200) scenario_argv))
       = [ lit "Uploaded: dist/plugin.zip";
           lit "OSS Path: oss://fine-build/test/plugin.zip";
           lit "URL: https://fine-build.oss-cn-hangzhou.aliyuncs.com/" ++ encoded;
           [0x4E0B; 0x8F7D; 0x5730; 0x5740]
             ++ lit ": https://fine-build.oss-cn-hangzhou.aliyuncs.com/" ++ encoded ]
    /\ stderr_of (snd (main (scenario_world 200) scenario_argv)) = [].
Proof.
  exact (successful_run_output (scenario_world 200) scenario_argv
           (lit "oss-cn-hangzhou.aliyuncs.com") [GetEnv (lit "FINE_OSS_ENDPOINT")]
           [ImportOss2; GetEnv (lit "FINE_OSS_ACCESS_KEY_ID");
            GetEnv (lit "FINE_OSS_ACCESS_KEY_SECRET"); GetEnv (lit "FINE_OSS_SECRET");
            GetEnv (lit "FINE_OSS_SECURITY_TOKEN");
            PutObject (upload_request (scenario_world 200) (mkPath (lit "dist//plugin.zip"))
                         (lit "https://oss-cn-hangzhou.aliyuncs.com") (lit "fine-build")
                         (lit "test/plugin.zip") (lit "LTAI5tExample") (lit "s3cr3t") [])]
           eq_refl eq_refl ltac:(vm_compute; discriminate) eq_refl eq_refl eq_refl).
Defined.

(** C8 as stated fails: in the scenario of the specification the upload
    succeeds and the status is 0, but the second line is
    [OSS Path: oss://fine-build/test/plugin.zip], and no line of the output
    contains [storage://fine-build/test/plugin.zip]. *)
Lemma successful_run_prints_oss_scheme :
  fst (main (scenario_world 200) scenario_argv) = 0
  /\ stdout_of (snd (main (scenario_world 200) scenario_argv))
     = [ lit "Uploaded: dist/plugin.zip";
         lit "OSS Path: oss://fine-build/test/plugin.zip";
         lit "URL: https://fine-build.oss-cn-hangzhou.aliyuncs.com/test/plugin.zip";
         [0x4E0B; 0x8F7D; 0x5730; 0x5740]
           ++ lit ": https://fine-build.oss-cn-hangzhou.aliyuncs.com/test/plugin.zip" ]
  /\ ~ exists line,
         In line (stdout_of (snd (main (scenario_world 200) scenario_argv)))
         /\ contains line (lit "storage://fine-build/test/plugin.zip") = true.
Proof.
  split; [reflexivity|]. split; [reflexivity|].
  intros (line & Hin & Hc). vm_compute in Hin.
  destruct Hin as [<- | [<- | [<- | [<- | []]]]]; vm_compute in Hc; discriminate.
Qed.

(** A key that cannot be encoded: the request is sent, then [quote] raises
    and the run ends with status 1. *)
Example unencodable_key_after_upload :
  let run := main (scenario_world 200)
               {| opt_file := Some (lit "dist/plugin.zip");
                  opt_object_key := Some [0xDC80] |} in
  fst run = 1
  /\ map req_key (puts_of (snd run)) = [[0xDC80]]
  /\ stdout_of (snd run) = []
  /\ stderr_of (snd run)
     = [lit "upload failed: 'utf-8' codec can't encode character '\udc80' in position 0: surrogates not allowed"].
Proof. repeat split; reflexivity. Qed.

(** ** The default bucket and the required variables (C9) *)

Lemma bucket_name_default w :
  env_value w (lit "FINE_OSS_BUCKET") = [] -> bucket_name_of w = DEFAULT_BUCKET.
Proof.
  unfold env_value, bucket_name_of.
  destruct (environ w !! lit "FINE_OSS_BUCKET") as [v|]; [intros ->|]; reflexivity.
Qed.

(** Without a regular file the run ends at once. *)
Lemma main_without_file w argv :
  is_file w (mkPath (args_file (parse_args argv))) = false ->
  fst (main w argv) = 1 /\ puts_of (snd (main w argv)) = [].
Proof.
  unfold is_file.
  destruct (file_test w (mkPath (args_file (parse_args argv)))) as [| |msg] eqn:Ht;
    [discriminate| |]; intros _.
  - rewrite (main_file_missing w argv Ht). split; reflexivity.
  - rewrite (main_file_test_raises w argv msg Ht). split; reflexivity.
Qed.

(** A run cannot succeed when the upload cannot. *)
Lemma main_fails_with_upload w argv :
  (forall p e b k, exists err l,
      upload_with_oss2 w p e b k = (inl err, l) /\ puts_of l = []) ->
  fst (main w argv) = 1 /\ puts_of (snd (main w argv)) = [].
Proof.
  intros Hup.
  destruct (is_file w (mkPath (args_file (parse_args argv)))) eqn:Hf.
  2: { exact (main_without_file w argv Hf). }
  destruct (require_env w (lit "FINE_OSS_ENDPOINT") []) as [[e | raw] l1] eqn:H1;
    destruct (require_env_log_eq _ _ _ _ _ H1) as [n1 ->].
  { rewrite (main_endpoint_missing w argv e _ Hf H1). read_log. split; reflexivity. }
  destruct (decide (strip_chars (lit "/") (args_object_key (parse_args argv)) = []))
    as [Hk | Hk].
  { rewrite (main_key_empty w argv raw _ Hf H1 Hk). read_log. split; reflexivity. }
  destruct (Hup (mkPath (args_file (parse_args argv))) (normalize_endpoint raw)
              (bucket_name_of w)
              (strip_chars (lit "/") (args_object_key (parse_args argv))))
    as (err & l2 & H2 & Hp).
  rewrite (main_upload_raises w argv raw _ err l2 Hf H1 Hk H2). read_log.
  rewrite Hp. split; reflexivity.
Qed.

Lemma main_fails_without_endpoint w argv :
  env_value w (lit "FINE_OSS_ENDPOINT") = [] ->
  fst (main w argv) = 1 /\ puts_of (snd (main w argv)) = [].
Proof.
  intros Hb.
  destruct (is_file w (mkPath (args_file (parse_args argv)))) eqn:Hf.
  2: { exact (main_without_file w argv Hf). }
  assert (Hall : Forall (fun x => env_value w x = []) [lit "FINE_OSS_ENDPOINT"])
    by (repeat constructor; exact Hb).
  rewrite (main_endpoint_missing w argv _ _ Hf (require_env_blank w _ [] Hall)).
  read_log. split; reflexivity.
Qed.

Lemma upload_fails_without_id w :
  env_value w (lit "FINE_OSS_ACCESS_KEY_ID") = [] ->
  env_value w (lit "FINE_OSS_ID") = [] ->
  forall p e b k, exists err l,
    upload_with_oss2 w p e b k = (inl err, l) /\ puts_of l = [].
Proof.
  intros Ha Hb p e b k.
  destruct (oss2_installed w) eqn:Hi.
  2: { rewrite (upload_not_installed w p e b k Hi). eauto. }
  assert (Hall : Forall (fun x => env_value w x = [])
                   [lit "FINE_OSS_ACCESS_KEY_ID"; lit "FINE_OSS_ID"])
    by (repeat constructor; assumption).
  rewrite (upload_id_missing w p e b k _ _ Hi (require_env_blank w _ _ Hall)). eauto.
Qed.

Lemma upload_fails_without_secret w :
  env_value w (lit "FINE_OSS_ACCESS_KEY_SECRET") = [] ->
  env_value w (lit "FINE_OSS_SECRET") = [] ->
  forall p e b k, exists err l,
    upload_with_oss2 w p e b k = (inl err, l) /\ puts_of l = [].
Proof.
  intros Ha Hb p e b k.
  destruct (oss2_installed w) eqn:Hi.
  2: { rewrite (upload_not_installed w p e b k Hi). eauto. }
  destruct (require_env w (lit "FINE_OSS_ACCESS_KEY_ID") [lit "FINE_OSS_ID"])
    as [[err | id] l1] eqn:H1;
    destruct (require_env_log_eq _ _ _ _ _ H1) as [n1 ->].
  { rewrite (upload_id_missing w p e b k err _ Hi H1). eexists _, _. split; [reflexivity|].
    read_log. reflexivity. }
  assert (Hall : Forall (fun x => env_value w x = [])
                   [lit "FINE_OSS_ACCESS_KEY_SECRET"; lit "FINE_OSS_SECRET"])
    by (repeat constructor; assumption).
  rewrite (upload_secret_missing w p e b k id _ _ _ Hi H1 (require_env_blank w _ _ Hall)).
  eexists _, _. split; [reflexivity|]. read_log. reflexivity.
Qed.

(** C9, as amended. When the bucket variable is unset or blank the bucket
    name is [fine-build]: every put request carries it, and a run whose other
    steps succeed and whose lines the standard output accepts ends with status
    0 and prints [OSS Path: oss://fine-build/] and the key. When the endpoint,
    the access key id with its alias, or the access key secret with its alias
    are unset or blank, the run ends with status 1 and sends no put request.
    In the scenario of the specification (endpoint
    [oss-cn-hangzhou.aliyuncs.com], no bucket variable, key
    [test/plugin.zip], status 200), when the standard output accepts the four
    lines, the line [URL:
    https://fine-build.oss-cn-hangzhou.aliyuncs.com/test/plugin.zip] is
    printed. *)
Theorem bucket_defaults_required_fatal (w : World) (argv : Argv) :
  let local_file := mkPath (args_file (parse_args argv)) in
  let object_key := strip_chars (lit "/") (args_object_key (parse_args argv)) in
  (env_value w (lit "FINE_OSS_BUCKET") = [] ->
   Forall (fun req => req_bucket_name req = lit "fine-build") (puts_of (snd (main w argv)))
   /\ forall raw l1 l2,
        is_file w local_file = true ->
        require_env w (lit "FINE_OSS_ENDPOINT") [] = (inr raw, l1) ->
        object_key <> [] ->
        encodable object_key = true ->
        upload_with_oss2 w local_file (normalize_endpoint raw) (lit "fine-build") object_key
        = (inr tt, l2) ->
        stdout_accepts w (run_lines w argv raw) = true ->
        fst (main w argv) = 0
        /\ In (lit "OSS Path: oss://fine-build/" ++ object_key) (stdout_of (snd (main w argv))))
  /\ (env_value w (lit "FINE_OSS_ENDPOINT") = [] ->
      fst (main w argv) = 1 /\ puts_of (snd (main w argv)) = [])
  /\ (env_value w (lit "FINE_OSS_ACCESS_KEY_ID") = [] ->
      env_value w (lit "FINE_OSS_ID") = [] ->
      fst (main w argv) = 1 /\ puts_of (snd (main w argv)) = [])
  /\ (env_value w (lit "FINE_OSS_ACCESS_KEY_SECRET") = [] ->
      env_value w (lit "FINE_OSS_SECRET") = [] ->
      fst (main w argv) = 1 /\ puts_of (snd (main w argv)) = [])
  /\ (environ w !! lit "FINE_OSS_BUCKET" = None ->
      environ w !! lit "FINE_OSS_ENDPOINT" = Some (lit "oss-cn-hangzhou.aliyuncs.com") ->
      opt_object_key argv = Some (lit "test/plugin.zip") ->
      is_file w local_file = true ->
      oss2_installed w = true ->
      forall id la secret lb,
      require_env w (lit "FINE_OSS_ACCESS_KEY_ID") [lit "FINE_OSS_ID"] = (inr id, la) ->
      require_env w (lit "FINE_OSS_ACCESS_KEY_SECRET") [lit "FINE_OSS_SECRET"]
      = (inr secret, lb) ->
      (forall req, sdk_put w req = PutStatus 200) ->
      stdout_accepts w
        (success_lines (path_str w local_file) (lit "fine-build") (lit "test/plugin.zip")
           (lit "https://fine-build.oss-cn-hangzhou.aliyuncs.com/test/plugin.zip")) = true ->
      fst (main w argv) = 0
      /\ In (lit "URL: https://fine-build.oss-cn-hangzhou.aliyuncs.com/test/plugin.zip")
           (stdout_of (snd (main w argv)))).
Proof.
  cbv zeta.
  split; [|split; [|split; [|split]]].
  - intros Hb. pose proof (bucket_name_default w Hb) as Hbn.
    pose proof (main_events w argv) as (_ & Hputs & _).
    split.
    { revert Hputs. apply List.Forall_impl. intros req [H _]. rewrite H. exact Hbn. }
    intros raw l1 l2 Hf H1 Hk Henc H2 Hacc.
    change (lit "fine-build") with DEFAULT_BUCKET in H2. rewrite <- Hbn in H2.
    destruct (run_succeeds w argv raw l1 l2 Hf H1 Hk Henc H2 Hacc) as (encoded & _ & Hmain).
    rewrite Hmain, Hbn. split; [reflexivity|]. cbn [snd].
    apply in_stdout_of_run. right. left. reflexivity.
  - apply main_fails_without_endpoint.
  - intros Ha Hb. apply main_fails_with_upload. apply upload_fails_without_id; assumption.
  - intros Ha Hb. apply main_fails_with_upload. apply upload_fails_without_secret; assumption.
  - intros Hbucket Hep Hkey Hf Hi id la secret lb H2 H3 Hput Hacc.
    assert (Hbn : bucket_name_of w = lit "fine-build")
      by (unfold bucket_name_of; rewrite Hbucket; reflexivity).
    assert (Hk : strip_chars (lit "/") (args_object_key (parse_args argv))
                 = lit "test/plugin.zip")
      by (unfold parse_args; rewrite Hkey; reflexivity).
    assert (H1 : require_env w (lit "FINE_OSS_ENDPOINT") []
                 = (inr (lit "oss-cn-hangzhou.aliyuncs.com"), [GetEnv (lit "FINE_OSS_ENDPOINT")])).
    { unfold require_env. cbn [require_env_loop]. rewrite getenv_value, Hep. reflexivity. }
    pose proof (upload_put w (mkPath (args_file (parse_args argv)))
                  (normalize_endpoint (lit "oss-cn-hangzhou.aliyuncs.com"))
                  (bucket_name_of w)
                  (strip_chars (lit "/") (args_object_key (parse_args argv)))
                  _ _ _ _ Hi H2 H3) as Hup.
    cbv zeta in Hup. rewrite Hput in Hup. cbn [upload_outcome] in Hup.
    change ((200 <? 200) || (200 >=? 300)) with false in Hup. cbv iota in Hup.
    assert (Hne : strip_chars (lit "/") (args_object_key (parse_args argv)) <> [])
      by (rewrite Hk; discriminate).
    assert (Hurl : build_public_url (normalize_endpoint (lit "oss-cn-hangzhou.aliyuncs.com"))
                     (bucket_name_of w)
                     (strip_chars (lit "/") (args_object_key (parse_args argv)))
                   = inr (lit "https://fine-build.oss-cn-hangzhou.aliyuncs.com/test/plugin.zip"))
      by (rewrite Hk, Hbn; reflexivity).
    rewrite <- Hbn, <- Hk in Hacc.
    rewrite (main_success w argv _ _ _ _ Hf H1 Hne Hup Hurl Hacc).
    split; [reflexivity|]. cbn [snd].
    apply in_stdout_of_run. right. right. left. reflexivity.
Qed.

Lemma bucket_defaults_required_fatal_witness :
  (fst (main (scenario_world 200) scenario_argv) = 0
   /\ In (lit "OSS Path: oss://fine-build/" ++ lit "test/plugin.zip")
        (stdout_of (snd (main (scenario_world 200) scenario_argv))))
  /\ (fst (main bare_world scenario_argv) = 1
      /\ puts_of (snd (main bare_world scenario_argv)) = [])
  /\ (fst (main (scenario_world 200) scenario_argv) = 0
      /\ In (lit "URL: https://fine-build.oss-cn-hangzhou.aliyuncs.com/test/plugin.zip")
           (stdout_of (snd (main (scenario_world 200) scenario_argv)))).
Proof.
  pose proof (bucket_defaults_required_fatal (scenario_world 200) scenario_argv)
    as (Hbucket & _ & _ & _ & Hscenario).
  pose proof (bucket_defaults_required_fatal bare_world scenario_argv)
    as (_ & Hendpoint & Hid & Hsecret & _).
  split; [|split].
  - destruct (Hbucket eq_refl) as [_ Hrun].
    exact (Hrun (lit "oss-cn-hangzhou.aliyuncs.com") [GetEnv (lit "FINE_OSS_ENDPOINT")]
             [ImportOss2; GetEnv (lit "FINE_OSS_ACCESS_KEY_ID");
              GetEnv (lit "FINE_OSS_ACCESS_KEY_SECRET"); GetEnv (lit "FINE_OSS_SECRET");
              GetEnv (lit "FINE_OSS_SECURITY_TOKEN");
              PutObject (upload_request (scenario_world 200)
                           (mkPath (lit "dist//plugin.zip"))
                           (lit "https://oss-cn-hangzhou.aliyuncs.com") (lit "fine-build")
                           (lit "test/plugin.zip") (lit "LTAI5tExample") (lit "s3cr3t") [])]
             eq_refl eq_refl ltac:(vm_compute; discriminate) eq_refl eq_refl eq_refl).
  - pose proof (Hid eq_refl eq_refl) as _. pose proof (Hsecret eq_refl eq_refl) as _.
    exact (Hendpoint eq_refl).
  - exact (Hscenario eq_refl eq_refl eq_refl eq_refl eq_refl
             (lit "LTAI5tExample") [GetEnv (lit "FINE_OSS_ACCESS_KEY_ID")]
             (lit "s3cr3t")
             [GetEnv (lit "FINE_OSS_ACCESS_KEY_SECRET"); GetEnv (lit "FINE_OSS_SECRET")]
             eq_refl eq_refl (fun _ => eq_refl) eq_refl).
Defined.

(** C9 as stated fails: in the scenario of the specification with an
    archive whose name holds a byte that is no UTF-8, the bucket variable is
    unset, the file exists, the upload is sent with the bucket [fine-build]
    and answered 200, but the first line is refused by the standard output: the
    status is 1 and no URL is printed. *)
Lemma scenario_url_not_printed :
  environ surrogate_name_world !! lit "FINE_OSS_BUCKET" = None
  /\ is_file surrogate_name_world (mkPath (args_file (parse_args surrogate_name_argv))) = true
  /\ map req_bucket_name (puts_of (snd (main surrogate_name_world surrogate_name_argv)))
     = [lit "fine-build"]
  /\ fst (main surrogate_name_world surrogate_name_argv) = 1
  /\ stdout_of (snd (main surrogate_name_world surrogate_name_argv)) = []
  /\ ~ In (lit "URL: https://fine-build.oss-cn-hangzhou.aliyuncs.com/test/plugin.zip")
         (stdout_of (snd (main surrogate_name_world surrogate_name_argv))).
Proof.
  repeat split; try reflexivity. vm_compute. intros [].
Qed.

(** What that run prints on the error stream. *)
Example scenario_url_not_printed_message :
  stderr_of (snd (main surrogate_name_world surrogate_name_argv))
  = [lit "upload failed: 'utf-8' codec can't encode character '\udc80' in position 15: surrogates not allowed"].
Proof. reflexivity. Qed.

(** ** The SDK before the credentials (C10) *)

Lemma lit_missing_not_package names :
  lit "Python package 'oss2' not installed, run: pip3 install oss2"
  <> lit "Missing required env var: " ++ names.
Proof. cbn. intros H. discriminate H. Qed.

(** C10. When [import oss2] fails, [upload_with_oss2] raises the error
    [Python package 'oss2' not installed, run: pip3 install oss2] after the
    import alone: no variable was read and nothing was sent. So an upload that
    raises a [Missing required env var] error had the SDK installed. With the
    SDK and both credentials, a security token that is unset, empty or white
    space gives a put request authenticated by [Auth] with the access key id
    and secret, and no [StsAuth]. *)
Theorem sdk_check_precedes_credentials (w : World) (local_file : Path)
    (endpoint bucket_name object_key : pystr) :
  (oss2_installed w = false ->
   upload_with_oss2 w local_file endpoint bucket_name object_key
   = (inl (RuntimeError (lit "Python package 'oss2' not installed, run: pip3 install oss2")),
      [ImportOss2])
   /\ getenvs_of (snd (upload_with_oss2 w local_file endpoint bucket_name object_key)) = []
   /\ puts_of (snd (upload_with_oss2 w local_file endpoint bucket_name object_key)) = [])
  /\ (forall names,
        fst (upload_with_oss2 w local_file endpoint bucket_name object_key)
        = inl (RuntimeError (lit "Missing required env var: " ++ names)) ->
        oss2_installed w = true)
  /\ (oss2_installed w = true ->
      env_value w (lit "FINE_OSS_SECURITY_TOKEN") = [] ->
      forall id l1 secret l2,
        require_env w (lit "FINE_OSS_ACCESS_KEY_ID") [lit "FINE_OSS_ID"] = (inr id, l1) ->
        require_env w (lit "FINE_OSS_ACCESS_KEY_SECRET") [lit "FINE_OSS_SECRET"]
        = (inr secret, l2) ->
        puts_of (snd (upload_with_oss2 w local_file endpoint bucket_name object_key))
        = [ {| req_auth := Auth id secret; req_endpoint := endpoint;
               req_bucket_name := bucket_name; req_key := object_key;
               req_filename := path_str w local_file |} ]).
Proof.
  split; [|split].
  - intros Hi. rewrite (upload_not_installed w _ _ _ _ Hi). repeat split; reflexivity.
  - intros names H. destruct (oss2_installed w) eqn:Hi; [reflexivity|].
    rewrite (upload_not_installed w _ _ _ _ Hi) in H. cbn [fst] in H.
    pose proof (lit_missing_not_package names). congruence.
  - intros Hi Htok id l1 secret l2 H1 H2.
    destruct (require_env_log_eq _ _ _ _ _ H1) as [n1 ->].
    destruct (require_env_log_eq _ _ _ _ _ H2) as [n2 ->].
    rewrite (upload_put w _ _ _ _ id _ secret _ Hi H1 H2). cbv zeta. read_log.
    unfold upload_request. rewrite Htok. reflexivity.
Qed.

Lemma sdk_check_precedes_credentials_witness :
  upload_with_oss2 bare_world (mkPath (lit "dist/plugin.zip"))
    (lit "https://oss-cn-hangzhou.aliyuncs.com") (lit "fine-build") (lit "test/plugin.zip")
  = (inl (RuntimeError (lit "Python package 'oss2' not installed, run: pip3 install oss2")),
     [ImportOss2])
  /\ puts_of (snd (upload_with_oss2 (scenario_world 200) (mkPath (lit "dist/plugin.zip"))
                     (lit "https://oss-cn-hangzhou.aliyuncs.com") (lit "fine-build")
                     (lit "test/plugin.zip")))
     = [ {| req_auth := Auth (lit "LTAI5tExample") (lit "s3cr3t");
            req_endpoint := lit "https://oss-cn-hangzhou.aliyuncs.com";
            req_bucket_name := lit "fine-build"; req_key := lit "test/plugin.zip";
            req_filename := path_str (scenario_world 200) (mkPath (lit "dist/plugin.zip")) |} ].
Proof.
  split.
  - exact (proj1 (proj1 (sdk_check_precedes_credentials bare_world
                           (mkPath (lit "dist/plugin.zip"))
                           (lit "https://oss-cn-hangzhou.aliyuncs.com") (lit "fine-build")
                           (lit "test/plugin.zip")) eq_refl)).
  - exact (proj2 (proj2 (sdk_check_precedes_credentials (scenario_world 200)
                           (mkPath (lit "dist/plugin.zip"))
                           (lit "https://oss-cn-hangzhou.aliyuncs.com") (lit "fine-build")
                           (lit "test/plugin.zip")))
             eq_refl eq_refl (lit "LTAI5tExample") [GetEnv (lit "FINE_OSS_ACCESS_KEY_ID")]
             (lit "s3cr3t")
             [GetEnv (lit "FINE_OSS_ACCESS_KEY_SECRET"); GetEnv (lit "FINE_OSS_SECRET")]
             eq_refl eq_refl).
Defined.

(** A token that is not blank selects [StsAuth]. *)
Example sts_token_request :
  puts_of (snd (upload_with_oss2
                  (posix_world (scenario_vars ++ [(lit "FINE_OSS_SECURITY_TOKEN", lit " tok ")])
                     [] true 200)
                  (mkPath (lit "dist/plugin.zip")) (lit "https://h") (lit "b") (lit "k")))
  = [ {| req_auth := StsAuth (lit "LTAI5tExample") (lit "s3cr3t") (lit "tok");
         req_endpoint := lit "https://h"; req_bucket_name := lit "b"; req_key := lit "k";
         req_filename := lit "dist/plugin.zip" |} ].
Proof. reflexivity. Qed.

(** * Further properties of the script *)

(** ** More on stripping *)

Section StripMore.
Variable p : Z -> bool.

Lemma rstrip_by_all s : forallb p s = true -> rstrip_by p s = [].
Proof.
  induction s as [|c t IH]; [reflexivity|]. cbn [forallb rstrip_by].
  intros H. apply andb_true_iff in H as [Hc Ht]. rewrite (IH Ht), Hc. reflexivity.
Qed.

Lemma lstrip_by_all s : forallb p s = true -> lstrip_by p s = [].
Proof.
  induction s as [|c t IH]; [reflexivity|]. cbn [forallb lstrip_by].
  intros H. apply andb_true_iff in H as [Hc Ht]. rewrite Hc. exact (IH Ht).
Qed.

(** [rstrip] of a concatenation. *)
Lemma rstrip_by_app a b :
  rstrip_by p (a ++ b)
  = match rstrip_by p b with [] => rstrip_by p a | _ :: _ => a ++ rstrip_by p b end.
Proof.
  induction a as [|c a IH]; cbn [app].
  - destruct (rstrip_by p b); reflexivity.
  - cbn [rstrip_by]. rewrite IH. destruct (rstrip_by p b) as [|x r]; [reflexivity|].
    destruct a; reflexivity.
Qed.

(** [lstrip] of a concatenation. *)
Lemma lstrip_by_app a b :
  lstrip_by p (a ++ b)
  = match lstrip_by p a with [] => lstrip_by p b | _ :: _ => lstrip_by p a ++ b end.
Proof.
  induction a as [|c a IH]; cbn [app lstrip_by]; [destruct (lstrip_by p b); reflexivity|].
  destruct (p c); [exact IH | reflexivity].
Qed.

(** Stripped characters around a string do not count. *)
Lemma strip_by_padding pre s post :
  forallb p pre = true -> forallb p post = true ->
  strip_by p (pre ++ s ++ post) = strip_by p s.
Proof.
  intros Hpre Hpost. unfold strip_by.
  rewrite lstrip_by_app, (lstrip_by_all pre Hpre), lstrip_by_app.
  destruct (lstrip_by p s) as [|c r] eqn:Hs.
  - rewrite (lstrip_by_all post Hpost). reflexivity.
  - rewrite rstrip_by_app, (rstrip_by_all post Hpost). reflexivity.
Qed.

(** What [rstrip] leaves starts like the string. *)
Lemma rstrip_by_head s c r : rstrip_by p s = c :: r -> exists t, s = c :: t.
Proof.
  intros H. destruct (rstrip_by_split p s) as (post & Heq & _).
  rewrite H in Heq. cbn [app] in Heq. eauto.
Qed.

Lemma strip_by_idem s : strip_by p (strip_by p s) = strip_by p s.
Proof.
  unfold strip_by.
  assert (Hl : lstrip_by p (rstrip_by p (lstrip_by p s)) = rstrip_by p (lstrip_by p s)).
  { destruct (rstrip_by p (lstrip_by p s)) as [|c r] eqn:Hr; [reflexivity|].
    destruct (rstrip_by_head _ _ _ Hr) as [t Ht].
    cbn [lstrip_by]. rewrite (lstrip_by_head p s c t Ht). reflexivity. }
  rewrite Hl. apply rstrip_by_idem.
Qed.

(** What [strip] leaves neither starts nor ends with a stripped character. *)
Lemma strip_by_ends s :
  (forall c r, strip_by p s = c :: r -> p c = false)
  /\ (forall r c, strip_by p s = r ++ [c] -> p c = false).
Proof.
  unfold strip_by. split.
  - intros c r H. destruct (rstrip_by_head _ _ _ H) as [t Ht].
    exact (lstrip_by_head p s c t Ht).
  - intros r c H. exact (rstrip_by_last p _ r c H).
Qed.

End StripMore.

Lemma startswith_split s pre : startswith s pre = true -> exists rest, s = pre ++ rest.
Proof.
  revert s. induction pre as [|a pre IH]; intros s; [eauto|].
  destruct s as [|c t]; cbn [startswith]; [discriminate|].
  intros H. apply andb_true_iff in H as [Hc Ht]. apply Z.eqb_eq in Hc. subst c.
  destruct (IH t Ht) as [rest ->]. exists rest. reflexivity.
Qed.

Lemma has_scheme_split s :
  has_scheme s = true ->
  exists rest, s = lit "http://" ++ rest \/ s = lit "https://" ++ rest.
Proof.
  unfold has_scheme. intros H. apply orb_true_iff in H as [H | H];
    destruct (startswith_split _ _ H) as [rest ->]; eauto.
Qed.

Lemma endswith_nil_or_last s d :
  endswith s [d] = true -> exists r, s = r ++ [d].
Proof.
  destruct s as [|a s] using rev_ind; [discriminate|].
  rewrite endswith_snoc. intros H. apply Z.eqb_eq in H. subst. eauto.
Qed.

(** What [rstrip('/')] leaves does not end with a slash. *)
Lemma rstrip_slash_endswith s : endswith (rstrip_chars (lit "/") s) (lit "/") = false.
Proof.
  destruct (endswith (rstrip_chars (lit "/") s) (lit "/")) eqn:He; [|reflexivity].
  apply endswith_nil_or_last in He as [r Hr].
  apply rstrip_by_last in Hr. discriminate Hr.
Qed.

(** A string that does not end with a slash is left alone by [rstrip('/')]. *)
Lemma rstrip_slash_keep s :
  endswith s (lit "/") = false -> rstrip_chars (lit "/") s = s.
Proof.
  destruct s as [|a s] using rev_ind; [reflexivity|].
  change (lit "/") with [47]. rewrite endswith_snoc. intros H.
  apply rstrip_by_keep. rewrite one_of_slash. exact H.
Qed.

(** ** More on [normalize_endpoint] *)

(** X1. For an endpoint whose stripped form begins with [http://] or
    [https://], the normal form is that stripped form without its trailing
    slashes: it does not end with a slash, it still begins with [http], and it
    still begins with the whole scheme unless only slashes followed the
    scheme, in which case it is [http:] or [https:]. *)
Theorem normalize_endpoint_keeps_scheme (raw : pystr) :
  has_scheme (strip raw) = true ->
  endswith (normalize_endpoint raw) (lit "/") = false
  /\ (exists m, strip raw = normalize_endpoint raw ++ repeat 47 m)
  /\ startswith (normalize_endpoint raw) (lit "http") = true
  /\ (has_scheme (normalize_endpoint raw) = true
      \/ normalize_endpoint raw = lit "http:"
      \/ normalize_endpoint raw = lit "https:").
Proof.
  intros Hs. rewrite (normalize_endpoint_with_scheme raw Hs).
  split; [apply rstrip_slash_endswith|].
  split.
  { unfold rstrip_chars.
    destruct (rstrip_by_split (one_of (lit "/")) (strip raw)) as (post & Heq & Hpost).
    exists (List.length post). rewrite <- (forallb_slash post Hpost). exact Heq. }
  destruct (has_scheme_split _ Hs) as [rest [-> | ->]]; unfold rstrip_chars;
    rewrite rstrip_by_app; destruct (rstrip_by (one_of (lit "/")) rest) as [|x r].
  - split; [reflexivity|]. right. left. reflexivity.
  - split; [reflexivity|]. left. reflexivity.
  - split; [reflexivity|]. right. right. reflexivity.
  - split; [reflexivity|]. left. reflexivity.
Qed.

Lemma normalize_endpoint_keeps_scheme_witness :
  endswith (normalize_endpoint (lit " http://oss.example.com:8080// ")) (lit "/") = false
  /\ (exists m, strip (lit " http://oss.example.com:8080// ")
                = normalize_endpoint (lit " http://oss.example.com:8080// ") ++ repeat 47 m)
  /\ startswith (normalize_endpoint (lit " http://oss.example.com:8080// ")) (lit "http") = true
  /\ (has_scheme (normalize_endpoint (lit " http://oss.example.com:8080// ")) = true
      \/ normalize_endpoint (lit " http://oss.example.com:8080// ") = lit "http:"
      \/ normalize_endpoint (lit " http://oss.example.com:8080// ") = lit "https:").
Proof.
  apply (normalize_endpoint_keeps_scheme (lit " http://oss.example.com:8080// ")).
  reflexivity.
Defined.

(** X2. White space around an endpoint does not change its normal form. *)
Theorem normalize_endpoint_ignores_padding (pre raw post : pystr) :
  forallb isspace pre = true -> forallb isspace post = true ->
  normalize_endpoint (pre ++ raw ++ post) = normalize_endpoint raw.
Proof.
  intros Hpre Hpost. unfold normalize_endpoint, strip.
  rewrite (strip_by_padding isspace pre raw post Hpre Hpost). reflexivity.
Qed.

Lemma normalize_endpoint_ignores_padding_witness :
  normalize_endpoint ([0x20; 0x09] ++ lit "oss-cn-hangzhou.aliyuncs.com/" ++ [0x0A; 0x3000])
  = normalize_endpoint (lit "oss-cn-hangzhou.aliyuncs.com/").
Proof.
  apply (normalize_endpoint_ignores_padding [0x20; 0x09]
           (lit "oss-cn-hangzhou.aliyuncs.com/") [0x0A; 0x3000]); reflexivity.
Defined.

Lemma has_scheme_nonempty s : has_scheme s = true -> s <> [].
Proof. intros H ->. discriminate H. Qed.

(** X3. For every endpoint, with a scheme or without, normalizing twice
    gives the same as normalizing once exactly when the normal form begins
    with a scheme, is unchanged by [strip()] and does not end with a
    slash. *)
Theorem normalize_endpoint_fixpoint (raw : pystr) :
  normalize_endpoint (normalize_endpoint raw) = normalize_endpoint raw
  <-> has_scheme (normalize_endpoint raw) = true
      /\ strip (normalize_endpoint raw) = normalize_endpoint raw
      /\ endswith (normalize_endpoint raw) (lit "/") = false.
Proof.
  remember (normalize_endpoint raw) as n eqn:En. clear En raw. split.
  - intros Hidem.
    destruct (has_scheme (strip n)) eqn:Hs.
    + rewrite (normalize_endpoint_with_scheme n Hs) in Hidem.
      assert (Hstrip : strip n = n).
      { apply strip_by_same_length.
        pose proof (rstrip_by_length (one_of (lit "/")) (strip n)) as H1.
        pose proof (strip_by_length isspace n) as H2.
        unfold rstrip_chars in Hidem. rewrite Hidem in H1. unfold strip in *. lia. }
      split; [rewrite <- Hstrip; exact Hs|]. split; [exact Hstrip|].
      rewrite <- Hidem. apply rstrip_slash_endswith.
    + exfalso.
      assert (Hn' : normalize_endpoint n = lit "https://" ++ strip_chars (lit "/") (strip n)).
      { unfold normalize_endpoint. cbv zeta. unfold has_scheme in Hs. rewrite Hs. reflexivity. }
      rewrite Hn' in Hidem.
      assert (Hsch : has_scheme n = true).
      { rewrite <- Hidem. unfold has_scheme. rewrite startswith_app. apply orb_true_r. }
      rewrite (has_scheme_strip n Hsch) in Hs. discriminate.
  - intros (Hsch & Hstrip & Hend).
    assert (Hs : has_scheme (strip n) = true) by (rewrite Hstrip; exact Hsch).
    rewrite (normalize_endpoint_with_scheme n Hs), Hstrip.
    apply rstrip_slash_keep. exact Hend.
Qed.

(** Without a scheme and with a host, one normalization is enough: the
    endpoint of the scenario is a fixed point after one step, the empty
    endpoint is not. *)
Example normalize_endpoint_fixpoint_examples :
  normalize_endpoint (normalize_endpoint (lit "oss-cn-hangzhou.aliyuncs.com/"))
  = normalize_endpoint (lit "oss-cn-hangzhou.aliyuncs.com/")
  /\ normalize_endpoint [] = lit "https://"
  /\ normalize_endpoint (normalize_endpoint []) = lit "https:".
Proof. repeat split; reflexivity. Qed.

(** ** More on [build_public_url] *)

(** What a returned URL tells about the key. *)
Lemma build_public_url_inv endpoint bucket key url :
  build_public_url endpoint bucket key = inr url ->
  encodable key = true
  /\ exists encoded,
       quote key = inr encoded
       /\ url = url_prefix bucket (host_of endpoint) ++ encoded
       /\ unquote encoded = Some key.
Proof.
  intros H. destruct (encodable key) eqn:Hk.
  - split; [reflexivity|].
    destruct (build_public_url_encodable endpoint bucket key Hk) as (encoded & Hq & Hu & Hd).
    exists encoded. rewrite Hu in H. injection H as <-. auto.
  - unfold build_public_url in H. rewrite (quote_not_encodable key Hk) in H. discriminate.
Qed.

Lemma always_safe_range c : always_safe c = true -> 45 <= c <= 126 /\ c <> 47 /\ c <> 37.
Proof.
  unfold always_safe. rewrite !orb_true_iff, !andb_true_iff, !Z.leb_le, !Z.eqb_eq. lia.
Qed.

Lemma url_path_char_range c :
  url_path_char c = true -> 37 <= c <= 126 /\ c <> 63 /\ c <> 35 /\ c <> 32.
Proof.
  unfold url_path_char, always_safe.
  rewrite !orb_true_iff, !andb_true_iff, !Z.leb_le, !Z.eqb_eq. lia.
Qed.

Lemma hexdigit_upper_safe d : 0 <= d < 16 -> always_safe (hexdigit_upper d) = true.
Proof.
  intros Hd. unfold hexdigit_upper, always_safe.
  destruct (Z.ltb_spec d 10); decide_cmp; reflexivity.
Qed.

Lemma quote_byte_chars b :
  0 <= b < 256 -> forallb url_path_char (quote_byte (lit "/") b) = true.
Proof.
  intros Hb. unfold quote_byte.
  destruct (always_safe b || one_of (lit "/") b) eqn:Hs.
  - cbn [forallb]. unfold url_path_char. rewrite one_of_slash in Hs. rewrite Hs. reflexivity.
  - cbn [forallb]. unfold url_path_char at 2 3.
    rewrite !hexdigit_upper_safe by arith. reflexivity.
Qed.

Lemma quote_from_bytes_chars bs :
  Forall (fun b => 0 <= b < 256) bs ->
  forallb url_path_char (quote_from_bytes (lit "/") bs) = true.
Proof.
  unfold quote_from_bytes. induction 1 as [|b t Hb _ IH]; [reflexivity|].
  cbn [map concat]. rewrite forallb_app, (quote_byte_chars b Hb). exact IH.
Qed.

Lemma quote_chars key encoded :
  quote key = inr encoded -> forallb url_path_char encoded = true.
Proof.
  unfold quote. destruct (encodable key) eqn:Hk.
  - destruct (utf8_encode_encodable key Hk) as (bs & -> & Hbytes & _).
    intros [= <-]. apply quote_from_bytes_chars. exact Hbytes.
  - rewrite (utf8_encode_not_encodable key Hk). discriminate.
Qed.

Lemma quote_plain_key key : plain_key key = true -> quote key = inr key.
Proof.
  unfold plain_key, quote. intros H.
  assert (Henc : utf8_encode key = Some key /\ quote_from_bytes (lit "/") key = key).
  { induction key as [|c t IH]; [split; reflexivity|].
    cbn [forallb] in H. apply andb_true_iff in H as [Hc Ht].
    destruct (IH Ht) as [He Hq]. cbn [utf8_encode]. rewrite He.
    assert (Hr : 45 <= c <= 126).
    { apply orb_true_iff in Hc as [Hc | Hc];
        [apply always_safe_range in Hc | apply Z.eqb_eq in Hc]; lia. }
    assert (Hu : utf8_char c = Some [c]).
    { unfold utf8_char. decide_cmp. reflexivity. }
    rewrite Hu. split; [reflexivity|].
    unfold quote_from_bytes in *. cbn [map concat]. rewrite Hq.
    unfold quote_byte. rewrite one_of_slash, Hc. reflexivity. }
  destruct Henc as [-> ->]. reflexivity.
Qed.

(** X4. A URL that [build_public_url] returns starts with [https://],
    whatever the scheme of the endpoint: for a host without [://], the
    endpoints [http://host] and [https://host] give the same result. *)
Theorem build_public_url_always_https (bucket key : pystr) :
  (forall endpoint url,
     build_public_url endpoint bucket key = inr url ->
     startswith url (lit "https://") = true)
  /\ (forall host,
        contains host (lit "://") = false ->
        build_public_url (lit "http://" ++ host) bucket key
        = build_public_url (lit "https://" ++ host) bucket key).
Proof.
  split.
  - intros endpoint url H.
    destruct (build_public_url_inv _ _ _ _ H) as (_ & encoded & _ & -> & _).
    unfold url_prefix. rewrite <- !app_assoc. apply startswith_app.
  - intros host Hh. destruct (host_of_plain host Hh) as [Hs Hp].
    unfold build_public_url. rewrite Hs, Hp. reflexivity.
Qed.

Lemma build_public_url_always_https_witness :
  startswith (lit "https://fine-build.oss.example.com/a%20b") (lit "https://") = true
  /\ build_public_url (lit "http://" ++ lit "oss.example.com:8080") (lit "fine-build") (lit "a b")
     = build_public_url (lit "https://" ++ lit "oss.example.com:8080") (lit "fine-build")
         (lit "a b").
Proof.
  split.
  - apply (proj1 (build_public_url_always_https (lit "fine-build") (lit "a b"))
             (lit "http://oss.example.com")).
    reflexivity.
  - apply (proj2 (build_public_url_always_https (lit "fine-build") (lit "a b"))).
    reflexivity.
Defined.

(** X5. For a given endpoint and bucket, two object keys with the same
    public URL are the same key. *)
Theorem build_public_url_injective (endpoint bucket key1 key2 url : pystr) :
  build_public_url endpoint bucket key1 = inr url ->
  build_public_url endpoint bucket key2 = inr url ->
  key1 = key2.
Proof.
  intros H1 H2.
  destruct (build_public_url_inv _ _ _ _ H1) as (_ & e1 & _ & Hu1 & Hd1).
  destruct (build_public_url_inv _ _ _ _ H2) as (_ & e2 & _ & Hu2 & Hd2).
  rewrite Hu1 in Hu2. apply app_inv_head in Hu2. subst e2. congruence.
Qed.

Lemma build_public_url_injective_witness : lit "a b" = lit "a b".
Proof.
  apply (build_public_url_injective (lit "https://oss.example.com") (lit "fine-build")
           (lit "a b") (lit "a b") (lit "https://fine-build.oss.example.com/a%20b"));
    reflexivity.
Defined.

(** Keys that differ only by an escape are kept apart: a percent sign of
    the key is itself escaped. *)
Example build_public_url_percent_key :
  build_public_url (lit "https://h") (lit "b") (lit "a b") = inr (lit "https://b.h/a%20b")
  /\ build_public_url (lit "https://h") (lit "b") (lit "a%20b") = inr (lit "https://b.h/a%2520b").
Proof. split; reflexivity. Qed.

(** X6. In a URL that [build_public_url] returns, what follows the prefix
    consists of ASCII letters, digits, [_.-~], slashes and percent signs
    only: no space, no question mark and no number sign, so that the key
    cannot run into a query or a fragment. *)
Theorem build_public_url_path_chars (endpoint bucket key url : pystr) :
  build_public_url endpoint bucket key = inr url ->
  exists encoded,
    url = url_prefix bucket (host_of endpoint) ++ encoded
    /\ forallb url_path_char encoded = true
    /\ forall c, In c encoded -> 37 <= c <= 126 /\ c <> 63 /\ c <> 35 /\ c <> 32.
Proof.
  intros H. destruct (build_public_url_inv _ _ _ _ H) as (_ & encoded & Hq & Hu & _).
  exists encoded. pose proof (quote_chars key encoded Hq) as Hc.
  repeat split; try assumption; intros;
    apply url_path_char_range; rewrite List.forallb_forall in Hc; apply Hc; assumption.
Qed.

Lemma build_public_url_path_chars_witness :
  exists encoded,
    lit "https://fine-build.oss.example.com/a%3Fb%23c%20d"
    = url_prefix (lit "fine-build") (host_of (lit "https://oss.example.com")) ++ encoded
    /\ forallb url_path_char encoded = true
    /\ forall c, In c encoded -> 37 <= c <= 126 /\ c <> 63 /\ c <> 35 /\ c <> 32.
Proof.
  apply (build_public_url_path_chars (lit "https://oss.example.com") (lit "fine-build")
           (lit "a?b#c d")).
  reflexivity.
Defined.

(** X7. A key made of ASCII letters, digits, [_.-~] and slashes appears in
    the URL as it is. *)
Theorem build_public_url_plain_key (endpoint bucket key : pystr) :
  plain_key key = true ->
  build_public_url endpoint bucket key
  = inr (lit "https://" ++ bucket ++ lit "." ++ host_of endpoint ++ lit "/" ++ key).
Proof.
  intros H. unfold build_public_url. rewrite (quote_plain_key key H). reflexivity.
Qed.

Lemma build_public_url_plain_key_witness :
  build_public_url (lit "https://oss-cn-hangzhou.aliyuncs.com") (lit "fine-build")
    DEFAULT_OBJECT_KEY
  = inr (lit "https://" ++ lit "fine-build" ++ lit "."
         ++ host_of (lit "https://oss-cn-hangzhou.aliyuncs.com") ++ lit "/"
         ++ DEFAULT_OBJECT_KEY).
Proof.
  apply (build_public_url_plain_key (lit "https://oss-cn-hangzhou.aliyuncs.com")
           (lit "fine-build") DEFAULT_OBJECT_KEY).
  reflexivity.
Defined.

(** X8. Normalization and URL construction together. For an endpoint
    without a scheme whose host (the stripped endpoint without its outer
    slashes) contains no [://], and for an endpoint made of a scheme and a
    rest whose part before the trailing slashes is not empty and contains no
    [://], the URL of an encodable key is [https://], the bucket, a dot, that
    host, a slash and the encoded key. *)
Theorem public_url_of_endpoint (raw bucket key : pystr) :
  encodable key = true ->
  exists encoded,
    quote key = inr encoded
    /\ (has_scheme (strip raw) = false ->
        contains (strip_chars (lit "/") (strip raw)) (lit "://") = false ->
        build_public_url (normalize_endpoint raw) bucket key
        = inr (lit "https://" ++ bucket ++ lit "." ++ strip_chars (lit "/") (strip raw)
               ++ lit "/" ++ encoded))
    /\ (forall rest,
          strip raw = lit "http://" ++ rest \/ strip raw = lit "https://" ++ rest ->
          rstrip_chars (lit "/") rest <> [] ->
          contains (rstrip_chars (lit "/") rest) (lit "://") = false ->
          build_public_url (normalize_endpoint raw) bucket key
          = inr (lit "https://" ++ bucket ++ lit "." ++ rstrip_chars (lit "/") rest
                 ++ lit "/" ++ encoded)).
Proof.
  intros Hk. destruct (unquote_quote key Hk) as (encoded & Hq & _).
  exists encoded. split; [exact Hq|]. split.
  - intros Hs Hc. unfold build_public_url. rewrite Hq.
    unfold normalize_endpoint. cbv zeta. unfold has_scheme in Hs. rewrite Hs.
    rewrite (proj1 (host_of_plain _ Hc)). reflexivity.
  - intros rest Hrest Hne Hc.
    assert (Hs : has_scheme (strip raw) = true).
    { unfold has_scheme. destruct Hrest as [-> | ->]; rewrite startswith_app;
        [reflexivity | apply orb_true_r]. }
    rewrite (normalize_endpoint_with_scheme raw Hs).
    unfold build_public_url. rewrite Hq.
    assert (Hhost : host_of (rstrip_chars (lit "/") (strip raw))
                    = rstrip_chars (lit "/") rest).
    { unfold rstrip_chars in *.
      destruct Hrest as [-> | ->]; rewrite rstrip_by_app;
        destruct (rstrip_by (one_of (lit "/")) rest) as [|x r] eqn:Hr;
        try congruence; apply (host_of_plain _ Hc). }
    rewrite Hhost. reflexivity.
Qed.

Lemma public_url_of_endpoint_witness :
  exists encoded,
    quote (lit "test/plugin v2.zip") = inr encoded
    /\ build_public_url (normalize_endpoint (lit " /oss-cn-hangzhou.aliyuncs.com/ "))
         (lit "fine-build") (lit "test/plugin v2.zip")
       = inr (lit "https://" ++ lit "fine-build" ++ lit "."
              ++ strip_chars (lit "/") (strip (lit " /oss-cn-hangzhou.aliyuncs.com/ "))
              ++ lit "/" ++ encoded)
    /\ build_public_url (normalize_endpoint (lit " /oss-cn-hangzhou.aliyuncs.com/ "))
         (lit "fine-build") (lit "test/plugin v2.zip")
       = build_public_url (normalize_endpoint (lit "http://oss-cn-hangzhou.aliyuncs.com//"))
           (lit "fine-build") (lit "test/plugin v2.zip").
Proof.
  destruct (public_url_of_endpoint (lit " /oss-cn-hangzhou.aliyuncs.com/ ") (lit "fine-build")
              (lit "test/plugin v2.zip") eq_refl) as (encoded & Hq & Hplain & _).
  destruct (public_url_of_endpoint (lit "http://oss-cn-hangzhou.aliyuncs.com//")
              (lit "fine-build") (lit "test/plugin v2.zip") eq_refl)
    as (encoded' & Hq' & _ & Hscheme).
  exists encoded. split; [exact Hq|].
  pose proof (Hplain eq_refl eq_refl) as H1.
  pose proof (Hscheme (lit "oss-cn-hangzhou.aliyuncs.com//") (or_introl eq_refl)
                ltac:(vm_compute; discriminate) eq_refl) as H2.
  split; [exact H1|]. rewrite H1, H2.
  assert (encoded = encoded') by congruence. subst. reflexivity.
Defined.

(** ** More on [require_env] and the bucket name *)

(** A value that [require_env] returns is the stripped value of one of the
    candidates, and it is not empty. *)
Lemma require_env_inv w name aliases v log :
  require_env w name aliases = (inr v, log) ->
  exists var_name, In var_name (name :: aliases) /\ v = env_value w var_name /\ v <> [].
Proof.
  intros H.
  destruct (first_nonblank_split w (name :: aliases))
    as [Hall | (pre & var_name & post & Heq & Hpre & Hvar)].
  - rewrite (require_env_blank w name aliases Hall) in H. discriminate.
  - rewrite (require_env_found w name aliases pre var_name post Heq Hpre Hvar) in H.
    injection H as <- _. exists var_name. rewrite Heq.
    split; [apply in_or_app; right; left; reflexivity|]. split; [reflexivity | exact Hvar].
Qed.

(** X9. A value that [require_env] returns is never blank: it is not
    empty, it neither starts nor ends with white space, and it is the stripped
    value of the name or of one of the aliases. *)
Theorem require_env_value_clean (w : World) (name : pystr) (aliases : list pystr)
    (v : pystr) (log : list event) :
  require_env w name aliases = (inr v, log) ->
  v <> [] /\ strip v = v
  /\ (forall c r, v = c :: r -> isspace c = false)
  /\ (forall r c, v = r ++ [c] -> isspace c = false)
  /\ exists var_name, In var_name (name :: aliases) /\ v = env_value w var_name.
Proof.
  intros H. destruct (require_env_inv w name aliases v log H) as (x & Hin & -> & Hne).
  unfold env_value, strip in *.
  split; [exact Hne|]. split; [apply strip_by_idem|].
  split; [apply strip_by_ends|]. split; [apply strip_by_ends|].
  exists x. split; [exact Hin | reflexivity].
Qed.

Lemma require_env_value_clean_witness :
  lit "s3cr3t" <> [] /\ strip (lit "s3cr3t") = lit "s3cr3t"
  /\ (forall c r, lit "s3cr3t" = c :: r -> isspace c = false)
  /\ (forall r c, lit "s3cr3t" = r ++ [c] -> isspace c = false)
  /\ exists var_name,
       In var_name [lit "FINE_OSS_ACCESS_KEY_SECRET"; lit "FINE_OSS_SECRET"]
       /\ lit "s3cr3t" = env_value (scenario_world 200) var_name.
Proof.
  apply (require_env_value_clean (scenario_world 200) (lit "FINE_OSS_ACCESS_KEY_SECRET")
           [lit "FINE_OSS_SECRET"] (lit "s3cr3t")
           [GetEnv (lit "FINE_OSS_ACCESS_KEY_SECRET"); GetEnv (lit "FINE_OSS_SECRET")]).
  reflexivity.
Defined.

(** The bucket name is the stripped value of the variable, or the default
    when that is empty; it is never blank. *)
Lemma bucket_name_clean w :
  bucket_name_of w <> [] /\ strip (bucket_name_of w) = bucket_name_of w
  /\ (bucket_name_of w = DEFAULT_BUCKET
      \/ bucket_name_of w = env_value w (lit "FINE_OSS_BUCKET")).
Proof.
  unfold bucket_name_of, env_value.
  destruct (environ w !! lit "FINE_OSS_BUCKET") as [v|].
  - destruct (strip v) as [|c r] eqn:Hv; cbn [or_else].
    + split; [discriminate|]. split; [reflexivity | left; reflexivity].
    + split; [discriminate|]. split; [|right; reflexivity].
      rewrite <- Hv. apply strip_by_idem.
  - split; [discriminate|]. split; [reflexivity | left; reflexivity].
Qed.

(** ** More on [upload_with_oss2] *)

(** The four ways an upload can go. *)
Lemma upload_cases w local_file endpoint bucket_name object_key :
  (oss2_installed w = false
   /\ upload_with_oss2 w local_file endpoint bucket_name object_key
      = (inl (RuntimeError (lit "Python package 'oss2' not installed, run: pip3 install oss2")),
         [ImportOss2]))
  \/ (oss2_installed w = true
      /\ exists e n1,
           require_env w (lit "FINE_OSS_ACCESS_KEY_ID") [lit "FINE_OSS_ID"]
           = (inl e, map GetEnv n1)
           /\ upload_with_oss2 w local_file endpoint bucket_name object_key
              = (inl e, ImportOss2 :: map GetEnv n1))
  \/ (oss2_installed w = true
      /\ exists id n1 e n2,
           require_env w (lit "FINE_OSS_ACCESS_KEY_ID") [lit "FINE_OSS_ID"]
           = (inr id, map GetEnv n1)
           /\ require_env w (lit "FINE_OSS_ACCESS_KEY_SECRET") [lit "FINE_OSS_SECRET"]
              = (inl e, map GetEnv n2)
           /\ upload_with_oss2 w local_file endpoint bucket_name object_key
              = (inl e, ImportOss2 :: map GetEnv n1 ++ map GetEnv n2))
  \/ (oss2_installed w = true
      /\ exists id n1 secret n2,
           require_env w (lit "FINE_OSS_ACCESS_KEY_ID") [lit "FINE_OSS_ID"]
           = (inr id, map GetEnv n1)
           /\ require_env w (lit "FINE_OSS_ACCESS_KEY_SECRET") [lit "FINE_OSS_SECRET"]
              = (inr secret, map GetEnv n2)
           /\ upload_with_oss2 w local_file endpoint bucket_name object_key
              = (upload_outcome
                   (sdk_put w (upload_request w local_file endpoint bucket_name object_key
                                 id secret (env_value w (lit "FINE_OSS_SECURITY_TOKEN")))),
                 ImportOss2 :: map GetEnv n1 ++ map GetEnv n2
                 ++ [GetEnv (lit "FINE_OSS_SECURITY_TOKEN");
                     PutObject (upload_request w local_file endpoint bucket_name object_key
                                  id secret (env_value w (lit "FINE_OSS_SECURITY_TOKEN")))])).
Proof.
  destruct (oss2_installed w) eqn:Hi.
  2: { left. split; [reflexivity|]. exact (upload_not_installed w _ _ _ _ Hi). }
  right.
  destruct (require_env w (lit "FINE_OSS_ACCESS_KEY_ID") [lit "FINE_OSS_ID"])
    as [[e | id] l1] eqn:H1;
    destruct (require_env_log_eq _ _ _ _ _ H1) as [n1 ->].
  { left. split; [reflexivity|]. exists e, n1. split; [reflexivity|].
    exact (upload_id_missing w _ _ _ _ e _ Hi H1). }
  right.
  destruct (require_env w (lit "FINE_OSS_ACCESS_KEY_SECRET") [lit "FINE_OSS_SECRET"])
    as [[e | secret] l2] eqn:H2;
    destruct (require_env_log_eq _ _ _ _ _ H2) as [n2 ->].
  { left. split; [reflexivity|]. exists id, n1, e, n2. repeat split.
    exact (upload_secret_missing w _ _ _ _ id _ e _ Hi H1 H2). }
  right. split; [reflexivity|]. exists id, n1, secret, n2. repeat split.
  exact (upload_put w _ _ _ _ id _ secret _ Hi H1 H2).
Qed.

Lemma upload_outcome_ok r :
  upload_outcome r = inr tt -> exists status, r = PutStatus status /\ 200 <= status <= 299.
Proof.
  destruct r as [status | msg]; cbn [upload_outcome]; [|discriminate].
  destruct (Z.ltb_spec status 200); destruct (Z.geb_spec status 300); cbn [orb];
    try discriminate.
  intros _. exists status. split; [reflexivity | lia].
Qed.

(** X10. [upload_with_oss2] returns normally only when the SDK is
    installed, both credentials were found, and the one put request it sent
    was answered with a status between 200 and 299. *)
Theorem upload_success_means_put (w : World) (local_file : Path)
    (endpoint bucket_name object_key : pystr) (log : list event) :
  upload_with_oss2 w local_file endpoint bucket_name object_key = (inr tt, log) ->
  oss2_installed w = true
  /\ exists id secret status,
       fst (require_env w (lit "FINE_OSS_ACCESS_KEY_ID") [lit "FINE_OSS_ID"]) = inr id
       /\ fst (require_env w (lit "FINE_OSS_ACCESS_KEY_SECRET") [lit "FINE_OSS_SECRET"])
          = inr secret
       /\ puts_of log
          = [upload_request w local_file endpoint bucket_name object_key id secret
               (env_value w (lit "FINE_OSS_SECURITY_TOKEN"))]
       /\ sdk_put w (upload_request w local_file endpoint bucket_name object_key id secret
                       (env_value w (lit "FINE_OSS_SECURITY_TOKEN")))
          = PutStatus status
       /\ 200 <= status <= 299.
Proof.
  intros H.
  destruct (upload_cases w local_file endpoint bucket_name object_key)
    as [[_ Hc] | [[_ (e & n1 & _ & Hc)] | [[_ (id & n1 & e & n2 & _ & _ & Hc)]
       | [Hi (id & n1 & secret & n2 & H1 & H2 & Hc)]]]];
    rewrite Hc in H; try discriminate.
  injection H as Hout <-.
  destruct (upload_outcome_ok _ Hout) as (status & Hput & Hrange).
  split; [exact Hi|]. exists id, secret, status.
  rewrite H1, H2. repeat split; try assumption; try apply Hrange.
  read_log. reflexivity.
Qed.

Lemma upload_success_means_put_witness :
  oss2_installed (scenario_world 204) = true
  /\ exists id secret status,
       fst (require_env (scenario_world 204) (lit "FINE_OSS_ACCESS_KEY_ID") [lit "FINE_OSS_ID"])
       = inr id
       /\ fst (require_env (scenario_world 204) (lit "FINE_OSS_ACCESS_KEY_SECRET")
                 [lit "FINE_OSS_SECRET"]) = inr secret
       /\ puts_of (snd (upload_with_oss2 (scenario_world 204) (mkPath (lit "dist/plugin.zip"))
                          (lit "https://h") (lit "b") (lit "k")))
          = [upload_request (scenario_world 204) (mkPath (lit "dist/plugin.zip"))
               (lit "https://h") (lit "b") (lit "k") id secret
               (env_value (scenario_world 204) (lit "FINE_OSS_SECURITY_TOKEN"))]
       /\ sdk_put (scenario_world 204)
            (upload_request (scenario_world 204) (mkPath (lit "dist/plugin.zip"))
               (lit "https://h") (lit "b") (lit "k") id secret
               (env_value (scenario_world 204) (lit "FINE_OSS_SECURITY_TOKEN")))
          = PutStatus status
       /\ 200 <= status <= 299.
Proof.
  apply (upload_success_means_put (scenario_world 204) (mkPath (lit "dist/plugin.zip"))
           (lit "https://h") (lit "b") (lit "k")).
  reflexivity.
Defined.

(** X11. With the SDK and both credentials, a security token that is not
    blank is used stripped, in an [StsAuth] with the access key id and the
    secret; that is the authentication of the one request that is sent. *)
Theorem upload_sts_token (w : World) (local_file : Path)
    (endpoint bucket_name object_key id secret : pystr) (l1 l2 : list event) :
  oss2_installed w = true ->
  require_env w (lit "FINE_OSS_ACCESS_KEY_ID") [lit "FINE_OSS_ID"] = (inr id, l1) ->
  require_env w (lit "FINE_OSS_ACCESS_KEY_SECRET") [lit "FINE_OSS_SECRET"] = (inr secret, l2) ->
  env_value w (lit "FINE_OSS_SECURITY_TOKEN") <> [] ->
  map req_auth (puts_of (snd (upload_with_oss2 w local_file endpoint bucket_name object_key)))
  = [StsAuth id secret (env_value w (lit "FINE_OSS_SECURITY_TOKEN"))]
  /\ strip (env_value w (lit "FINE_OSS_SECURITY_TOKEN"))
     = env_value w (lit "FINE_OSS_SECURITY_TOKEN").
Proof.
  intros Hi H1 H2 Htok.
  destruct (require_env_log_eq _ _ _ _ _ H1) as [n1 ->].
  destruct (require_env_log_eq _ _ _ _ _ H2) as [n2 ->].
  rewrite (upload_put w _ _ _ _ id _ secret _ Hi H1 H2). cbv zeta. read_log.
  split; [|apply strip_by_idem].
  unfold upload_request. cbn [map req_auth].
  destruct (env_value w (lit "FINE_OSS_SECURITY_TOKEN")); [congruence | reflexivity].
Qed.

Lemma upload_sts_token_witness :
  map req_auth
    (puts_of (snd (upload_with_oss2
                     (posix_world (scenario_vars ++ [(lit "FINE_OSS_SECURITY_TOKEN", lit " tok ")])
                        [] true 200)
                     (mkPath (lit "dist/plugin.zip")) (lit "https://h") (lit "b") (lit "k"))))
  = [StsAuth (lit "LTAI5tExample") (lit "s3cr3t")
       (env_value (posix_world (scenario_vars ++ [(lit "FINE_OSS_SECURITY_TOKEN", lit " tok ")])
                     [] true 200) (lit "FINE_OSS_SECURITY_TOKEN"))]
  /\ strip (env_value (posix_world (scenario_vars
                                      ++ [(lit "FINE_OSS_SECURITY_TOKEN", lit " tok ")])
                         [] true 200) (lit "FINE_OSS_SECURITY_TOKEN"))
     = env_value (posix_world (scenario_vars ++ [(lit "FINE_OSS_SECURITY_TOKEN", lit " tok ")])
                    [] true 200) (lit "FINE_OSS_SECURITY_TOKEN").
Proof.
  apply (upload_sts_token
           (posix_world (scenario_vars ++ [(lit "FINE_OSS_SECURITY_TOKEN", lit " tok ")])
              [] true 200)
           (mkPath (lit "dist/plugin.zip")) (lit "https://h") (lit "b") (lit "k")
           (lit "LTAI5tExample") (lit "s3cr3t")
           [GetEnv (lit "FINE_OSS_ACCESS_KEY_ID")]
           [GetEnv (lit "FINE_OSS_ACCESS_KEY_SECRET"); GetEnv (lit "FINE_OSS_SECRET")]);
    try reflexivity.
  vm_compute. discriminate.
Defined.

(** X12. The credentials are looked up in order. With the SDK installed,
    a missing access key id is reported with both of its names before the
    secret is looked at; a missing secret is reported with both of its names
    once the id was found; in neither case is the token read or a request
    sent. *)
Theorem upload_credential_errors (w : World) (local_file : Path)
    (endpoint bucket_name object_key : pystr) :
  oss2_installed w = true ->
  (env_value w (lit "FINE_OSS_ACCESS_KEY_ID") = [] ->
   env_value w (lit "FINE_OSS_ID") = [] ->
   upload_with_oss2 w local_file endpoint bucket_name object_key
   = (inl (RuntimeError
             (lit "Missing required env var: FINE_OSS_ACCESS_KEY_ID, FINE_OSS_ID")),
      [ImportOss2; GetEnv (lit "FINE_OSS_ACCESS_KEY_ID"); GetEnv (lit "FINE_OSS_ID")]))
  /\ (forall id l1,
        require_env w (lit "FINE_OSS_ACCESS_KEY_ID") [lit "FINE_OSS_ID"] = (inr id, l1) ->
        env_value w (lit "FINE_OSS_ACCESS_KEY_SECRET") = [] ->
        env_value w (lit "FINE_OSS_SECRET") = [] ->
        upload_with_oss2 w local_file endpoint bucket_name object_key
        = (inl (RuntimeError
                  (lit "Missing required env var: FINE_OSS_ACCESS_KEY_SECRET, FINE_OSS_SECRET")),
           ImportOss2 :: l1
           ++ [GetEnv (lit "FINE_OSS_ACCESS_KEY_SECRET"); GetEnv (lit "FINE_OSS_SECRET")])).
Proof.
  intros Hi. split.
  - intros Ha Hb.
    assert (Hall : Forall (fun x => env_value w x = [])
                     [lit "FINE_OSS_ACCESS_KEY_ID"; lit "FINE_OSS_ID"])
      by (repeat constructor; assumption).
    rewrite (upload_id_missing w _ _ _ _ _ _ Hi (require_env_blank w _ _ Hall)).
    reflexivity.
  - intros id l1 H1 Ha Hb.
    assert (Hall : Forall (fun x => env_value w x = [])
                     [lit "FINE_OSS_ACCESS_KEY_SECRET"; lit "FINE_OSS_SECRET"])
      by (repeat constructor; assumption).
    rewrite (upload_secret_missing w _ _ _ _ id _ _ _ Hi H1 (require_env_blank w _ _ Hall)).
    reflexivity.
Qed.

Lemma upload_credential_errors_witness :
  upload_with_oss2 (posix_world [] [] true 200) (mkPath (lit "dist/plugin.zip"))
    (lit "https://h") (lit "b") (lit "k")
  = (inl (RuntimeError (lit "Missing required env var: FINE_OSS_ACCESS_KEY_ID, FINE_OSS_ID")),
     [ImportOss2; GetEnv (lit "FINE_OSS_ACCESS_KEY_ID"); GetEnv (lit "FINE_OSS_ID")])
  /\ upload_with_oss2 (posix_world [(lit "FINE_OSS_ID", lit "id")] [] true 200)
       (mkPath (lit "dist/plugin.zip")) (lit "https://h") (lit "b") (lit "k")
     = (inl (RuntimeError
               (lit "Missing required env var: FINE_OSS_ACCESS_KEY_SECRET, FINE_OSS_SECRET")),
        ImportOss2 :: [GetEnv (lit "FINE_OSS_ACCESS_KEY_ID"); GetEnv (lit "FINE_OSS_ID")]
        ++ [GetEnv (lit "FINE_OSS_ACCESS_KEY_SECRET"); GetEnv (lit "FINE_OSS_SECRET")]).
Proof.
  split.
  - exact (proj1 (upload_credential_errors (posix_world [] [] true 200)
                    (mkPath (lit "dist/plugin.zip")) (lit "https://h") (lit "b") (lit "k")
                    eq_refl) eq_refl eq_refl).
  - exact (proj2 (upload_credential_errors (posix_world [(lit "FINE_OSS_ID", lit "id")] [] true 200)
                    (mkPath (lit "dist/plugin.zip")) (lit "https://h") (lit "b") (lit "k")
                    eq_refl) (lit "id")
             [GetEnv (lit "FINE_OSS_ACCESS_KEY_ID"); GetEnv (lit "FINE_OSS_ID")]
             eq_refl eq_refl eq_refl).
Defined.

(** ** More on [main] *)

(** The ways a run can go. *)
Lemma main_cases w argv :
  let local_file := mkPath (args_file (parse_args argv)) in
  let object_key := strip_chars (lit "/") (args_object_key (parse_args argv)) in
  (is_file w local_file = false
   /\ exists msg, main w argv = (1, [IsFile local_file; Stderr (lit "upload failed: " ++ msg)]))
  \/ (is_file w local_file = true
      /\ exists e n1,
           require_env w (lit "FINE_OSS_ENDPOINT") [] = (inl e, map GetEnv n1)
           /\ main w argv
              = (1, IsFile local_file :: map GetEnv n1
                    ++ [Stderr (lit "upload failed: " ++ exn_str e)]))
  \/ (is_file w local_file = true
      /\ exists raw n1,
           require_env w (lit "FINE_OSS_ENDPOINT") [] = (inr raw, map GetEnv n1)
           /\ ((object_key = []
                /\ main w argv
                   = (1, IsFile local_file :: map GetEnv n1
                         ++ [GetEnv (lit "FINE_OSS_BUCKET");
                             Stderr (lit "upload failed: object key must not be empty")]))
               \/ (object_key <> []
                   /\ exists r l2,
                        upload_with_oss2 w local_file (normalize_endpoint raw)
                          (bucket_name_of w) object_key = (r, l2)
                        /\ ((exists e,
                               (r = inl e
                                \/ r = inr tt
                                   /\ build_public_url (normalize_endpoint raw)
                                        (bucket_name_of w) object_key = inl e)
                               /\ main w argv
                                  = (1, IsFile local_file :: map GetEnv n1
                                        ++ GetEnv (lit "FINE_OSS_BUCKET") :: l2
                                        ++ [Stderr (lit "upload failed: " ++ exn_str e)]))
                            \/ (exists url,
                                  r = inr tt
                                  /\ build_public_url (normalize_endpoint raw)
                                       (bucket_name_of w) object_key = inr url
                                  /\ main w argv
                                     = match printed w
                                               (success_lines (path_str w local_file)
                                                  (bucket_name_of w) object_key url) with
                                       | (written, None) =>
                                           (0, IsFile local_file :: map GetEnv n1
                                               ++ GetEnv (lit "FINE_OSS_BUCKET") :: l2
                                               ++ map Stdout written)
                                       | (written, Some e) =>
                                           (1, IsFile local_file :: map GetEnv n1
                                               ++ GetEnv (lit "FINE_OSS_BUCKET") :: l2
                                               ++ map Stdout written
                                               ++ [Stderr (lit "upload failed: "
                                                           ++ exn_str e)])
                                       end))))).
Proof.
  cbv zeta.
  destruct (file_test w (mkPath (args_file (parse_args argv)))) as [| |msg] eqn:Ht.
  2: { left. split; [unfold is_file; rewrite Ht; reflexivity|].
       eexists. exact (main_file_missing w argv Ht). }
  2: { left. split; [unfold is_file; rewrite Ht; reflexivity|].
       exists msg. exact (main_file_test_raises w argv msg Ht). }
  assert (Hf : is_file w (mkPath (args_file (parse_args argv))) = true)
    by (unfold is_file; rewrite Ht; reflexivity).
  right.
  destruct (require_env w (lit "FINE_OSS_ENDPOINT") []) as [[e | raw] l1] eqn:H1;
    destruct (require_env_log_eq _ _ _ _ _ H1) as [n1 ->].
  { left. split; [exact Hf|]. exists e, n1. split; [reflexivity|].
    exact (main_endpoint_missing w argv e _ Hf H1). }
  right. split; [exact Hf|]. exists raw, n1. split; [reflexivity|].
  destruct (decide (strip_chars (lit "/") (args_object_key (parse_args argv)) = []))
    as [Hk | Hk].
  { left. split; [exact Hk|]. exact (main_key_empty w argv raw _ Hf H1 Hk). }
  right. split; [exact Hk|].
  destruct (upload_with_oss2 w (mkPath (args_file (parse_args argv))) (normalize_endpoint raw)
              (bucket_name_of w) (strip_chars (lit "/") (args_object_key (parse_args argv))))
    as [[e | []] l2] eqn:H2.
  { exists (inl e), l2. split; [reflexivity|]. left. exists e. split; [left; reflexivity|].
    exact (main_upload_raises w argv raw _ e l2 Hf H1 Hk H2). }
  exists (inr tt), l2. split; [reflexivity|].
  destruct (build_public_url (normalize_endpoint raw) (bucket_name_of w)
              (strip_chars (lit "/") (args_object_key (parse_args argv))))
    as [e | url] eqn:H3.
  - left. exists e. split; [right; split; reflexivity|].
    exact (main_url_raises w argv raw _ l2 e Hf H1 Hk H2 H3).
  - right. exists url. repeat split.
    exact (main_printed w argv raw _ l2 url Hf H1 Hk H2 H3).
Qed.



(** X14. A run sends at most one put request, and it sends one only when
    the file exists, the endpoint is set, the object key is not empty, the SDK
    is installed and both credentials are found. The request carries the
    normal form of the endpoint, a bucket name that is not empty and has
    no white space around it, the key without slashes around it, and the path
    of the file as a string. *)
Theorem main_put_request (w : World) (argv : Argv) :
  let local_file := mkPath (args_file (parse_args argv)) in
  let object_key := strip_chars (lit "/") (args_object_key (parse_args argv)) in
  puts_of (snd (main w argv)) = []
  \/ exists raw id secret,
       is_file w local_file = true
       /\ oss2_installed w = true
       /\ fst (require_env w (lit "FINE_OSS_ENDPOINT") []) = inr raw
       /\ fst (require_env w (lit "FINE_OSS_ACCESS_KEY_ID") [lit "FINE_OSS_ID"]) = inr id
       /\ fst (require_env w (lit "FINE_OSS_ACCESS_KEY_SECRET") [lit "FINE_OSS_SECRET"])
          = inr secret
       /\ object_key <> []
       /\ puts_of (snd (main w argv))
          = [upload_request w local_file (normalize_endpoint raw) (bucket_name_of w)
               object_key id secret (env_value w (lit "FINE_OSS_SECURITY_TOKEN"))]
       /\ bucket_name_of w <> []
       /\ strip (bucket_name_of w) = bucket_name_of w
       /\ startswith object_key (lit "/") = false
       /\ endswith object_key (lit "/") = false.
Proof.
  cbv zeta.
  destruct (main_cases w argv)
    as [[_ (msg & Hm)] | [[_ (e & n1 & _ & Hm)]
       | [Hf (raw & n1 & H1 & [[_ Hm] | [Hk (r & l2 & H2 & Hc)]])]]].
  - left. rewrite Hm. reflexivity.
  - left. rewrite Hm. read_log. reflexivity.
  - left. rewrite Hm. read_log. reflexivity.
  - rewrite (main_puts_of_upload w argv raw _ Hf H1 Hk).
    destruct (upload_cases w (mkPath (args_file (parse_args argv))) (normalize_endpoint raw)
                (bucket_name_of w)
                (strip_chars (lit "/") (args_object_key (parse_args argv))))
      as [[_ Hu] | [[_ (e & m1 & _ & Hu)] | [[_ (id & m1 & e & m2 & _ & _ & Hu)]
         | [Hi (id & m1 & secret & m2 & Ha & Hb & Hu)]]]];
      rewrite Hu.
    + left. reflexivity.
    + left. read_log. reflexivity.
    + left. read_log. reflexivity.
    + right. exists raw, id, secret. rewrite H1, Ha, Hb.
      destruct (bucket_name_clean w) as (Hb1 & Hb2 & _).
      repeat split; try assumption.
      * read_log. reflexivity.
      * apply strip_slash_startswith.
      * destruct (strip_chars (lit "/") (args_object_key (parse_args argv)))
          as [|c k] eqn:Eo; [congruence|].
        rewrite <- Eo.
        apply (strip_slash_endswith (args_object_key (parse_args argv)) []).
        rewrite Eo. discriminate.
Qed.

(** X15. An exception of the SDK call is reported like the script's own
    errors: when the run reaches the put and the SDK raises, the status is 1,
    the error stream has the one line [upload failed: ] followed by the text of
    the exception, nothing is printed on the standard output, and the one
    request was sent. *)
Theorem sdk_exception_reported (w : World) (argv : Argv) (raw id secret msg : pystr)
    (l0 l1 l2 : list event) :
  is_file w (mkPath (args_file (parse_args argv))) = true ->
  require_env w (lit "FINE_OSS_ENDPOINT") [] = (inr raw, l0) ->
  strip_chars (lit "/") (args_object_key (parse_args argv)) <> [] ->
  oss2_installed w = true ->
  require_env w (lit "FINE_OSS_ACCESS_KEY_ID") [lit "FINE_OSS_ID"] = (inr id, l1) ->
  require_env w (lit "FINE_OSS_ACCESS_KEY_SECRET") [lit "FINE_OSS_SECRET"] = (inr secret, l2) ->
  (forall req, sdk_put w req = PutRaises msg) ->
  fst (main w argv) = 1
  /\ stderr_of (snd (main w argv)) = [lit "upload failed: " ++ msg]
  /\ stdout_of (snd (main w argv)) = []
  /\ List.length (puts_of (snd (main w argv))) = 1%nat.
Proof.
  intros Hf H0 Hk Hi H1 H2 Hput.
  pose proof (upload_put w (mkPath (args_file (parse_args argv))) (normalize_endpoint raw)
                (bucket_name_of w) (strip_chars (lit "/") (args_object_key (parse_args argv)))
                id l1 secret l2 Hi H1 H2) as Hup.
  cbv zeta in Hup. rewrite Hput in Hup. cbn [upload_outcome] in Hup.
  destruct (require_env_log_eq _ _ _ _ _ H0) as [n0 ->].
  destruct (require_env_log_eq _ _ _ _ _ H1) as [n1 ->].
  destruct (require_env_log_eq _ _ _ _ _ H2) as [n2 ->].
  rewrite (main_upload_raises w argv raw _ _ _ Hf H0 Hk Hup). read_log.
  repeat split; reflexivity.
Qed.

Lemma sdk_exception_reported_witness :
  fst (main refusing_world scenario_argv) = 1
  /\ stderr_of (snd (main refusing_world scenario_argv))
     = [lit "upload failed: " ++ lit "connection refused"]
  /\ stdout_of (snd (main refusing_world scenario_argv)) = []
  /\ List.length (puts_of (snd (main refusing_world scenario_argv))) = 1%nat.
Proof.
  apply (sdk_exception_reported refusing_world scenario_argv
           (lit "oss-cn-hangzhou.aliyuncs.com")
           (lit "LTAI5tExample") (lit "s3cr3t") (lit "connection refused")
           [GetEnv (lit "FINE_OSS_ENDPOINT")] [GetEnv (lit "FINE_OSS_ACCESS_KEY_ID")]
           [GetEnv (lit "FINE_OSS_ACCESS_KEY_SECRET"); GetEnv (lit "FINE_OSS_SECRET")]);
    try reflexivity.
  vm_compute. discriminate.
Defined.

(** X16. The URL is built after the upload. When the upload succeeds for
    an object key that cannot be encoded as UTF-8, the request has been sent,
    and the run still ends with status 1, nothing on the standard output, and
    the encoder's error on the error stream. *)
Theorem unencodable_key_reported_after_upload (w : World) (argv : Argv) (raw : pystr)
    (l1 l2 : list event) :
  let local_file := mkPath (args_file (parse_args argv)) in
  let object_key := strip_chars (lit "/") (args_object_key (parse_args argv)) in
  is_file w local_file = true ->
  require_env w (lit "FINE_OSS_ENDPOINT") [] = (inr raw, l1) ->
  encodable object_key = false ->
  upload_with_oss2 w local_file (normalize_endpoint raw) (bucket_name_of w) object_key
  = (inr tt, l2) ->
  fst (main w argv) = 1
  /\ stdout_of (snd (main w argv)) = []
  /\ stderr_of (snd (main w argv))
     = [lit "upload failed: " ++ exn_str (encode_error object_key)]
  /\ map req_key (puts_of (snd (main w argv))) = [object_key].
Proof.
  cbv zeta. intros Hf H1 Henc H2.
  assert (Hk : strip_chars (lit "/") (args_object_key (parse_args argv)) <> [])
    by (intros E; rewrite E in Henc; discriminate).
  assert (H3 : build_public_url (normalize_endpoint raw) (bucket_name_of w)
                 (strip_chars (lit "/") (args_object_key (parse_args argv)))
               = inl (encode_error (strip_chars (lit "/") (args_object_key (parse_args argv))))).
  { unfold build_public_url. rewrite (quote_not_encodable _ Henc). reflexivity. }
  pose proof (upload_events w (mkPath (args_file (parse_args argv))) (normalize_endpoint raw)
                (bucket_name_of w) (strip_chars (lit "/") (args_object_key (parse_args argv))))
    as (Hout & Herr & _).
  rewrite H2 in Hout, Herr. cbn [snd] in Hout, Herr.
  assert (Hputs : map req_key (puts_of l2)
                  = [strip_chars (lit "/") (args_object_key (parse_args argv))]).
  { destruct (upload_cases w (mkPath (args_file (parse_args argv))) (normalize_endpoint raw)
                (bucket_name_of w)
                (strip_chars (lit "/") (args_object_key (parse_args argv))))
      as [[_ Hu] | [[_ (e & m1 & _ & Hu)] | [[_ (id & m1 & e & m2 & _ & _ & Hu)]
         | [Hi (id & m1 & secret & m2 & Ha & Hb & Hu)]]]];
      rewrite Hu in H2; try discriminate.
    injection H2 as _ <-. read_log. reflexivity. }
  destruct (require_env_log_eq _ _ _ _ _ H1) as [n1 ->].
  rewrite (main_url_raises w argv raw _ l2 _ Hf H1 Hk H2 H3). read_log.
  rewrite Hout, Herr, !app_nil_r, Hputs. repeat split; reflexivity.
Qed.

Lemma unencodable_key_reported_after_upload_witness :
  fst (main (scenario_world 200)
         {| opt_file := Some (lit "dist/plugin.zip"); opt_object_key := Some [0xDC80; 0x61] |})
  = 1
  /\ map req_key
       (puts_of (snd (main (scenario_world 200)
                        {| opt_file := Some (lit "dist/plugin.zip");
                           opt_object_key := Some [0xDC80; 0x61] |})))
     = [[0xDC80; 0x61]].
Proof.
  pose proof (unencodable_key_reported_after_upload (scenario_world 200)
                {| opt_file := Some (lit "dist/plugin.zip");
                   opt_object_key := Some [0xDC80; 0x61] |}
                (lit "oss-cn-hangzhou.aliyuncs.com") [GetEnv (lit "FINE_OSS_ENDPOINT")]
                [ImportOss2; GetEnv (lit "FINE_OSS_ACCESS_KEY_ID");
                 GetEnv (lit "FINE_OSS_ACCESS_KEY_SECRET"); GetEnv (lit "FINE_OSS_SECRET");
                 GetEnv (lit "FINE_OSS_SECURITY_TOKEN");
                 PutObject (upload_request (scenario_world 200)
                              (mkPath (lit "dist/plugin.zip"))
                              (lit "https://oss-cn-hangzhou.aliyuncs.com") (lit "fine-build")
                              [0xDC80; 0x61] (lit "LTAI5tExample") (lit "s3cr3t") [])]
                eq_refl eq_refl eq_refl eq_refl) as (Hst & _ & _ & Hputs).
  split; [exact Hst | exact Hputs].
Defined.

(** X17. The endpoint has one name. When the file exists and
    [FINE_OSS_ENDPOINT] is unset or blank, the run reads that variable alone
    and ends with status 1 and the line [upload failed: Missing required env
    var: FINE_OSS_ENDPOINT]; the bucket variable is not read, the SDK is not
    imported and nothing is sent. *)
Theorem endpoint_missing_reported (w : World) (argv : Argv) :
  is_file w (mkPath (args_file (parse_args argv))) = true ->
  env_value w (lit "FINE_OSS_ENDPOINT") = [] ->
  main w argv
  = (1, [IsFile (mkPath (args_file (parse_args argv)));
         GetEnv (lit "FINE_OSS_ENDPOINT");
         Stderr (lit "upload failed: Missing required env var: FINE_OSS_ENDPOINT")]).
Proof.
  intros Hf Hb.
  assert (Hall : Forall (fun x => env_value w x = []) [lit "FINE_OSS_ENDPOINT"])
    by (repeat constructor; exact Hb).
  rewrite (main_endpoint_missing w argv _ _ Hf (require_env_blank w _ [] Hall)).
  reflexivity.
Qed.

Lemma endpoint_missing_reported_witness :
  main (posix_world [(lit "FINE_OSS_ENDPOINT", [0x20; 0x09])] [lit "dist/plugin.zip"] true 200)
    scenario_argv
  = (1, [IsFile (mkPath (lit "dist//plugin.zip"));
         GetEnv (lit "FINE_OSS_ENDPOINT");
         Stderr (lit "upload failed: Missing required env var: FINE_OSS_ENDPOINT")]).
Proof.
  apply (endpoint_missing_reported
           (posix_world [(lit "FINE_OSS_ENDPOINT", [0x20; 0x09])] [lit "dist/plugin.zip"]
              true 200) scenario_argv); reflexivity.
Defined.

(** X18. The object key is checked after the endpoint and the bucket
    variable are read and before the SDK is touched: with an existing file,
    an endpoint and an empty key, the run reads the endpoint variable and the
    bucket variable and nothing else, does not import the SDK, and ends with
    the line [upload failed: object key must not be empty]. *)
Theorem empty_key_before_sdk (w : World) (argv : Argv) (raw : pystr) (l1 : list event) :
  is_file w (mkPath (args_file (parse_args argv))) = true ->
  require_env w (lit "FINE_OSS_ENDPOINT") [] = (inr raw, l1) ->
  strip_chars (lit "/") (args_object_key (parse_args argv)) = [] ->
  getenvs_of (snd (main w argv)) = [lit "FINE_OSS_ENDPOINT"; lit "FINE_OSS_BUCKET"]
  /\ imports_of (snd (main w argv)) = O
  /\ puts_of (snd (main w argv)) = []
  /\ stderr_of (snd (main w argv)) = [lit "upload failed: object key must not be empty"].
Proof.
  intros Hf H1 Hk.
  destruct (require_env_inv w _ _ _ _ H1) as (x & [<- | []] & _ & Hne).
  assert (Hfound : require_env w (lit "FINE_OSS_ENDPOINT") []
                   = (inr (env_value w (lit "FINE_OSS_ENDPOINT")),
                      map GetEnv ([] ++ [lit "FINE_OSS_ENDPOINT"]))).
  { apply (require_env_found w _ _ [] _ []); [reflexivity | constructor|].
    destruct (require_env_inv w _ _ _ _ H1) as (y & [<- | []] & <- & Hy). exact Hy. }
  rewrite H1 in Hfound. injection Hfound as _ ->.
  rewrite (main_key_empty w argv raw _ Hf H1 Hk). repeat split; reflexivity.
Qed.

Lemma empty_key_before_sdk_witness :
  getenvs_of (snd (main (scenario_world 200)
                     {| opt_file := Some (lit "dist/plugin.zip");
                        opt_object_key := Some (lit "//") |}))
  = [lit "FINE_OSS_ENDPOINT"; lit "FINE_OSS_BUCKET"]
  /\ imports_of (snd (main (scenario_world 200)
                        {| opt_file := Some (lit "dist/plugin.zip");
                           opt_object_key := Some (lit "//") |})) = O
  /\ puts_of (snd (main (scenario_world 200)
                     {| opt_file := Some (lit "dist/plugin.zip");
                        opt_object_key := Some (lit "//") |})) = []
  /\ stderr_of (snd (main (scenario_world 200)
                       {| opt_file := Some (lit "dist/plugin.zip");
                          opt_object_key := Some (lit "//") |}))
     = [lit "upload failed: object key must not be empty"].
Proof.
  apply (empty_key_before_sdk (scenario_world 200)
           {| opt_file := Some (lit "dist/plugin.zip"); opt_object_key := Some (lit "//") |}
           (lit "oss-cn-hangzhou.aliyuncs.com") [GetEnv (lit "FINE_OSS_ENDPOINT")]);
    reflexivity.
Defined.
